(** * Social publishing backend: OAuth linking and YouTube publish paths

    A shallow embedding of the parts of [social/router.py],
    [social/utils.py], [social/youtube_uploader.py],
    [social/platform_integrations.py] and [social/config.py] that decide
    the publish and account-linking behaviour, followed by the theorems
    proved about them.

    Conventions.
    - A Python [str] is a list of characters ([list ascii]); slicing
      [s[:n]] is [firstn n s], an f-string is list concatenation.
    - A Python exception is a value of [Exn]; code that may raise returns
      a [Res], and a [try/except] is the [match] on that result.
    - Everything outside the repository (the provider's HTTP answers, the
      Google client library, the file system, the database commit) is an
      explicit input of the function that consults it. *)

From Stdlib Require Import List Ascii String ZArith NArith Bool Lia Arith.
From Stdlib Require Import DecimalString.
Import ListNotations.

Set Implicit Arguments.

(* ===================================================================== *)
(** ** Python strings *)
(* ===================================================================== *)

Module Py.

Definition str := list ascii.

(** String literal. *)
Definition lit (s : string) : str := list_ascii_of_string s.

Definition char_eqb (a b : ascii) : bool := Ascii.eqb a b.

Fixpoint str_eqb (a b : str) : bool :=
  match a, b with
  | [], [] => true
  | x :: a', y :: b' => char_eqb x y && str_eqb a' b'
  | _, _ => false
  end.

(** Truthiness of a string: non-empty. *)
Definition truthy (s : str) : bool :=
  match s with [] => false | _ :: _ => true end.

(** [s[:n]] *)
Definition slice_to {A} (n : nat) (s : list A) : list A := firstn n s.

(** [s.replace(c, "")] for a one-character [c]: every occurrence goes. *)
Definition remove_char (c : ascii) (s : str) : str :=
  filter (fun x => negb (char_eqb x c)) s.

(** Characters [str.strip()] removes, among code points below 256. *)
Definition is_space (c : ascii) : bool :=
  let n := N_of_ascii c in
  (((9 <=? n) && (n <=? 13)) || ((28 <=? n) && (n <=? 32))
   || (n =? 133) || (n =? 160))%N.

Fixpoint lstrip_by (p : ascii -> bool) (s : str) : str :=
  match s with
  | [] => []
  | c :: r => if p c then lstrip_by p r else s
  end.

Definition strip_by (p : ascii -> bool) (s : str) : str :=
  rev (lstrip_by p (rev (lstrip_by p s))).

(** [s.strip()] *)
Definition strip (s : str) : str := strip_by is_space s.

(** [s.split(c)] for a one-character separator: one more part than there
    are separators, empty parts kept. *)
Fixpoint split (c : ascii) (s : str) : list str :=
  match s with
  | [] => [[]]
  | x :: r =>
      if char_eqb x c then [] :: split c r
      else match split c r with
           | h :: t => (x :: h) :: t
           | [] => [[x]]
           end
  end.

(** Values found in the schemaless settings dictionaries. *)
Inductive val :=
| VNone
| VBool (b : bool)
| VInt (z : Z)
| VStr (s : str).

(** A dictionary with string keys, in insertion order. *)
Definition dict (V : Type) := list (str * V).

Fixpoint get {V} (k : str) (d : dict V) : option V :=
  match d with
  | [] => None
  | (k', v) :: r => if str_eqb k k' then Some v else get k r
  end.

(** [d.get(k, default)] *)
Definition get_or {V} (k : str) (default : V) (d : dict V) : V :=
  match get k d with Some v => v | None => default end.

(** [k in d] *)
Definition mem {V} (k : str) (d : dict V) : bool :=
  match get k d with Some _ => true | None => false end.

(** Exceptions.  [HttpError] is [googleapiclient.errors.HttpError] with
    [e.resp.status], [e.content] and [str(e)]; every other exception
    class is an [Error] carrying [str(e)]. *)
Inductive Exn :=
| HttpError (status : Z) (content : str) (text : str)
| Error (text : str).

(** [str(e)] *)
Definition exn_str (e : Exn) : str :=
  match e with
  | HttpError _ _ t => t
  | Error t => t
  end.

(** [f"{n}"] for an integer. *)
Definition dec (n : Z) : str := lit (NilZero.string_of_int (Z.to_int n)).

(** Truthiness of a value. *)
Definition truthy_val (v : val) : bool :=
  match v with
  | VNone => false
  | VBool b => b
  | VInt z => negb (z =? 0)%Z
  | VStr s => truthy s
  end.

(** [f"{v}"] *)
Definition val_text (v : val) : str :=
  match v with
  | VStr s => s
  | VInt z => dec z
  | VBool true => lit "True"
  | VBool false => lit "False"
  | VNone => lit "None"
  end.

(** Result of code that may raise. *)
Inductive Res (A : Type) :=
| Ret (a : A)
| Raise (e : Exn).
Arguments Ret {A} a.
Arguments Raise {A} e.

Definition bind {A B} (m : Res A) (k : A -> Res B) : Res B :=
  match m with
  | Ret a => k a
  | Raise e => Raise e
  end.

(** [d[k]]: [KeyError] when the key is absent; [str(KeyError(k))] is the
    quoted key. *)
Definition item {A} (k : string) (v : option A) : Res A :=
  match v with
  | Some a => Ret a
  | None => Raise (Error (lit "'" ++ lit k ++ lit "'"))
  end.

End Py.

Import Py.

Notation "x <- m ;; k" := (Py.bind m (fun x => k))
  (at level 61, m at next level, right associativity).

(* ===================================================================== *)
(** ** social/config.py *)
(* ===================================================================== *)

Module Config.

(** [YOUTUBE_CONFIG["MAX_FILE_SIZE"]]: 128 * 1024 * 1024 * 1024 *)
Definition MAX_FILE_SIZE : Z := 128 * 1024 * 1024 * 1024.

(** [YOUTUBE_CONFIG["MAX_RETRIES"]] *)
Definition MAX_RETRIES : nat := 3.

(** [YOUTUBE_CONFIG["RETRIABLE_STATUS_CODES"]] *)
Definition RETRIABLE_STATUS_CODES : list Z := [500; 502; 503; 504]%Z.

Definition retriable (status : Z) : bool :=
  existsb (Z.eqb status) RETRIABLE_STATUS_CODES.

End Config.

(* ===================================================================== *)
(** ** The Google client library as seen by the upload code *)
(* ===================================================================== *)

(** What one call of [request.next_chunk()] does: it returns
    [(status, None)] while the transfer goes on, [(status, response)] when
    the provider answers with the final object, or it raises. *)
Inductive Chunk :=
| ChunkProgress
| ChunkDone (response : dict val)
| ChunkRaise (e : Exn).

(** Outcome of a function whose upload loop is driven by a finite script
    of [next_chunk] outcomes: it returned, an exception left it, or the
    script ended while the loop was still asking for chunks. *)
Inductive Outcome (A : Type) :=
| Returned (a : A)
| Propagated (e : Exn)
| Running.
Arguments Returned {A} a.
Arguments Propagated {A} e.
Arguments Running {A}.

(** The result dictionary of the publish operations. *)
Record PublishResult := {
  success : bool;
  post_id : option str;
  post_url : option str;
  error : option str
}.

Definition ok_result (id url : str) : PublishResult :=
  {| success := true; post_id := Some id; post_url := Some url; error := None |}.

Definition fail_result (msg : str) : PublishResult :=
  {| success := false; post_id := None; post_url := None; error := Some msg |}.

(** The metadata body of [videos().insert]: the snippet fields are typed,
    the status settings are kept as the dictionary the code builds. *)
Record Snippet := {
  title : str;
  description : str;
  tags : list str;
  categoryId : val;
  defaultLanguage : val
}.

Record Body := {
  snippet : Snippet;
  status : dict val
}.

(** Calls that leave the process, in the order they are made. *)
Inductive Event :=
| EvRefresh (refresh_token : str)
| EvBuild (access_token : str)
| EvInsert (access_token : str) (body : Body)
| EvNextChunk
| EvHttpPost (access_token : str) (body : Body)
| EvHttpPut.

(** The service object [build] returns; it remembers the credentials it
    was built from. *)
Record Service := {
  svc_token : str;
  svc_refresh_token : option str
}.

(** How a [while response is None] loop stands when it stops or when the
    script of chunk outcomes ends: the response it left with, the
    exception that left it, or still running; with the number of
    [next_chunk] calls made and the number of raising calls after which
    the loop called [next_chunk] again. *)
Record LoopEnd := {
  loop_result : Outcome (dict val);
  loop_calls : nat;
  loop_retries : nat
}.

(** The local file system: a path is mapped to the size of the file
    there, if there is one ([os.path.exists], [os.path.getsize]). *)
Definition FileSystem := str -> option Z.

Definition exists_ (fs : FileSystem) (path : str) : bool :=
  match fs path with Some _ => true | None => false end.

(** [f"https://www.youtube.com/watch?v={video_id}"] *)
Definition watch_url (video_id : str) : str :=
  (lit "https://www.youtube.com/watch?v=" ++ video_id).

(* ===================================================================== *)
(** ** social/youtube_uploader.py *)
(* ===================================================================== *)

Module YouTubeUploader.

(** [self.youtube_service]: [None] until [authenticate_with_token]
    succeeds. *)
Record Uploader := { youtube_service : option Service }.

(** [YouTubeUploader()] *)
Definition new : Uploader := {| youtube_service := None |}.

(** [authenticate_with_token]: builds the service from the stored tokens;
    [build] is the outcome of [googleapiclient.discovery.build]. *)
Definition authenticate_with_token (self : Uploader)
    (access_token : str) (refresh_token : option str)
    (build : Res unit) : Uploader * bool * list Event :=
  match build with
  | Ret _ =>
      ({| youtube_service :=
            Some {| svc_token := access_token;
                    svc_refresh_token := refresh_token |} |},
       true, [EvBuild access_token])
  | Raise _ => (self, false, [EvBuild access_token])
  end.

(** [[tag.replace("#", "").strip() for tag in tags if tag.strip()][:50]] *)
Definition clean_tags (tags : list str) : list str :=
  slice_to 50
    (map (fun tag => strip (remove_char "#"%char tag))
         (filter (fun tag => truthy (strip tag)) tags)).

Definition request_body (title : str) (description : option str)
    (tags : option (list str)) (category_id privacy_status made_for_kids : val)
    : Body :=
  let tags := match tags with None => [] | Some t => t end in
  {| snippet :=
       {| categoryId := category_id;
          title := slice_to 100 title;
          description :=
            match description with
            | Some d => if truthy d then slice_to 5000 d else []
            | None => []
            end;
          tags := clean_tags tags;
          defaultLanguage := VStr (lit "en") |};
     status :=
       [(lit "privacyStatus", privacy_status);
        (lit "madeForKids", made_for_kids);
        (lit "selfDeclaredMadeForKids", made_for_kids)] |}.

(** What the upload consults outside the process. *)
Record Env := {
  fs : FileSystem;
  (** outcome of [MediaFileUpload(...)] *)
  media : Res unit;
  (** outcome of [videos().insert(...)] *)
  insert : Res unit;
  (** outcomes of the successive [next_chunk()] calls *)
  chunks : list Chunk;
  (** [json.loads(e.content.decode('utf-8'))] followed by
      [.get('error', {}).get('message', ...)]: raises on malformed
      content, else the message if the document has one *)
  error_message_of : str -> Res (option str)
}.

(** The loop: a raising [next_chunk] is logged and the loop continues. *)
Fixpoint upload_loop (script : list Chunk) (calls retries : nat) : LoopEnd :=
  match script with
  | [] => {| loop_result := Running; loop_calls := calls;
             loop_retries := retries |}
  | ChunkProgress :: rest => upload_loop rest (S calls) retries
  | ChunkDone response :: _ =>
      {| loop_result := Returned response; loop_calls := S calls;
         loop_retries := retries |}
  | ChunkRaise _ :: rest => upload_loop rest (S calls) (S retries)
  end.

(** The [except googleapiclient.errors.HttpError] and [except Exception]
    handlers of [upload_video]. *)
Definition handle (env : Env) (e : Exn) : Outcome PublishResult :=
  match e with
  | HttpError _ content text =>
      match error_message_of env content with
      | Raise e' => Propagated e'
      | Ret m =>
          let error_message := match m with Some m => m | None => text end in
          Returned (fail_result (lit "YouTube API error: " ++ error_message))
      end
  | Error text => Returned (fail_result text)
  end.

Definition upload_video (self : Uploader) (env : Env)
    (video_path : str) (title : str) (description : option str)
    (tags : option (list str)) (category_id privacy_status made_for_kids : val)
    : Outcome PublishResult * list Event :=
  match youtube_service self with
  | None => (Returned (fail_result (lit "Not authenticated")), [])
  | Some svc =>
      if negb (exists_ (fs env) video_path) then
        (Returned (fail_result (lit "Video file not found: " ++ video_path)), [])
      else
        let body := request_body title description tags category_id
                                 privacy_status made_for_kids in
        match media env with
        | Raise e => (handle env e, [])
        | Ret _ =>
            match insert env with
            | Raise e => (handle env e, [EvInsert (svc_token svc) body])
            | Ret _ =>
                let fin := upload_loop (chunks env) 0 0 in
                let trace := EvInsert (svc_token svc) body
                             :: repeat EvNextChunk (loop_calls fin) in
                match loop_result fin with
                | Running => (Running, trace)
                | Propagated e => (handle env e, trace)
                | Returned response =>
                    match response, get (lit "id") response with
                    | _ :: _, Some video_id =>
                        (Returned (ok_result (val_text video_id)
                                             (watch_url (val_text video_id))),
                         trace)
                    | _, _ =>
                        (Returned (fail_result
                           (lit "Upload completed but no video ID received")),
                         trace)
                    end
                end
            end
        end
  end.

End YouTubeUploader.

(* ===================================================================== *)
(** ** Python's [uuid.UUID] *)
(* ===================================================================== *)

Module Uuid.

(** A UUID, by its [int] attribute; the constructor keeps it below
    [2^128]. *)
Definition UUID := N.

Definition valid (u : UUID) : Prop := (u < 2 ^ 128)%N.

Definition hex_digit (n : N) : ascii :=
  nth (N.to_nat n) (lit "0123456789abcdef") "0"%char.

(** ['%0kx' % n] for [n < 16^k] *)
Fixpoint hex_fixed (k : nat) (n : N) : str :=
  match k with
  | O => []
  | S k' => hex_fixed k' (n / 16) ++ [hex_digit (n mod 16)]
  end.

(** [str(u)]: the 32 hexadecimal digits in groups of 8-4-4-4-12. *)
Definition to_str (u : UUID) : str :=
  let hex := hex_fixed 32 u in
  firstn 8 hex ++ "-"%char
    :: firstn 4 (skipn 8 hex) ++ "-"%char
    :: firstn 4 (skipn 12 hex) ++ "-"%char
    :: firstn 4 (skipn 16 hex) ++ "-"%char
    :: skipn 20 hex.

Definition hex_value (c : ascii) : option N :=
  let n := N_of_ascii c in
  if ((48 <=? n) && (n <=? 57))%N then Some (n - 48)%N
  else if ((97 <=? n) && (n <=? 102))%N then Some (n - 87)%N
  else if ((65 <=? n) && (n <=? 70))%N then Some (n - 55)%N
  else None.

(** Blanks that [int] skips before and after the number: the ASCII
    white space of the C locale and, among code points below 256, the
    two that [int] first turns into a blank (U+0085, U+00A0). *)
Definition int_space (c : ascii) : bool :=
  let n := N_of_ascii c in
  (((9 <=? n) && (n <=? 13)) || (n =? 32) || (n =? 133) || (n =? 160))%N.

(** What the digit loop of [int] saw last. *)
Inductive Prev := PStart | PDigit | PUnderscore.

(** The digit loop of [int(s, 16)]: digits, with single underscores
    between them; [None] for two underscores in a row, an underscore at
    the end, or no digit at all; else the number and what follows it. *)
Fixpoint scan_digits (s : str) (acc : N) (prev : Prev) : option (N * str) :=
  let finish (rest : str) :=
    match prev with PDigit => Some (acc, rest) | _ => None end in
  match s with
  | [] => finish []
  | c :: r =>
      match hex_value c with
      | Some v => scan_digits r (16 * acc + v)%N PDigit
      | None =>
          if char_eqb c "_"%char then
            match prev with
            | PUnderscore => None
            | _ => scan_digits r acc PUnderscore
            end
          else finish s
      end
  end.

(** [int(s, 16)]: blanks, an optional sign, an optional [0x] or [0X]
    that one underscore may follow, the digits, blanks; [None] stands for
    the [ValueError] of anything else. *)
Definition int16 (s : str) : option Z :=
  let s := lstrip_by int_space s in
  let '(negative, s) :=
    match s with
    | c :: r =>
        if char_eqb c "+"%char then (false, r)
        else if char_eqb c "-"%char then (true, r)
        else (false, s)
    | [] => (false, s)
    end in
  let s :=
    match s with
    | z :: x :: r =>
        if char_eqb z "0"%char
           && (char_eqb x "x"%char || char_eqb x "X"%char)
        then match r with
             | u :: r' => if char_eqb u "_"%char then r' else r
             | [] => r
             end
        else s
    | _ => s
    end in
  match s with
  | c :: _ => if char_eqb c "_"%char then None else
      match scan_digits s 0 PStart with
      | Some (n, rest) =>
          if forallb int_space rest
          then Some (if negative then (- Z.of_N n)%Z else Z.of_N n)
          else None
      | None => None
      end
  | [] => None
  end.

Fixpoint starts_with (pat s : str) : bool :=
  match pat, s with
  | [], _ => true
  | p :: pat', c :: s' => char_eqb p c && starts_with pat' s'
  | _ :: _, [] => false
  end.

(** [s.replace(pat, "")] for a non-empty [pat]: occurrences are removed
    from the left, without overlap; [skip] characters of a match are
    still to be dropped. *)
Fixpoint remove_sub_from (pat : str) (skip : nat) (s : str) : str :=
  match s with
  | [] => []
  | c :: r =>
      match skip with
      | S k => remove_sub_from pat k r
      | O =>
          if starts_with pat s then remove_sub_from pat (List.length pat - 1) r
          else c :: remove_sub_from pat 0 r
      end
  end.

Definition remove_sub (pat s : str) : str := remove_sub_from pat 0 s.

Definition is_brace (c : ascii) : bool :=
  char_eqb c "{"%char || char_eqb c "}"%char.

(** [uuid.UUID(s)]:
    [hex = s.replace('urn:', '').replace('uuid:', '')],
    [hex = hex.strip('{}').replace('-', '')], a length check,
    [int(hex, 16)] and the range check of the constructor.  Thirty-two
    characters cannot give a number of [2^128] or more, and a minus sign
    goes with the dashes, so that check can only meet a negative zero.
    (The text of the [ValueError] of [int] goes on with the literal.) *)
Definition of_str (s : str) : Res UUID :=
  let hex := remove_sub (lit "uuid:") (remove_sub (lit "urn:") s) in
  let hex := remove_char "-"%char (strip_by is_brace hex) in
  if negb (List.length hex =? 32) then
    Raise (Error (lit "badly formed hexadecimal UUID string"))
  else
    match int16 hex with
    | Some n =>
        if (n <? 0)%Z then
          Raise (Error (lit "int is out of range (need a 128-bit value)"))
        else Ret (Z.to_N n)
    | None => Raise (Error (lit "invalid literal for int() with base 16"))
    end.

End Uuid.

(* ===================================================================== *)
(** ** social/models.py *)
(* ===================================================================== *)

(** A row of [social_accounts].  Times are seconds on the UTC clock. *)
Record SocialAccount := {
  id : Uuid.UUID;
  user_id : Uuid.UUID;
  platform : str;
  platform_user_id : option str;
  platform_username : option str;
  platform_email : option str;
  display_name : option str;
  access_token : str;
  refresh_token : option str;
  token_expires_at : option Z;
  primary_id : option str;
  platform_metadata : option (dict val);
  is_active : bool;
  is_verified : bool;
  connected_at : option Z;
  last_used_at : option Z;
  last_token_refresh : option Z
}.

(** Truthiness of an optional string: present and non-empty. *)
Definition truthy_opt (s : option str) : bool :=
  match s with Some s => truthy s | None => false end.

Definition opt_str_eqb (a b : option str) : bool :=
  match a, b with
  | Some x, Some y => str_eqb x y
  | None, None => true
  | _, _ => false
  end.

(* ===================================================================== *)
(** ** social/utils.py *)
(* ===================================================================== *)

Module YouTubeAPI.

(** What [get_youtube_service] and [upload_video] consult outside the
    process. *)
Record Env := {
  fs : FileSystem;
  (** whether the clock has passed a time *)
  past : Z -> bool;
  (** outcome of [creds.refresh(Request())]: the new [creds.token] and
      [creds.expiry] *)
  refresh : Res (str * option Z);
  (** outcome of [build(...)] *)
  build : Res unit;
  (** outcome of [MediaFileUpload(...)] *)
  media : Res unit;
  (** outcome of [videos().insert(...)] *)
  insert : Res unit;
  (** outcomes of the successive [next_chunk()] calls *)
  chunks : list Chunk
}.

Definition with_token (account : SocialAccount) (token : str)
    (expiry : option Z) : SocialAccount :=
  {| id := id account; user_id := user_id account;
     platform := platform account;
     platform_user_id := platform_user_id account;
     platform_username := platform_username account;
     platform_email := platform_email account;
     display_name := display_name account;
     access_token := token;
     refresh_token := refresh_token account;
     token_expires_at := expiry;
     primary_id := primary_id account;
     platform_metadata := platform_metadata account;
     is_active := is_active account;
     is_verified := is_verified account;
     connected_at := connected_at account;
     last_used_at := last_used_at account;
     last_token_refresh := last_token_refresh account |}.

(** [google.oauth2.credentials.Credentials], by what is used of it. *)
Record Credentials := {
  cr_token : str;
  cr_refresh_token : option str;
  cr_expiry : option Z
}.

(** [Credentials(token=account.access_token,
    refresh_token=account.refresh_token, token_uri=..., client_id=...,
    client_secret=..., scopes=...)]: no [expiry] is passed, and the
    stored [token_expires_at] is not looked at, so [creds.expiry] is
    [None]. *)
Definition credentials_of (account : SocialAccount) : Credentials :=
  {| cr_token := access_token account;
     cr_refresh_token := refresh_token account;
     cr_expiry := None |}.

(** [creds.expired]: credentials without an expiry never report
    expired. *)
Definition creds_expired (env : Env) (creds : Credentials) : bool :=
  match cr_expiry creds with
  | None => false
  | Some t => past env t
  end.

(** [get_youtube_service]: the credentials are made from the stored
    tokens, refreshed when they report expired and carry a refresh
    token, and the service is built from them.  Returns the service (or
    the exception re-raised), the account object as mutated, and the
    calls made. *)
Definition get_youtube_service (env : Env) (account : SocialAccount)
    : Res Service * SocialAccount * list Event :=
  let creds := credentials_of account in
  let build_with (account : SocialAccount) (before : list Event) :=
    let trace := before ++ [EvBuild (access_token account)] in
    match build env with
    | Ret _ =>
        (Ret {| svc_token := access_token account;
                svc_refresh_token := refresh_token account |},
         account, trace)
    | Raise e => (Raise e, account, trace)
    end in
  if creds_expired env creds && truthy_opt (cr_refresh_token creds) then
    let rt := match cr_refresh_token creds with Some t => t | None => [] end in
    match refresh env with
    | Raise e => (Raise e, account, [EvRefresh rt])
    | Ret (token, expiry) =>
        build_with (with_token account token expiry) [EvRefresh rt]
    end
  else build_with account [].

(** [f"HTTP error {e.resp.status}: {e.content}"] *)
Definition http_error_text (status : Z) (content : str) : str :=
  lit "HTTP error " ++ dec status ++ lit ": " ++ content.

(** The [while response is None] loop of [upload_video]; [retry] and
    [error] are the loop's variables. *)
Fixpoint upload_loop (script : list Chunk) (calls retry : nat)
    (error : option str) : LoopEnd :=
  match script with
  | [] => {| loop_result := Running; loop_calls := calls;
             loop_retries := retry |}
  | ChunkProgress :: rest => upload_loop rest (S calls) retry error
  | ChunkDone response :: _ =>
      {| loop_result := Returned response; loop_calls := S calls;
         loop_retries := retry |}
  | ChunkRaise (HttpError st content text) :: rest =>
      if Config.retriable st then
        let error := http_error_text st content in
        if Config.MAX_RETRIES <? S retry then
          {| loop_result :=
               Propagated (Error (lit "Max retries exceeded: " ++ error));
             loop_calls := S calls; loop_retries := retry |}
        else upload_loop rest (S calls) (S retry) (Some error)
      else
        {| loop_result := Propagated (HttpError st content text);
           loop_calls := S calls; loop_retries := retry |}
  | ChunkRaise e :: _ =>
      {| loop_result := Propagated e; loop_calls := S calls;
         loop_retries := retry |}
  end.

Definition body_of (title description : str) (tags : option (list str))
    (category_id privacy_status : str) (kwargs : dict val) : Body :=
  {| snippet :=
       {| title := slice_to 100 title;
          description := slice_to 5000 description;
          tags := match tags with
                  | Some ((_ :: _) as t) => slice_to 50 t
                  | _ => []
                  end;
          categoryId := VStr category_id;
          defaultLanguage :=
            get_or (lit "default_language") (VStr (lit "en")) kwargs |};
     status :=
       [(lit "privacyStatus", VStr privacy_status);
        (lit "selfDeclaredMadeForKids",
           get_or (lit "made_for_kids") (VBool false) kwargs);
        (lit "embeddable", get_or (lit "embeddable") (VBool true) kwargs);
        (lit "publicStatsViewable",
           get_or (lit "public_stats_viewable") (VBool true) kwargs);
        (lit "license", get_or (lit "license") (VStr (lit "youtube")) kwargs)] |}.

(** The body of the outer [try] of [upload_video]: what it returns or
    raises, with the account as mutated and the calls made. *)
Definition upload_video_try (env : Env) (account : SocialAccount)
    (video_path title description : str) (tags : option (list str))
    (category_id privacy_status : str) (kwargs : dict val)
    : Outcome PublishResult * SocialAccount * list Event :=
  match fs env video_path with
  | None =>
      (Propagated (Error (lit "Video file not found: " ++ video_path)),
       account, [])
  | Some file_size =>
      if (Config.MAX_FILE_SIZE <? file_size)%Z then
        (Propagated (Error (lit "Video file exceeds YouTube size limit (128GB)")),
         account, [])
      else
        match get_youtube_service env account with
        | (Raise e, account, trace) => (Propagated e, account, trace)
        | (Ret youtube, account, trace) =>
            let body := body_of title description tags category_id
                                privacy_status kwargs in
            match media env with
            | Raise e => (Propagated e, account, trace)
            | Ret _ =>
                let trace := trace ++ [EvInsert (svc_token youtube) body] in
                match insert env with
                | Raise e => (Propagated e, account, trace)
                | Ret _ =>
                    let fin := upload_loop (chunks env) 0 0 None in
                    let trace := trace ++ repeat EvNextChunk (loop_calls fin) in
                    match loop_result fin with
                    | Running => (Running, account, trace)
                    | Propagated e => (Propagated e, account, trace)
                    | Returned [] =>
                        (Propagated
                           (Error (lit "Upload failed - no response received")),
                         account, trace)
                    | Returned response =>
                        let video_id := get_or (lit "id") VNone response in
                        if truthy_val video_id then
                          (Returned (ok_result (val_text video_id)
                                               (watch_url (val_text video_id))),
                           account, trace)
                        else
                          (Propagated
                             (Error (lit "Upload completed but no video ID returned")),
                           account, trace)
                    end
                end
            end
        end
  end.

(** [upload_video]: the outer [except Exception] turns whatever the body
    raises into a failure dictionary. *)
Definition upload_video (env : Env) (account : SocialAccount)
    (video_path title description : str) (tags : option (list str))
    (category_id privacy_status : str) (kwargs : dict val)
    : Outcome PublishResult * SocialAccount * list Event :=
  match upload_video_try env account video_path title description tags
                         category_id privacy_status kwargs with
  | (Propagated e, account, trace) =>
      (Returned (fail_result (exn_str e)), account, trace)
  | r => r
  end.

End YouTubeAPI.

(* ===================================================================== *)
(** ** social/platform_integrations.py *)
(* ===================================================================== *)

Module YouTubeIntegration.

(** The [post_data] dictionary; [None] stands for a key that is absent.
    The description may be present with the value [None]. *)
Record PostData := {
  pd_title : option str;
  pd_description : option (option str);
  pd_tags : option (list str);
  pd_platform_settings : option (dict val);
  pd_video_path : option str
}.

(** The answer to the session-opening [session.post]. *)
Record PostResponse := {
  resp_status : Z;
  (** [resp.headers.get("Location")] *)
  resp_location : option str;
  (** [await resp.text()] *)
  resp_text : Res str
}.

(** The answer to the [session.put] of the file. *)
Record PutResponse := {
  put_status : Z;
  (** [await resp.json()] *)
  put_json : Res (dict val)
}.

Record Env := {
  fs : FileSystem;
  session_post : Res PostResponse;
  session_put : Res PutResponse
}.

(** [resp.status in [200, 201]] *)
Definition is_ok (status : Z) : bool := ((status =? 200) || (status =? 201))%Z.

(** [_upload_video_file]: opens the file, sends it, returns the decoded
    answer. *)
Definition _upload_video_file (env : Env) (upload_url video_path : str)
    : Res (dict val) * list Event :=
  match fs env video_path with
  | None =>
      (Raise (Error (lit "[Errno 2] No such file or directory: '"
                     ++ video_path ++ lit "'")), [])
  | Some _ =>
      match session_put env with
      | Raise e => (Raise e, [EvHttpPut])
      | Ret resp =>
          if is_ok (put_status resp) then (put_json resp, [EvHttpPut])
          else (Raise (Error (lit "Video file upload failed: "
                              ++ dec (put_status resp))), [EvHttpPut])
      end
  end.

Definition snippet_of (post_data : PostData) (settings : dict val)
    : Res Snippet :=
  title <- item "title" (pd_title post_data) ;;
  description <- item "description" (pd_description post_data) ;;
  tags <- item "tags" (pd_tags post_data) ;;
  Ret {| title := slice_to 100 title;
         description :=
           match description with
           | Some d => if truthy d then slice_to 5000 d else []
           | None => []
           end;
         tags := map (remove_char "#"%char) (slice_to 500 tags);
         categoryId := get_or (lit "category_id") (VStr (lit "22")) settings;
         defaultLanguage := VStr (lit "en") |}.

Definition status_settings_of (settings : dict val) : dict val :=
  [(lit "privacyStatus",
      get_or (lit "privacy_status") (VStr (lit "private")) settings);
   (lit "madeForKids", get_or (lit "made_for_kids") (VBool false) settings);
   (lit "embeddable", get_or (lit "embeddable") (VBool true) settings);
   (lit "publicStatsViewable",
      get_or (lit "public_stats") (VBool true) settings)].

(** The body of the [try] of [post_video]. *)
Definition post_video_try (env : Env) (access_token : str)
    (post_data : PostData) : Res PublishResult * list Event :=
  let settings :=
    match pd_platform_settings post_data with Some s => s | None => [] end in
  match snippet_of post_data settings with
  | Raise e => (Raise e, [])
  | Ret snippet =>
      let body := {| snippet := snippet;
                     status := status_settings_of settings |} in
      let trace := [EvHttpPost access_token body] in
      match session_post env with
      | Raise e => (Raise e, trace)
      | Ret resp =>
          let failed :=
            match resp_text resp with
            | Raise e => Raise e
            | Ret error =>
                Ret (fail_result (lit "YouTube upload failed: " ++ error))
            end in
          if is_ok (resp_status resp) then
            match resp_location resp with
            | Some ((_ :: _) as location) =>
                match item "video_path" (pd_video_path post_data) with
                | Raise e => (Raise e, trace)
                | Ret video_path =>
                    let '(video_result, sent) :=
                      _upload_video_file env location video_path in
                    (video_result <- video_result ;;
                     video_id <- item "id" (get (lit "id") video_result) ;;
                     Ret (ok_result (val_text video_id)
                                    (watch_url (val_text video_id))),
                     trace ++ sent)
                end
            | _ => (failed, trace)
            end
          else (failed, trace)
      end
  end.

(** [post_video]: the [except Exception] returns the failure dictionary. *)
Definition post_video (env : Env) (access_token : str)
    (post_data : PostData) : Res PublishResult * list Event :=
  match post_video_try env access_token post_data with
  | (Raise e, trace) => (Ret (fail_result (exn_str e)), trace)
  | r => r
  end.

End YouTubeIntegration.

(* ===================================================================== *)
(** ** social/router.py *)
(* ===================================================================== *)

Module Router.

Import Uuid.

(** The authenticated user ([auth.models.User]), by the column used. *)
Record User := { u_id : UUID }.

(** A row of [videos] ([video.models.Video]), by the columns used. *)
Record Video := {
  v_id : UUID;
  v_task_id : str;
  v_user_id : UUID;
  v_file_path : option str;
  v_original_text : option str
}.

(** A row of [social_posts]. *)
Record SocialPost := {
  sp_id : UUID;
  sp_account_id : UUID;
  sp_video_id : UUID;
  sp_title : str;
  sp_description : str;
  sp_tags : list str;
  sp_status : str;
  sp_platform_settings : dict val;
  sp_created_at : Z;
  sp_platform_post_id : option str;
  sp_post_url : option str;
  sp_posted_at : option Z;
  sp_metrics : dict val;
  sp_error_message : option str
}.

(** The committed contents of the database. *)
Record DB := {
  accounts : list SocialAccount;
  posts : list SocialPost;
  videos : list Video
}.

Definition set_accounts (db : DB) (a : list SocialAccount) : DB :=
  {| accounts := a; posts := posts db; videos := videos db |}.

Definition set_posts (db : DB) (p : list SocialPost) : DB :=
  {| accounts := accounts db; posts := p; videos := videos db |}.

(** What a route answers: its value, or the [HTTPException] it raises. *)
Inductive Http (A : Type) :=
| Ok (a : A)
| HTTPException (status_code : Z) (detail : str).
Arguments Ok {A} a.
Arguments HTTPException {A} status_code detail.

(** The keys of [PLATFORM_CONFIGS] with their display names. *)
Definition PLATFORM_CONFIGS : dict str :=
  [(lit "youtube", lit "YouTube");
   (lit "instagram", lit "Instagram");
   (lit "facebook", lit "Facebook");
   (lit "linkedin", lit "LinkedIn");
   (lit "tiktok", lit "TikTok");
   (lit "twitter", lit "Twitter/X")].

(* --------------------------------------------------------------------- *)
(** *** POST /social/accounts/add *)

(** [SocialAccountCreate] *)
Record SocialAccountCreate := {
  ac_platform : str;
  ac_platform_username : str;
  ac_platform_email : option str;
  ac_display_name : option str;
  ac_access_token : str;
  ac_refresh_token : option str;
  ac_token_expires_at : option Z;
  ac_primary_id : option str;
  ac_platform_metadata : option (dict val);
  ac_is_verified : bool
}.

(** [SocialAccountResponse] *)
Record SocialAccountResponse := {
  ar_id : str;
  ar_platform : str;
  ar_platform_username : option str;
  ar_primary_id : option str;
  ar_is_active : bool;
  ar_platform_metadata : option (dict val)
}.

Record AddEnv := {
  add_now : Z;
  (** the [uuid.uuid4] default of the new row's [id] *)
  add_new_id : UUID;
  (** outcome of [db.add(social_account)] and [db.commit()] *)
  add_commit : Res unit;
  (** outcome of [db.refresh(social_account)] and of the validation in
      [SocialAccountResponse(...)] *)
  add_respond : Res unit
}.

(** The filter of the "already exists" query. *)
Definition same_username (user : User) (name username : str)
    (a : SocialAccount) : bool :=
  N.eqb (user_id a) (u_id user)
  && str_eqb (platform a) name
  && opt_str_eqb (platform_username a) (Some username).

Definition add_social_account_manual (env : AddEnv) (db : DB)
    (account_data : SocialAccountCreate) (current_user : User)
    : Http SocialAccountResponse * DB :=
  if negb (mem (ac_platform account_data) PLATFORM_CONFIGS) then
    (HTTPException 400
       (lit "Unsupported platform: " ++ ac_platform account_data), db)
  else
    match find (same_username current_user (ac_platform account_data)
                              (ac_platform_username account_data))
               (accounts db) with
    | Some _ =>
        (HTTPException 400
           (lit "Account already exists for " ++ ac_platform account_data), db)
    | None =>
        let social_account :=
          {| id := add_new_id env;
             user_id := u_id current_user;
             platform := ac_platform account_data;
             platform_user_id := ac_primary_id account_data;
             platform_username := Some (ac_platform_username account_data);
             platform_email := ac_platform_email account_data;
             display_name := ac_display_name account_data;
             access_token := ac_access_token account_data;
             refresh_token := ac_refresh_token account_data;
             token_expires_at := ac_token_expires_at account_data;
             primary_id := ac_primary_id account_data;
             platform_metadata := ac_platform_metadata account_data;
             is_active := true;
             is_verified := ac_is_verified account_data;
             connected_at := Some (add_now env);
             last_used_at := Some (add_now env);
             last_token_refresh := Some (add_now env) |} in
        match add_commit env with
        | Raise e =>
            (* db.rollback() *)
            (HTTPException 400 (lit "Failed to add account: " ++ exn_str e), db)
        | Ret _ =>
            let db' := set_accounts db (accounts db ++ [social_account]) in
            match add_respond env with
            | Raise e =>
                (* the row is committed; db.rollback() finds nothing to undo *)
                (HTTPException 400
                   (lit "Failed to add account: " ++ exn_str e), db')
            | Ret _ =>
                (Ok {| ar_id := to_str (id social_account);
                       ar_platform := platform social_account;
                       ar_platform_username := platform_username social_account;
                       ar_primary_id := primary_id social_account;
                       ar_is_active := is_active social_account;
                       ar_platform_metadata :=
                         platform_metadata social_account |}, db')
            end
        end
    end.

(* --------------------------------------------------------------------- *)
(** *** POST /social/post *)

(** [PostRequest] *)
Record PostRequest := {
  rq_video_id : str;
  rq_platforms : list str;
  rq_title : str;
  rq_description : option str;
  rq_tags : list str;
  rq_platform_settings : option (dict (dict val))
}.

(** [PostResponse] *)
Record PostResponse := {
  pr_id : str;
  pr_platform : str;
  pr_platform_post_id : option str;
  pr_post_url : option str;
  pr_status : str;
  pr_title : option str;
  pr_description : option str;
  pr_posted_at : option Z;
  pr_error_message : option str;
  pr_metrics : dict val
}.

(** What one pass of the loop over [request.platforms] consults outside
    the process when the platform is ["youtube"]. *)
Record PostEnv := {
  now : Z;
  (** the [uuid.uuid4] default of the new post's [id] *)
  new_post_id : UUID;
  (** outcome of [db.add(post)], [db.commit()], [db.refresh(post)] *)
  commit_post : Res unit;
  (** outcome of [googleapiclient.discovery.build] *)
  build : Res unit;
  (** outcome of the [db.commit()] that records a failed authentication *)
  commit_auth_failed : Res unit;
  (** [os.path.abspath(os.path.join(base_video_dir,
      os.path.basename(file_path)))] *)
  full_video_path : str -> str;
  upload_env : YouTubeUploader.Env;
  (** outcome of the closing [db.commit()] *)
  commit_final : Res unit;
  (** the [uuid.uuid4()] of the handler's response *)
  fallback_id : UUID
}.

(** What the loop carries: the database, the module-level uploader, the
    list being built and the calls made so far. *)
Record PostState := {
  st_db : DB;
  st_uploader : YouTubeUploader.Uploader;
  response_posts : list PostResponse;
  st_trace : list Event
}.

Definition youtube : str := lit "youtube".

(** [a or b] on strings. *)
Definition str_or (a b : str) : str := if truthy a then a else b.

Definition opt_or (a : option str) (b : str) : str :=
  match a with Some s => str_or s b | None => b end.

Definition list_or {A} (a b : list A) : list A :=
  match a with [] => b | _ :: _ => a end.

(** [request.platform_settings.get("youtube", {}) if
    request.platform_settings else {}] *)
Definition youtube_settings_of (request : PostRequest) : dict val :=
  match rq_platform_settings request with
  | Some ((_ :: _) as s) => get_or youtube [] s
  | _ => []
  end.

Definition set_post_status (post : SocialPost) (status : str)
    (platform_post_id post_url : option str) (posted_at : option Z)
    (metrics : dict val) (error_message : option str) : SocialPost :=
  {| sp_id := sp_id post; sp_account_id := sp_account_id post;
     sp_video_id := sp_video_id post; sp_title := sp_title post;
     sp_description := sp_description post; sp_tags := sp_tags post;
     sp_status := status;
     sp_platform_settings := sp_platform_settings post;
     sp_created_at := sp_created_at post;
     sp_platform_post_id := platform_post_id;
     sp_post_url := post_url;
     sp_posted_at := posted_at;
     sp_metrics := metrics;
     sp_error_message := error_message |}.

(** A commit of the mutated [post] object: its row is replaced. *)
Definition save_post (db : DB) (post : SocialPost) : DB :=
  set_posts db
    (map (fun p => if N.eqb (sp_id p) (sp_id post) then post else p) (posts db)).

(** The response of the [except Exception as youtube_error] handler. *)
Definition error_response (env : PostEnv) (request : PostRequest) (e : Exn)
    : PostResponse :=
  {| pr_id := to_str (fallback_id env);
     pr_platform := youtube;
     pr_platform_post_id := None;
     pr_post_url := None;
     pr_status := lit "failed";
     pr_title := Some (rq_title request);
     pr_description := None;
     pr_posted_at := None;
     pr_error_message := Some (lit "YouTube error: " ++ exn_str e);
     pr_metrics := [] |}.

Definition append (st : PostState) (r : PostResponse) : PostState :=
  {| st_db := st_db st; st_uploader := st_uploader st;
     response_posts := response_posts st ++ [r];
     st_trace := st_trace st |}.

Definition with_db (st : PostState) (db : DB) : PostState :=
  {| st_db := db; st_uploader := st_uploader st;
     response_posts := response_posts st; st_trace := st_trace st |}.

(** The inner [try] around the upload: the path is computed, the file is
    looked for, the uploader is called; whatever is raised becomes a
    failure dictionary. *)
Definition upload_step (env : PostEnv) (uploader : YouTubeUploader.Uploader)
    (request : PostRequest) (video : Video) (youtube_settings : dict val)
    : Outcome PublishResult * list Event :=
  match v_file_path video with
  | None =>
      (Returned (fail_result
         (lit "expected str, bytes or os.PathLike object, not NoneType")), [])
  | Some file_path =>
      let path := full_video_path env file_path in
      if negb (exists_ (YouTubeUploader.fs (upload_env env)) path) then
        (Returned (fail_result (lit "Video file not found: " ++ path)), [])
      else
        match YouTubeUploader.upload_video uploader (upload_env env) path
                (str_or (rq_title request) (lit "AI Generated Video"))
                (Some (opt_or (rq_description request)
                         (lit "AI-generated video: "
                          ++ opt_or (v_original_text video) [])))
                (Some (list_or (rq_tags request)
                         [lit "AI"; lit "Video"; lit "Generated"]))
                (get_or (lit "category_id") (VStr (lit "28")) youtube_settings)
                (get_or (lit "privacy_status") (VStr (lit "private"))
                        youtube_settings)
                (get_or (lit "made_for_kids") (VBool false) youtube_settings)
        with
        | (Propagated e, trace) => (Returned (fail_result (exn_str e)), trace)
        | r => r
        end
  end.

(** One pass of the loop for [platform == "youtube"]. *)
Definition youtube_pass (env : PostEnv) (request : PostRequest)
    (current_user : User) (st : PostState) : Outcome PostState :=
  let handler (st : PostState) (e : Exn) :=
    Returned (append st (error_response env request e)) in
  let db := st_db st in
  match find (fun v => str_eqb (v_task_id v) (rq_video_id request)
                       && N.eqb (v_user_id v) (u_id current_user))
             (videos db) with
  | None => handler st (Error (lit "Video not found"))
  | Some video =>
  match find (fun a => N.eqb (user_id a) (u_id current_user)
                       && str_eqb (platform a) youtube
                       && is_active a)
             (accounts db) with
  | None => handler st (Error (lit "No YouTube account connected"))
  | Some youtube_account =>
  let post :=
    {| sp_id := new_post_id env;
       sp_account_id := id youtube_account;
       sp_video_id := v_id video;
       sp_title := str_or (rq_title request) (lit "AI Generated Video");
       sp_description :=
         opt_or (rq_description request) (lit "Amazing AI generated video!");
       sp_tags := list_or (rq_tags request) [lit "AI"; lit "Video"];
       sp_status := lit "uploading";
       sp_platform_settings := youtube_settings_of request;
       sp_created_at := now env;
       sp_platform_post_id := None;
       sp_post_url := None;
       sp_posted_at := None;
       sp_metrics := [];
       sp_error_message := None |} in
  match commit_post env with
  | Raise e => handler st e
  | Ret _ =>
  let db := set_posts db (posts db ++ [post]) in
  let '(uploader, auth_success, built) :=
    YouTubeUploader.authenticate_with_token (st_uploader st)
      (access_token youtube_account) (refresh_token youtube_account)
      (build env) in
  let st := {| st_db := db; st_uploader := uploader;
               response_posts := response_posts st;
               st_trace := st_trace st ++ built |} in
  if negb auth_success then
    match commit_auth_failed env with
    | Raise e => handler st e
    | Ret _ =>
        let post := set_post_status post (lit "failed") None None None []
                      (Some (lit "YouTube authentication failed")) in
        handler (with_db st (save_post db post))
                (Error (lit "YouTube authentication failed"))
    end
  else
  match upload_step env uploader request video (youtube_settings_of request) with
  | (Running, _) => Running
  | (Propagated e, sent) => handler st e
  | (Returned upload_result, sent) =>
      let st := {| st_db := db; st_uploader := uploader;
                   response_posts := response_posts st;
                   st_trace := st_trace st ++ sent |} in
      if success upload_result then
        match item "video_id" (post_id upload_result),
              item "video_url" (post_url upload_result) with
        | Ret video_id, Ret video_url =>
            let metrics :=
              [(lit "views", VInt 0); (lit "likes", VInt 0);
               (lit "comments", VInt 0);
               (lit "upload_status", VStr (lit "uploaded"));
               (lit "youtube_video_id", VStr video_id)] in
            let post := set_post_status post (lit "posted") (Some video_id)
                          (Some video_url) (Some (now env)) metrics None in
            let st := append st
              {| pr_id := to_str (sp_id post);
                 pr_platform := youtube;
                 pr_platform_post_id := Some video_id;
                 pr_post_url := Some video_url;
                 pr_status := lit "posted";
                 pr_title := Some (rq_title request);
                 pr_description := rq_description request;
                 pr_posted_at := Some (now env);
                 pr_error_message := None;
                 pr_metrics := metrics |} in
            match commit_final env with
            | Ret _ => Returned (with_db st (save_post db post))
            | Raise e => handler st e
            end
        | Raise e, _ | _, Raise e => handler st e
        end
      else
        let error_message :=
          match error upload_result with
          | Some m => m
          | None => lit "YouTube upload failed"
          end in
        let post := set_post_status post (lit "failed") None None None []
                      (Some error_message) in
        let st := append st
          {| pr_id := to_str (sp_id post);
             pr_platform := youtube;
             pr_platform_post_id := None;
             pr_post_url := None;
             pr_status := lit "failed";
             pr_title := Some (rq_title request);
             pr_description := None;
             pr_posted_at := None;
             pr_error_message := Some error_message;
             pr_metrics := [] |} in
        match commit_final env with
        | Ret _ => Returned (with_db st (save_post db post))
        | Raise e => handler st e
        end
  end
  end
  end
  end.

(** The loop [for platform in request.platforms]; [envs i] is what the
    pass at position [i] of the list meets.  Any platform other than
    ["youtube"] falls to the [else: pass] branch. *)
Fixpoint create_posts_loop (envs : nat -> PostEnv) (request : PostRequest)
    (current_user : User) (i : nat) (platforms : list str) (st : PostState)
    : Outcome PostState :=
  match platforms with
  | [] => Returned st
  | p :: rest =>
      if str_eqb p youtube then
        match youtube_pass (envs i) request current_user st with
        | Returned st' =>
            create_posts_loop envs request current_user (S i) rest st'
        | other => other
        end
      else create_posts_loop envs request current_user (S i) rest st
  end.

(** [create_posts]: the responses it returns, with the database and the
    module-level uploader as it leaves them. *)
Definition create_posts (envs : nat -> PostEnv) (db : DB)
    (uploader : YouTubeUploader.Uploader) (request : PostRequest)
    (current_user : User) : Outcome PostState :=
  create_posts_loop envs request current_user 0 (rq_platforms request)
    {| st_db := db; st_uploader := uploader; response_posts := [];
       st_trace := [] |}.

(* --------------------------------------------------------------------- *)
(** *** GET /social/auth/{platform} *)

(** [f"{current_user.id}:youtube:{uuid.uuid4()}"] *)
Definition state_of (current_user : User) (nonce : UUID) : str :=
  to_str (u_id current_user) ++ ":"%char :: youtube ++ ":"%char :: to_str nonce.

Record AuthStart := {
  as_platform : str;
  as_auth_url : str;
  as_state : str
}.

(** [initiate_oauth]; [client_id] is [settings.youtube_client_id] and
    [nonce] the [uuid.uuid4()] drawn.  For a platform other than
    ["youtube"] the function ends without a value. *)
Definition initiate_oauth (client_id : option str) (nonce : UUID)
    (name : str) (current_user : User) : Http (option AuthStart) :=
  if str_eqb name youtube then
    match client_id with
    | Some ((_ :: _) as client_id) =>
        let redirect_uri :=
          lit "http://localhost:8000/social/auth/youtube/callback" in
        let scopes :=
          lit "https://www.googleapis.com/auth/youtube.upload https://www.googleapis.com/auth/youtube.readonly" in
        let state := state_of current_user nonce in
        Ok (Some
          {| as_platform := name;
             as_auth_url :=
               lit "https://accounts.google.com/o/oauth2/auth?"
               ++ lit "client_id=" ++ client_id ++ lit "&"
               ++ lit "redirect_uri=" ++ redirect_uri ++ lit "&"
               ++ lit "scope=" ++ scopes ++ lit "&"
               ++ lit "response_type=code&"
               ++ lit "access_type=offline&"
               ++ lit "prompt=consent&"
               ++ lit "state=" ++ state;
             as_state := state |})
    | _ => HTTPException 400 (lit "YouTube client ID not configured")
    end
  else Ok None.

(* --------------------------------------------------------------------- *)
(** *** GET /social/auth/youtube/callback *)

(** [response.json()] of the token endpoint. *)
Record Tokens := {
  tk_access_token : option str;
  tk_refresh_token : option str;
  tk_expires_in : option Z
}.

Record TokenResponse := {
  tr_status_code : Z;
  tr_json : Res Tokens
}.

(** What the code reads of the first item of the channel list. *)
Record Channel := {
  channel_id : str;
  channel_title : str;
  subscriber_count : Z;
  video_count : Z;
  view_count : Z
}.

(** The answer of the channels endpoint: [cr_items] is
    [channel_response.json()["items"]]; reading the fields of an item
    may raise. *)
Record ChannelResponse := {
  cr_status_code : Z;
  cr_items : Res (list (Res Channel))
}.

(** The provider and the database as one link attempt meets them. *)
Record Provider := {
  (** [requests.post("https://oauth2.googleapis.com/token", ...)] *)
  token_response : Res TokenResponse;
  (** [requests.get("https://www.googleapis.com/youtube/v3/channels", ...)] *)
  channel_response : Res ChannelResponse;
  link_now : Z;
  (** the [uuid.uuid4] default of a new row's [id] *)
  link_new_id : UUID;
  (** outcome of [db.commit()] *)
  link_commit : Res unit;
  (** outcome of the [db.refresh(account)] that [exchange_youtube_token]
      makes after the commit *)
  link_refresh : Res unit
}.

(** The redirects of [youtube_oauth_callback], one per [return]. *)
Inductive Redirect :=
| Redirect_error (error_msg : str)
| Redirect_missing_code_or_state
| Redirect_token_exchange_failed
| Redirect_success (channel : str)
| Redirect_channel_fetch_failed
| Redirect_exception (e : Exn).

(** The filter of the "account already exists" query. *)
Definition same_channel (user : UUID) (channel : str) (a : SocialAccount)
    : bool :=
  N.eqb (user_id a) user
  && str_eqb (platform a) youtube
  && opt_str_eqb (primary_id a) (Some channel).

Definition metadata_of (channel : Channel) : dict val :=
  [(lit "subscriber_count", VInt (subscriber_count channel));
   (lit "video_count", VInt (video_count channel));
   (lit "view_count", VInt (view_count channel));
   (lit "channel_type", VStr (lit "personal"))].

(** [datetime.utcnow() + timedelta(seconds=tokens.get("expires_in", 3600))] *)
Definition expiry_of (now : Z) (tokens : Tokens) : Z :=
  (now + match tk_expires_in tokens with Some s => s | None => 3600 end)%Z.

(** The "update existing account" branch. *)
Definition relinked (now : Z) (token : str) (tokens : Tokens)
    (channel : Channel) (a : SocialAccount) : SocialAccount :=
  {| id := id a; user_id := user_id a; platform := platform a;
     platform_user_id := platform_user_id a;
     platform_username := platform_username a;
     platform_email := platform_email a;
     display_name := display_name a;
     access_token := token;
     refresh_token := tk_refresh_token tokens;
     token_expires_at := Some (expiry_of now tokens);
     primary_id := primary_id a;
     platform_metadata := Some (metadata_of channel);
     is_active := is_active a;
     is_verified := is_verified a;
     connected_at := connected_at a;
     last_used_at := last_used_at a;
     last_token_refresh := Some now |}.

(** The "create new account" branch. *)
Definition linked (now : Z) (new_id user : UUID) (token : str)
    (tokens : Tokens) (channel : Channel) : SocialAccount :=
  {| id := new_id; user_id := user; platform := youtube;
     platform_user_id := Some (channel_id channel);
     platform_username := Some (channel_title channel);
     platform_email := None;
     display_name := Some (channel_title channel);
     access_token := token;
     refresh_token := tk_refresh_token tokens;
     token_expires_at := Some (expiry_of now tokens);
     primary_id := Some (channel_id channel);
     platform_metadata := Some (metadata_of channel);
     is_active := true;
     is_verified := true;
     connected_at := Some now;
     last_used_at := Some now;
     last_token_refresh := Some now |}.

(** The row [.first()] returns is the one mutated.  The queries carry no
    [ORDER BY]: the list holds the rows in the order in which the
    database gives them to these queries, [.first()] is the first match
    in that order, and a row that is updated keeps its place in it.
    With one matching row, the order plays no part. *)
Fixpoint update_first (f : SocialAccount -> bool)
    (g : SocialAccount -> SocialAccount) (l : list SocialAccount)
    : list SocialAccount :=
  match l with
  | [] => []
  | a :: r => if f a then g a :: r else a :: update_first f g r
  end.

(** The block "check if account already exists / update existing
    account / create new account", written out in
    [youtube_oauth_callback] and again in [exchange_youtube_token]: the
    accounts as the following commit leaves them. *)
Definition upsert_channel (now : Z) (new_id user : UUID) (token : str)
    (tokens : Tokens) (channel : Channel) (l : list SocialAccount)
    : list SocialAccount :=
  match find (same_channel user (channel_id channel)) l with
  | Some _ =>
      update_first (same_channel user (channel_id channel))
                   (relinked now token tokens channel) l
  | None => l ++ [linked now new_id user token tokens channel]
  end.

(** [a, b, c = parts]: the [ValueError] of a wrong count. *)
Definition unpack3 (parts : list str) : Res (str * str * str) :=
  match parts with
  | [a; b; c] => Ret (a, b, c)
  | _ :: _ :: _ :: _ :: _ =>
      Raise (Error (lit "too many values to unpack (expected 3)"))
  | _ =>
      Raise (Error (lit "not enough values to unpack (expected 3, got "
                    ++ dec (Z.of_nat (List.length parts)) ++ lit ")"))
  end.

(** "Parse state to get user ID":
    [user_id_str, platform, request_id = state.split(":")] and
    [user_id = uuid.UUID(user_id_str)]. *)
Definition parse_state (state : str) : Res UUID :=
  parts <- unpack3 (split ":"%char state) ;;
  let '(user_id_str, _, _) := parts in
  of_str user_id_str.

(** The part of both routes from the token exchange to the commit:
    [Ret None] stands for a non-200 answer of the token endpoint,
    [Ret (Some None)] for a channel answer that is not 200 or has no
    item, [Ret (Some (Some channel))] for a committed link. *)
Definition exchange_and_link (env : Provider) (db : DB) (user : UUID)
    : Res (option (option Channel)) * DB :=
  match token_response env with
  | Raise e => (Raise e, db)
  | Ret response =>
      if negb (tr_status_code response =? 200)%Z then (Ret None, db)
      else
        match (tokens <- tr_json response ;;
               token <- item "access_token" (tk_access_token tokens) ;;
               Ret (tokens, token)) with
        | Raise e => (Raise e, db)
        | Ret (tokens, token) =>
            match channel_response env with
            | Raise e => (Raise e, db)
            | Ret channels =>
                if (cr_status_code channels =? 200)%Z then
                  match cr_items channels with
                  | Raise e => (Raise e, db)
                  | Ret [] => (Ret (Some None), db)
                  | Ret (Raise e :: _) => (Raise e, db)
                  | Ret (Ret channel :: _) =>
                      match link_commit env with
                      | Raise e => (Raise e, db)
                      | Ret _ =>
                          (Ret (Some (Some channel)),
                           set_accounts db
                             (upsert_channel (link_now env) (link_new_id env)
                                user token tokens channel (accounts db)))
                      end
                  end
                else (Ret (Some None), db)
            end
        end
  end.

(** [youtube_oauth_callback]; [code], [state] and [error] are the query
    parameters, [None] when absent. *)
Definition youtube_oauth_callback (env : Provider) (db : DB)
    (code state error : option str) : Redirect * DB :=
  match error with
  | Some ((_ :: _) as error) => (Redirect_error error, db)
  | _ =>
      if negb (truthy_opt code) || negb (truthy_opt state) then
        (Redirect_missing_code_or_state, db)
      else
        let state := match state with Some s => s | None => [] end in
        match parse_state state with
        | Raise e => (Redirect_exception e, db)
        | Ret user =>
            match exchange_and_link env db user with
            | (Raise e, db) => (Redirect_exception e, db)
            | (Ret None, db) => (Redirect_token_exchange_failed, db)
            | (Ret (Some None), db) => (Redirect_channel_fetch_failed, db)
            | (Ret (Some (Some channel)), db) =>
                (Redirect_success (channel_title channel), db)
            end
        end
  end.

(* --------------------------------------------------------------------- *)
(** *** POST /social/auth/youtube/exchange-token *)

Record Exchanged := {
  ex_channel_name : str;
  ex_channel_id : str;
  ex_subscriber_count : Z
}.

(** [exchange_youtube_token]; [code] and [state] are the entries of the
    request dictionary.  An [HTTPException] raised inside the [try] is
    caught by its [except Exception] and raised again as a 500; so is
    what [db.refresh(account)] raises, after the commit has gone
    through. *)
Definition exchange_youtube_token (env : Provider) (db : DB)
    (code state : option str) (current_user : User) : Http Exchanged * DB :=
  if negb (truthy_opt code) || negb (truthy_opt state) then
    (HTTPException 400 (lit "Missing code or state"), db)
  else
    let failed (detail : str) :=
      HTTPException 500 (lit "Token exchange failed: " ++ detail) in
    match exchange_and_link env db (u_id current_user) with
    | (Raise e, db) => (failed (exn_str e), db)
    | (Ret None, db) =>
        (failed (lit "400: Failed to exchange code for tokens"), db)
    | (Ret (Some None), db) =>
        (failed (lit "400: Failed to get YouTube channel information"), db)
    | (Ret (Some (Some channel)), db) =>
        match link_refresh env with
        | Raise e => (failed (exn_str e), db)
        | Ret _ =>
            (Ok {| ex_channel_name := channel_title channel;
                   ex_channel_id := channel_id channel;
                   ex_subscriber_count := subscriber_count channel |}, db)
        end
    end.

End Router.

(* ===================================================================== *)
(** ** Dictionaries that are written to *)
(* ===================================================================== *)

Module PyDict.

(** [d[k] = v]: the value of an existing key is replaced where it stands,
    a new key goes to the end. *)
Fixpoint set {V} (k : str) (v : V) (d : dict V) : dict V :=
  match d with
  | [] => [(k, v)]
  | (k', v') :: r =>
      if str_eqb k k' then (k, v) :: r else (k', v') :: set k v r
  end.

End PyDict.

(* ===================================================================== *)
(** ** social/router.py: the account routes *)
(* ===================================================================== *)

Module Accounts.

Import Uuid Router.

(** A route that also lets exceptions through: the value it answers, the
    [HTTPException] it raises, or the exception that leaves it. *)
Definition Answer (A : Type) := Res (Http A).

(* --------------------------------------------------------------------- *)
(** *** POST /social/youtube/connect-simple *)

Record SimpleEnv := {
  (** [settings.youtube_api_key] *)
  youtube_api_key : str;
  (** [requests.get(url, params).json()] for the [forUsername] given:
      it raises, or gives [response.get("items")] ([None] when the
      document has no such key), each item with what reading
      [channel["id"]] and [channel["snippet"]["title"]] yields *)
  channels_for : str -> Res (option (list (Res (str * str))));
  simple_now : Z;
  (** the [uuid.uuid4] default of the new row's [id] *)
  simple_new_id : UUID;
  (** outcome of [db.add(youtube_account)] and [db.commit()] *)
  simple_commit : Res unit;
  (** outcome of [db.refresh(youtube_account)] *)
  simple_refresh : Res unit
}.

Record SimpleConnected := {
  sc_message : str;
  sc_channel_id : str;
  sc_account_id : str
}.

(** [channel_name[1:]] when the name starts with ["@"]. *)
Definition without_at (channel_name : str) : str :=
  if starts_with (lit "@") channel_name then skipn 1 channel_name
  else channel_name.

(** The row [connect_youtube_simple] stores. *)
Definition simple_account (env : SimpleEnv) (current_user : User)
    (channel_name channel_id channel_title : str) : SocialAccount :=
  {| id := simple_new_id env;
     user_id := u_id current_user;
     platform := lit "youtube";
     platform_user_id := Some channel_id;
     platform_username := Some channel_name;
     platform_email := None;
     display_name := Some channel_title;
     access_token := lit "simple_api_key_connection";
     refresh_token := None;
     token_expires_at := None;
     primary_id := Some channel_id;
     platform_metadata :=
       Some [(lit "channel_title", VStr channel_title);
             (lit "channel_id", VStr channel_id)];
     is_active := true;
     is_verified := true;
     connected_at := Some (simple_now env);
     last_used_at := Some (simple_now env);
     last_token_refresh := None |}.

(** [connect_youtube_simple]; [channel_name] is the entry of the request
    dictionary, [None] when the key is absent.  Nothing here is inside a
    [try]: an exception of the lookup, of the commit or of the refresh
    leaves the route; when it is the refresh that raises, the row is
    already committed. *)
Definition connect_youtube_simple (env : SimpleEnv) (db : DB)
    (channel_name : option str) (current_user : User)
    : Answer SimpleConnected * DB :=
  let channel_name :=
    strip (match channel_name with Some n => n | None => [] end) in
  if negb (truthy channel_name) then
    (Ret (HTTPException 400 (lit "Channel name required")), db)
  else if negb (truthy (youtube_api_key env)) then
    (Ret (HTTPException 500 (lit "YouTube API key not configured")), db)
  else
    let channel_name := without_at channel_name in
    match channels_for env channel_name with
    | Raise e => (Raise e, db)
    | Ret None | Ret (Some []) =>
        (Ret (HTTPException 404 (lit "Channel not found")), db)
    | Ret (Some (Raise e :: _)) => (Raise e, db)
    | Ret (Some (Ret (channel_id, channel_title) :: _)) =>
        let youtube_account :=
          simple_account env current_user channel_name channel_id
                         channel_title in
        match simple_commit env with
        | Raise e => (Raise e, db)
        | Ret _ =>
            let db' := set_accounts db (accounts db ++ [youtube_account]) in
            match simple_refresh env with
            | Raise e => (Raise e, db')
            | Ret _ =>
                (Ret (Ok {| sc_message :=
                              lit "YouTube channel " ++ channel_title
                              ++ lit " connected successfully!";
                            sc_channel_id := channel_id;
                            sc_account_id := to_str (id youtube_account) |}),
                 db')
            end
        end
    end.

(* --------------------------------------------------------------------- *)
(** *** DELETE /social/accounts/{account_id} *)

Record DeleteEnv := {
  (** how the database reads a text parameter that is compared with a
      UUID column: the UUID, or the error of a malformed text *)
  read_id : str -> Res UUID;
  (** outcome of [db.delete(account)] and [db.commit()] *)
  delete_commit : Res unit
}.

(** The row [.first()] returned goes. *)
Fixpoint remove_first (f : SocialAccount -> bool) (l : list SocialAccount)
    : list SocialAccount :=
  match l with
  | [] => []
  | a :: r => if f a then r else a :: remove_first f r
  end.

(** The filter of the query of [delete_social_account]. *)
Definition own_account (i : UUID) (current_user : User) (a : SocialAccount)
    : bool :=
  N.eqb (id a) i && N.eqb (user_id a) (u_id current_user).

(** [delete_social_account].  The [posts] relationship of
    [SocialAccount] is declared with [cascade="all, delete-orphan"]:
    deleting the account deletes the posts that refer to it. *)
Definition delete_social_account (env : DeleteEnv) (db : DB)
    (account_id : str) (current_user : User) : Answer str * DB :=
  match read_id env account_id with
  | Raise e => (Raise e, db)
  | Ret i =>
      match find (own_account i current_user) (accounts db) with
      | None => (Ret (HTTPException 404 (lit "Social account not found")), db)
      | Some account =>
          let platform_name := platform account in
          match delete_commit env with
          | Raise e => (Raise e, db)
          | Ret _ =>
              (Ret (Ok (lit "Successfully deleted " ++ platform_name
                        ++ lit " account")),
               {| accounts := remove_first (own_account i current_user)
                                           (accounts db);
                  posts := filter (fun p => negb (N.eqb (sp_account_id p)
                                                        (id account)))
                                  (posts db);
                  videos := videos db |})
          end
      end
  end.

End Accounts.

(* ===================================================================== *)
(** ** social/router.py: the post routes *)
(* ===================================================================== *)

Module Posts.

Import Uuid Router.

(* --------------------------------------------------------------------- *)
(** *** POST /social/youtube/upload-redirect *)

Record RedirectEnv := {
  redirect_now : Z;
  (** the [uuid.uuid4] default of the new post's [id] *)
  redirect_post_id : UUID;
  (** outcome of [db.add(post)] and [db.commit()] *)
  redirect_commit : Res unit;
  (** outcome of [db.refresh(post)] *)
  redirect_refresh : Res unit
}.

Record RedirectReady := {
  rr_post_id : str;
  rr_upload_url : str;
  rr_video_file_path : str;
  rr_title : str;
  rr_description : str;
  rr_tags : list str;
  rr_privacy : val;
  rr_category : val
}.

(** [str(e)] for an [HTTPException]: the status code, a colon and the
    detail. *)
Definition http_exception_str (status_code : Z) (detail : str) : str :=
  dec status_code ++ lit ": " ++ detail.

(** [f"{x}"] for an optional string. *)
Definition opt_text (s : option str) : str :=
  match s with Some s => s | None => lit "None" end.

(** The post that [youtube_upload_redirect] records. *)
Definition redirect_post (env : RedirectEnv) (request : PostRequest)
    (youtube_account : SocialAccount) (video : Video) : SocialPost :=
  {| sp_id := redirect_post_id env;
     sp_account_id := id youtube_account;
     sp_video_id := v_id video;
     sp_title := str_or (rq_title request) (lit "AI Generated Video");
     sp_description :=
       opt_or (rq_description request) (lit "Amazing AI generated video!");
     sp_tags := list_or (rq_tags request) [lit "AI"; lit "Video"];
     sp_status := lit "redirect_ready";
     sp_platform_settings := youtube_settings_of request;
     sp_created_at := redirect_now env;
     sp_platform_post_id := None;
     sp_post_url := None;
     sp_posted_at := None;
     sp_metrics := [];
     sp_error_message := None |}.

(** [youtube_upload_redirect].  The two [HTTPException]s for a missing
    video or account are raised inside the [try]; its
    [except Exception] catches them like any other exception and raises
    a 500 in their place.  There is no rollback: when it is
    [db.refresh(post)] that raises, the post is already committed. *)
Definition youtube_upload_redirect (env : RedirectEnv) (db : DB)
    (request : PostRequest) (current_user : User)
    : Http RedirectReady * DB :=
  let failed (text : str) :=
    HTTPException 500 (lit "Failed to create YouTube redirect: " ++ text) in
  match find (fun v => str_eqb (v_task_id v) (rq_video_id request)
                       && N.eqb (v_user_id v) (u_id current_user))
             (videos db) with
  | None => (failed (http_exception_str 404 (lit "Video not found")), db)
  | Some video =>
  match find (fun a => N.eqb (user_id a) (u_id current_user)
                       && str_eqb (platform a) youtube
                       && is_active a)
             (accounts db) with
  | None =>
      (failed (http_exception_str 400 (lit "No YouTube account connected")), db)
  | Some youtube_account =>
      let post := redirect_post env request youtube_account video in
      match redirect_commit env with
      | Raise e => (failed (exn_str e), db)
      | Ret _ =>
      match redirect_refresh env with
      | Raise e => (failed (exn_str e), set_posts db (posts db ++ [post]))
      | Ret _ =>
          let youtube_settings := youtube_settings_of request in
          (Ok {| rr_post_id := to_str (sp_id post);
                 rr_upload_url :=
                   lit "https://studio.youtube.com" ++ lit "/channel/"
                   ++ opt_text (platform_user_id youtube_account)
                   ++ lit "/videos/upload";
                 rr_video_file_path :=
                   opt_or (v_file_path video) (lit "N/A");
                 rr_title := str_or (rq_title request) (lit "AI Generated Video");
                 rr_description :=
                   opt_or (rq_description request)
                          (lit "Amazing AI generated video!");
                 rr_tags := list_or (rq_tags request) [lit "AI"; lit "Video"];
                 rr_privacy :=
                   get_or (lit "privacy_status") (VStr (lit "unlisted"))
                          youtube_settings;
                 rr_category :=
                   get_or (lit "category_id") (VStr (lit "28"))
                          youtube_settings |},
           set_posts db (posts db ++ [post]))
      end
      end
  end
  end.

(* --------------------------------------------------------------------- *)
(** *** GET /social/posts/{post_id}/metrics *)

Record MetricsEnv := {
  (** how the database reads the [:post_id] parameter *)
  metrics_read_id : str -> Res UUID;
  (** [json.loads(result.metrics)] together with its unpacking by [**]:
      the dictionary, or what either raises *)
  metrics_loads : dict val -> Res (dict val)
}.

(** The rows of the query: posts with the given id, joined with the
    account they refer to when it belongs to the user. *)
Definition metric_rows (db : DB) (i user : UUID)
    : list (SocialPost * SocialAccount) :=
  flat_map
    (fun sp =>
       map (fun sa => (sp, sa))
           (filter (fun sa => N.eqb (sp_account_id sp) (id sa)
                              && N.eqb (user_id sa) user)
                   (accounts db)))
    (filter (fun sp => N.eqb (sp_id sp) i) (posts db)).

(** [get_post_metrics] *)
Definition get_post_metrics (env : MetricsEnv) (db : DB) (post_id : str)
    (current_user : User) : Accounts.Answer (dict val) :=
  match metrics_read_id env post_id with
  | Raise e => Raise e
  | Ret i =>
      match metric_rows db i (u_id current_user) with
      | [] => Ret (HTTPException 404 (lit "Post not found"))
      | (sp, sa) :: _ =>
          let with_row (metrics : dict val) :=
            PyDict.set (lit "platform") (VStr (platform sa))
              (PyDict.set (lit "status") (VStr (sp_status sp)) metrics) in
          match (match sp_metrics sp with
                 | [] => Ret []
                 | stored => metrics_loads env stored
                 end) with
          | Ret metrics => Ret (Ok (with_row metrics))
          | Raise _ =>
              Ret (Ok [(lit "views", VInt 0); (lit "likes", VInt 0);
                       (lit "comments", VInt 0); (lit "shares", VInt 0);
                       (lit "status", VStr (sp_status sp));
                       (lit "platform", VStr (platform sa))])
          end
      end
  end.

End Posts.

(* ===================================================================== *)
(** ** social/config.py and social/utils.py: platforms and OAuth helpers *)
(* ===================================================================== *)

Module Platform.

Import Uuid Router.

(** The entries of [settings] that the configuration reads. *)
Record Settings := {
  youtube_client_id : str;
  youtube_client_secret : str
}.

(** A non-empty configuration dictionary. *)
Record PlatformConfig := {
  client_id : str;
  client_secret : str;
  oauth_url : str;
  token_url : str;
  scopes : list str;
  redirect_uri : str;
  credentials_file : str
}.

(** [get_platform_config]: [configs.get(platform, {})], where [configs]
    has the one key ["youtube"]; [None] stands for the empty dictionary. *)
Definition get_platform_config (settings : Settings) (name : str)
    : option PlatformConfig :=
  if str_eqb name (lit "youtube") then
    Some {| client_id := youtube_client_id settings;
            client_secret := youtube_client_secret settings;
            oauth_url := lit "https://accounts.google.com/o/oauth2/v2/auth";
            token_url := lit "https://oauth2.googleapis.com/token";
            scopes := [lit "https://www.googleapis.com/auth/youtube";
                       lit "https://www.googleapis.com/auth/youtube.upload";
                       lit "https://www.googleapis.com/auth/youtube.readonly"];
            redirect_uri :=
              lit "http://127.0.0.1:8000/social/auth/youtube/callback";
            credentials_file := lit "client_secret.json" |}
  else None.

(** The classes of [get_platform_api]. *)
Inductive Api := YouTubeAPI_ | InstagramAPI | FacebookAPI.

(** [get_platform_api] *)
Definition get_platform_api (name : str) : Res Api :=
  if str_eqb name (lit "youtube") then Ret YouTubeAPI_
  else if str_eqb name (lit "instagram") then Ret InstagramAPI
  else if str_eqb name (lit "facebook") then Ret FacebookAPI
  else Raise (Error (lit "Unsupported platform: " ++ name)).

(** [sep.join(parts)] *)
Fixpoint join (sep : str) (parts : list str) : str :=
  match parts with
  | [] => []
  | [p] => p
  | p :: rest => p ++ sep ++ join sep rest
  end.

Record OAuthEnv := {
  settings : Settings;
  (** [os.path.join] *)
  path_join : str -> str -> str;
  fs : FileSystem;
  (** the [secrets.token_urlsafe(32)] drawn *)
  token_urlsafe : str;
  (** outcome of [Flow.from_client_secrets_file(...)] *)
  from_client_secrets_file : Res unit;
  (** outcome of [flow.authorization_url(...)]: the URL *)
  authorization_url : Res str;
  (** [urllib.parse.urlencode] *)
  urlencode : list (str * str) -> str;
  (** outcome of [flow.fetch_token(code=code)] and of reading
      [flow.credentials] *)
  fetch_token : Res unit;
  (** outcome of [build("youtube", "v3", credentials=credentials)] *)
  build : Res unit;
  (** outcome of [youtube.channels().list(...).execute()]:
      [response.get("items")], each item with what reading
      [channel["snippet"]] yields *)
  channels : Res (option (list (Res unit)))
}.

(** [YouTubeAPI().credentials_file] *)
Definition youtube_credentials_file (env : OAuthEnv) : str :=
  path_join env (lit "credentials")
    (match get_platform_config (settings env) (lit "youtube") with
     | Some config => credentials_file config
     | None => []
     end).

(** [YouTubeAPI.get_oauth_flow] *)
Definition get_oauth_flow (env : OAuthEnv) : Res unit :=
  if negb (exists_ (fs env) (youtube_credentials_file env)) then
    Raise (Error (lit "OAuth2 credentials file not found: "
                  ++ youtube_credentials_file env
                  ++ lit ". Download client_secret.json from Google Cloud Console."))
  else from_client_secrets_file env.

Record OAuthUrl := {
  auth_url : str;
  state : str
}.

(** [get_oauth_url] *)
Definition get_oauth_url (env : OAuthEnv) (name user_id : str) : Res OAuthUrl :=
  match get_platform_config (settings env) name with
  | None => Raise (Error (lit "Platform not supported: " ++ name))
  | Some config =>
      let state := token_urlsafe env in
      if str_eqb name (lit "youtube") then
        _ <- get_oauth_flow env ;;
        url <- authorization_url env ;;
        Ret {| auth_url := url; state := state |}
      else
        let params :=
          [(lit "client_id", client_id config);
           (lit "redirect_uri", redirect_uri config);
           (lit "scope", join (lit " ") (scopes config));
           (lit "response_type", lit "code");
           (lit "state",
            state ++ lit ":" ++ user_id ++ lit ":" ++ name)] in
        Ret {| auth_url := oauth_url config ++ lit "?" ++ urlencode env params;
               state := state |}
  end.

(** [handle_youtube_callback].  Its query filters on
    [SocialAccount.channel_id]; the class (social/models.py) has no such
    attribute, so evaluating the filter raises [AttributeError], which
    the [except] logs and raises again.  The statements after the query
    are never reached. *)
Definition handle_youtube_callback (env : OAuthEnv) (db : DB)
    (code state_ user_id : str) : Res SocialAccount * DB :=
  (_ <- get_oauth_flow env ;;
   _ <- fetch_token env ;;
   _ <- build env ;;
   items <- channels env ;;
   match items with
   | None | Some [] => Raise (Error (lit "No YouTube channel found"))
   | Some (channel :: _) =>
       _ <- channel ;;
       Raise (Error (lit "type object 'SocialAccount' has no attribute 'channel_id'"))
   end,
   db).

(** [handle_generic_oauth_callback]: its body is [pass]. *)
Definition handle_generic_oauth_callback (db : DB)
    (name code state_ user_id : str) : Res (option SocialAccount) * DB :=
  (Ret None, db).

(** [handle_oauth_callback] *)
Definition handle_oauth_callback (env : OAuthEnv) (db : DB)
    (name code state_ user_id : str) : Res (option SocialAccount) * DB :=
  if str_eqb name (lit "youtube") then
    let '(r, db) := handle_youtube_callback env db code state_ user_id in
    (a <- r ;; Ret (Some a), db)
  else handle_generic_oauth_callback db name code state_ user_id.

(* --------------------------------------------------------------------- *)
(** *** post_to_platform *)

(** The [post_data] dictionary; [None] stands for a key that is absent. *)
Record PostData := {
  pd_title : option str;
  pd_description : option str;
  pd_tags : option (list str);
  pd_category_id : option str;
  pd_privacy_status : option str;
  pd_youtube_settings : option (dict val)
}.

Record PostEnv := {
  post_now : Z;
  upload_env : YouTubeAPI.Env;
  (** [str(e)] of the [TypeError] Python raises for a call that gives
      the named parameter twice *)
  multiple_values_text : str -> str;
  (** outcome of [db.commit()] *)
  post_commit : Res unit
}.

(** The keywords the call of [upload_video] spells out.  A key of
    [youtube_settings] with one of these names makes the call a
    [TypeError] when the dictionaries are merged, at the first such key;
    a key ["self"] makes it one when the method is entered. *)
Definition given_keywords : list str :=
  [lit "account"; lit "video_path"; lit "title"; lit "description";
   lit "tags"; lit "category_id"; lit "privacy_status"].

Definition keyword_clash (kwargs : dict val) : option str :=
  match find (fun kv => existsb (str_eqb (fst kv)) given_keywords) kwargs with
  | Some (k, _) => Some k
  | None => if mem (lit "self") kwargs then Some (lit "self") else None
  end.

Definition default {A} (d : A) (v : option A) : A :=
  match v with Some a => a | None => d end.

Definition touched (account : SocialAccount) (now : Z) : SocialAccount :=
  {| id := id account; user_id := user_id account;
     platform := platform account;
     platform_user_id := platform_user_id account;
     platform_username := platform_username account;
     platform_email := platform_email account;
     display_name := display_name account;
     access_token := access_token account;
     refresh_token := refresh_token account;
     token_expires_at := token_expires_at account;
     primary_id := primary_id account;
     platform_metadata := platform_metadata account;
     is_active := is_active account;
     is_verified := is_verified account;
     connected_at := connected_at account;
     last_used_at := Some now;
     last_token_refresh := last_token_refresh account |}.

(** A commit of the mutated [account] object: its row is replaced. *)
Definition save_account (db : DB) (account : SocialAccount) : DB :=
  set_accounts db
    (map (fun a => if N.eqb (id a) (id account) then account else a)
         (accounts db)).

(** [post_to_platform]: the dictionary the platform call returned
    ([None] for the classes whose [post_video] is [pass]), or the failure
    dictionary of the [except]. *)
Definition post_to_platform (env : PostEnv) (db : DB)
    (account : SocialAccount) (video_path : str) (post_data : PostData)
    : Outcome (option PublishResult) * DB * list Event :=
  let failed (e : Exn) (trace : list Event) :=
    (Returned (Some (fail_result (exn_str e))), db, trace) in
  let finish (result : option PublishResult) (account : SocialAccount)
             (trace : list Event) :=
    match post_commit env with
    | Raise e => failed e trace
    | Ret _ =>
        (Returned result, save_account db (touched account (post_now env)),
         trace)
    end in
  match get_platform_api (platform account) with
  | Raise e => failed e []
  | Ret api =>
      if str_eqb (platform account) (lit "youtube") then
        let kwargs := default [] (pd_youtube_settings post_data) in
        match keyword_clash kwargs with
        | Some k =>
            failed (Error (multiple_values_text env k)) []
        | None =>
            match YouTubeAPI.upload_video (upload_env env) account video_path
                    (default [] (pd_title post_data))
                    (default [] (pd_description post_data))
                    (Some (default [] (pd_tags post_data)))
                    (default (lit "22") (pd_category_id post_data))
                    (default (lit "private") (pd_privacy_status post_data))
                    kwargs
            with
            | (Returned result, account, trace) =>
                finish (Some result) account trace
            | (Propagated e, _, trace) => failed e trace
            | (Running, _, trace) => (Running, db, trace)
            end
        end
      else finish None account []
  end.

End Platform.

(* ===================================================================== *)
(** ** Notions used in the statements *)
(* ===================================================================== *)

Unset Implicit Arguments.

(** A [next_chunk] outcome that raises an [HttpError] whose status is in
    the retriable set. *)
Definition retriable_error (c : Chunk) : bool :=
  match c with
  | ChunkRaise (HttpError st _ _) => Config.retriable st
  | _ => false
  end.

(** An outcome after which the loop of [YouTubeAPI.upload_video] asks for
    the next chunk: progress, or a retriable error. *)
Definition passable (c : Chunk) : bool :=
  match c with
  | ChunkProgress => true
  | _ => retriable_error c
  end.

Definition count_retriable (script : list Chunk) : nat :=
  List.length (filter retriable_error script).

(** What [YouTubeAPI.upload_video] answers once the file has passed the
    checks and the request has been created, from how the loop ends. *)
Definition api_answer (fin : LoopEnd) : Outcome PublishResult :=
  match loop_result fin with
  | Running => Running
  | Propagated e => Returned (fail_result (exn_str e))
  | Returned [] =>
      Returned (fail_result (lit "Upload failed - no response received"))
  | Returned response =>
      let video_id := get_or (lit "id") VNone response in
      if truthy_val video_id then
        Returned (ok_result (val_text video_id) (watch_url (val_text video_id)))
      else
        Returned (fail_result (lit "Upload completed but no video ID returned"))
  end.

(** A hexadecimal digit. *)
Definition is_hex (c : ascii) : Prop := Uuid.hex_value c <> None.

(** The number a string of hexadecimal digits writes. *)
Definition hex_number (hex : str) : N :=
  fold_left
    (fun acc c =>
       match Uuid.hex_value c with
       | Some v => (16 * acc + v)%N
       | None => acc
       end)
    hex 0%N.

(** The layout [str(u)] gives to its thirty-two digits. *)
Definition grouped (hex : str) : str :=
  firstn 8 hex ++ "-"%char
    :: firstn 4 (skipn 8 hex) ++ "-"%char
    :: firstn 4 (skipn 12 hex) ++ "-"%char
    :: firstn 4 (skipn 16 hex) ++ "-"%char
    :: skipn 20 hex.

(** The user a callback's [state] parameter names, if it parses. *)
Definition state_user (state : option str) : option Uuid.UUID :=
  match state with
  | Some s =>
      match Router.parse_state s with
      | Ret u => Some u
      | Raise _ => None
      end
  | None => None
  end.

(** The channel the provider reports first, if it reports one. *)
Definition linked_channel (env : Router.Provider) : option Router.Channel :=
  match Router.channel_response env with
  | Ret r =>
      match Router.cr_items r with
      | Ret (Ret channel :: _) => Some channel
      | _ => None
      end
  | Raise _ => None
  end.

(** The token document the provider issues and its access token. *)
Definition issued (env : Router.Provider) : option (Router.Tokens * str) :=
  match Router.token_response env with
  | Ret r =>
      match Router.tr_json r with
      | Ret tokens =>
          match Router.tk_access_token tokens with
          | Some token => Some (tokens, token)
          | None => None
          end
      | Raise _ => None
      end
  | Raise _ => None
  end.

(** Number of rows a filter selects. *)
Definition rows (f : SocialAccount -> bool) (l : list SocialAccount) : nat :=
  List.length (filter f l).

(** The active rows of a user on a platform. *)
Definition active_for (user : Uuid.UUID) (name : str) (a : SocialAccount)
    : bool :=
  is_active a && N.eqb (user_id a) user && str_eqb (platform a) name.

(** At most one active credential per (user, platform). *)
Definition one_active_per_platform (l : list SocialAccount) : Prop :=
  forall user name, rows (active_for user name) l <= 1.




(** The requested platforms that are ["youtube"]. *)
Definition youtube_items (platforms : list str) : nat :=
  List.length (filter (fun p => str_eqb p Router.youtube) platforms).


(** A result dictionary has the keys that go with its [success] flag. *)
Definition well_formed (r : PublishResult) : Prop :=
  if success r then post_id r <> None /\ post_url r <> None
  else error r <> None.

(** Every upload request of the trace was created with [token], and the
    trace holds no refresh. *)
Definition uploads_with (token : str) (trace : list Event) : Prop :=
  Forall (fun ev =>
            match ev with
            | EvInsert t _ => t = token
            | EvBuild t => t = token
            | EvRefresh _ => False
            | _ => True
            end) trace.

(* ===================================================================== *)
(** ** Sample inputs *)
(* ===================================================================== *)

Module Sample.

Import Router.

(** Fifty-one tags, each with a leading hash sign. *)
Definition tags51 : list str := repeat (lit "#ai") 51.

(** A [post_data] dictionary carrying them. *)
Definition post_data51 : YouTubeIntegration.PostData :=
  {| YouTubeIntegration.pd_title := Some (lit "Demo");
     YouTubeIntegration.pd_description := Some (Some (lit "A demo video"));
     YouTubeIntegration.pd_tags := Some tags51;
     YouTubeIntegration.pd_platform_settings := None;
     YouTubeIntegration.pd_video_path := Some (lit "/videos/demo.mp4") |}.

(** A provider that opens the upload session and accepts the file. *)
Definition integration_env : YouTubeIntegration.Env :=
  {| YouTubeIntegration.fs :=
       fun p => if str_eqb p (lit "/videos/demo.mp4") then Some 1024%Z else None;
     YouTubeIntegration.session_post :=
       Ret {| YouTubeIntegration.resp_status := 200;
              YouTubeIntegration.resp_location := Some (lit "https://upload/session/1");
              YouTubeIntegration.resp_text := Ret [] |};
     YouTubeIntegration.session_put :=
       Ret {| YouTubeIntegration.put_status := 200;
              YouTubeIntegration.put_json := Ret [(lit "id", VStr (lit "abc123"))] |} |}.

(** A stored YouTube account. *)
Definition account (rt : option str) : SocialAccount :=
  {| id := 9%N; user_id := 1%N; platform := lit "youtube";
     platform_user_id := Some (lit "UC123");
     platform_username := Some (lit "Demo Channel");
     platform_email := None;
     display_name := Some (lit "Demo Channel");
     access_token := lit "stored-token";
     refresh_token := rt;
     token_expires_at := Some 1000%Z;
     primary_id := Some (lit "UC123");
     platform_metadata := Some [];
     is_active := true; is_verified := true;
     connected_at := Some 0%Z; last_used_at := Some 0%Z;
     last_token_refresh := Some 0%Z |}.

Definition demo_path : str := lit "/videos/demo.mp4".

(** A file system holding one file of the given size at [demo_path]. *)
Definition one_file (size : Z) : FileSystem :=
  fun p => if str_eqb p demo_path then Some size else None.

(** The final object of a finished upload. *)
Definition done : Chunk := ChunkDone [(lit "id", VStr (lit "abc123"))].

(** A gateway error of the provider. *)
Definition unavailable : Chunk :=
  ChunkRaise (HttpError 503 (lit "b'backend error'") (lit "<HttpError 503>")).

(** A client error of the provider. *)
Definition bad_request : Chunk :=
  ChunkRaise (HttpError 400 (lit "b'bad request'") (lit "<HttpError 400>")).

(** A network timeout. *)
Definition timed_out : Chunk := ChunkRaise (Error (lit "timed out")).

(** The library and provider as [YouTubeAPI.upload_video] meets them;
    [is_expired] says whether the clock has passed the expiry times
    stored with the tokens. *)
Definition api_env (size : Z) (is_expired : bool) (refreshed : Res (str * option Z))
    (script : list Chunk) : YouTubeAPI.Env :=
  {| YouTubeAPI.fs := one_file size;
     YouTubeAPI.past := fun _ => is_expired;
     YouTubeAPI.refresh := refreshed;
     YouTubeAPI.build := Ret tt;
     YouTubeAPI.media := Ret tt;
     YouTubeAPI.insert := Ret tt;
     YouTubeAPI.chunks := script |}.

(** The same for [YouTubeUploader.upload_video]. *)
Definition uploader_env (size : Z) (script : list Chunk) : YouTubeUploader.Env :=
  {| YouTubeUploader.fs := one_file size;
     YouTubeUploader.media := Ret tt;
     YouTubeUploader.insert := Ret tt;
     YouTubeUploader.chunks := script;
     YouTubeUploader.error_message_of := fun _ => Ret None |}.

(** An uploader that has been authenticated with the stored token. *)
Definition authenticated : YouTubeUploader.Uploader :=
  {| YouTubeUploader.youtube_service :=
       Some {| svc_token := lit "stored-token"; svc_refresh_token := None |} |}.

(** Three gateway errors with a progress report between them, a fourth
    gateway error, and the answer the provider would have given next. *)
Definition four_errors : list Chunk :=
  [unavailable; ChunkProgress; unavailable; unavailable] ++ unavailable :: [done].

(** One byte more than [MAX_FILE_SIZE]. *)
Definition oversize : Z := (Config.MAX_FILE_SIZE + 1)%Z.

(** A user and the nonce drawn for one link attempt. *)
Definition alice : User := {| u_id := 24197857161011715162171839636988778104%N |}.
Definition nonce : Uuid.UUID := 113059749145936325402354257176981405696%N.

(** A provider that exchanges the code and reports one channel. *)
Definition provider (token : string) (now : Z) (new_id : Uuid.UUID) : Provider :=
  {| token_response :=
       Ret {| tr_status_code := 200;
              tr_json := Ret {| tk_access_token := Some (lit token);
                                tk_refresh_token := Some (lit "refresh");
                                tk_expires_in := Some 3599%Z |} |};
     channel_response :=
       Ret {| cr_status_code := 200;
              cr_items := Ret [Ret {| channel_id := lit "UC123";
                                      channel_title := lit "Demo Channel";
                                      subscriber_count := 10;
                                      video_count := 2;
                                      view_count := 300 |}] |};
     link_now := now;
     link_new_id := new_id;
     link_commit := Ret tt;
     link_refresh := Ret tt |}.

Definition empty_db : DB := {| accounts := []; posts := []; videos := [] |}.

(** A database with Alice's video and YouTube account. *)
Definition alice_account : SocialAccount :=
  {| id := 9%N; user_id := u_id alice; platform := lit "youtube";
     platform_user_id := Some (lit "UC123");
     platform_username := Some (lit "Demo Channel");
     platform_email := None;
     display_name := Some (lit "Demo Channel");
     access_token := lit "stored-token";
     refresh_token := Some (lit "refresh");
     token_expires_at := Some 1000%Z;
     primary_id := Some (lit "UC123");
     platform_metadata := Some [];
     is_active := true; is_verified := true;
     connected_at := Some 0%Z; last_used_at := Some 0%Z;
     last_token_refresh := Some 0%Z |}.

Definition alice_db : DB :=
  {| accounts := [alice_account];
     posts := [];
     videos := [{| v_id := 3%N; v_task_id := lit "v1"; v_user_id := u_id alice;
                   v_file_path := Some (lit "demo.mp4");
                   v_original_text := Some (lit "a demo") |}] |}.

(** Every pass finds the file, authenticates, uploads and commits. *)
Definition post_env (i : nat) : PostEnv :=
  {| now := 500;
     new_post_id := N.of_nat (100 + i);
     commit_post := Ret tt;
     build := Ret tt;
     commit_auth_failed := Ret tt;
     full_video_path := fun p => lit "/videos/" ++ p;
     upload_env := uploader_env 1024 [done];
     commit_final := Ret tt;
     fallback_id := N.of_nat (200 + i) |}.

(** The request of the scenario: one video for YouTube and LinkedIn. *)
Definition request (platforms : list str) : PostRequest :=
  {| rq_video_id := lit "v1";
     rq_platforms := platforms;
     rq_title := lit "Demo";
     rq_description := Some (lit "A demo video");
     rq_tags := [lit "#ai"];
     rq_platform_settings := None |}.

(** A manual account entry for the channel Alice has already linked. *)
Definition manual_entry : SocialAccountCreate :=
  {| ac_platform := lit "youtube";
     ac_platform_username := lit "Demo Channel";
     ac_platform_email := None;
     ac_display_name := None;
     ac_access_token := lit "manual-token-0001";
     ac_refresh_token := None;
     ac_token_expires_at := None;
     ac_primary_id := None;
     ac_platform_metadata := Some [];
     ac_is_verified := false |}.

Definition add_env : AddEnv :=
  {| add_now := 700; add_new_id := 11%N; add_commit := Ret tt;
     add_respond := Ret tt |}.

End Sample.

(* ===================================================================== *)
(** ** Notions used in the further statements *)
(* ===================================================================== *)

(** The rows a filter leaves out. *)
Definition others (f : SocialAccount -> bool) (l : list SocialAccount)
    : list SocialAccount :=
  filter (fun a => negb (f a)) l.

(** Every post refers to an account that is there. *)
Definition posts_have_accounts (db : Router.DB) : Prop :=
  forall p, In p (Router.posts db) ->
    exists a, In a (Router.accounts db) /\ id a = Router.sp_account_id p.

(** The video lookup of the publish routes. *)
Definition video_of (db : Router.DB) (request : Router.PostRequest)
    (user : Router.User) : option Router.Video :=
  find (fun v => str_eqb (Router.v_task_id v) (Router.rq_video_id request)
                 && N.eqb (Router.v_user_id v) (Router.u_id user))
       (Router.videos db).

(** The account lookup of the publish routes. *)
Definition youtube_account_of (db : Router.DB) (user : Router.User)
    : option SocialAccount :=
  find (fun a => N.eqb (user_id a) (Router.u_id user)
                 && str_eqb (platform a) Router.youtube
                 && is_active a)
       (Router.accounts db).

(** An active YouTube account of the user holds the token. *)
Definition token_of (db : Router.DB) (user : Router.User) (token : str) : Prop :=
  exists a, In a (Router.accounts db)
            /\ user_id a = Router.u_id user
            /\ platform a = Router.youtube
            /\ is_active a = true
            /\ access_token a = token.

(** A call made on behalf of the user carries a token of theirs. *)
Definition on_behalf_of (db : Router.DB) (user : Router.User) (ev : Event)
    : Prop :=
  match ev with
  | EvBuild t | EvInsert t _ => token_of db user t
  | EvNextChunk => True
  | EvRefresh _ | EvHttpPost _ _ | EvHttpPut => False
  end.

(** What an entry of the publish result looks like. *)
Definition entry_shape (r : Router.PostResponse) : Prop :=
  Router.pr_platform r = Router.youtube
  /\ ((Router.pr_status r = lit "posted"
       /\ Router.pr_platform_post_id r <> None
       /\ Router.pr_post_url r <> None
       /\ Router.pr_error_message r = None)
      \/ (Router.pr_status r = lit "failed"
          /\ Router.pr_platform_post_id r = None
          /\ Router.pr_post_url r = None
          /\ Router.pr_error_message r <> None)).

(** Progress reports in a script of chunk outcomes. *)
Definition count_progress (script : list Chunk) : nat :=
  List.length (filter (fun c => match c with ChunkProgress => true | _ => false end)
                      script).

Definition is_next_chunk (ev : Event) : bool :=
  match ev with EvNextChunk => true | _ => false end.

(** A failed entry of the publish result with the given reason. *)
Definition failed_with (reason : str) (r : Router.PostResponse) : Prop :=
  Router.pr_status r = lit "failed"
  /\ Router.pr_error_message r = Some (lit "YouTube error: " ++ reason).

(** The [next_chunk] calls of a trace. *)
Definition next_chunks (trace : list Event) : nat :=
  List.length (filter is_next_chunk trace).

(** Two account objects that differ at most in the access token, its
    expiry and the time of last use. *)
Definition same_but_token_and_use (a b : SocialAccount) : Prop :=
  id a = id b /\ user_id a = user_id b /\ platform a = platform b
  /\ platform_user_id a = platform_user_id b
  /\ platform_username a = platform_username b
  /\ platform_email a = platform_email b
  /\ display_name a = display_name b
  /\ refresh_token a = refresh_token b
  /\ primary_id a = primary_id b
  /\ platform_metadata a = platform_metadata b
  /\ is_active a = is_active b /\ is_verified a = is_verified b
  /\ connected_at a = connected_at b
  /\ last_token_refresh a = last_token_refresh b.

(** The keys [YouTubeIntegration.post_video] reads with [post_data[...]]
    before it sends anything, in the order it reads them; with the first
    one that is absent. *)
Definition first_missing (pd : YouTubeIntegration.PostData) : option string :=
  match YouTubeIntegration.pd_title pd, YouTubeIntegration.pd_description pd,
        YouTubeIntegration.pd_tags pd with
  | None, _, _ => Some "title"%string
  | _, None, _ => Some "description"%string
  | _, _, None => Some "tags"%string
  | _, _, _ => None
  end.

(* ===================================================================== *)
(** ** Further sample inputs *)
(* ===================================================================== *)

Module Scenario.

Import Router.

(** A channel lookup that knows the one channel ["demo"]. *)
Definition simple_env : Accounts.SimpleEnv :=
  {| Accounts.youtube_api_key := lit "api-key";
     Accounts.channels_for :=
       fun n => if str_eqb n (lit "demo")
                then Ret (Some [Ret (lit "UC123", lit "Demo Channel")])
                else Ret (Some []);
     Accounts.simple_now := 50;
     Accounts.simple_new_id := 21%N;
     Accounts.simple_commit := Ret tt;
     Accounts.simple_refresh := Ret tt |}.

(** Another user, with a YouTube account and a post of their own. *)
Definition bob : User := {| u_id := 77%N |}.

Definition bob_account : SocialAccount :=
  {| id := 30%N; user_id := u_id bob; platform := lit "youtube";
     platform_user_id := Some (lit "UC999");
     platform_username := Some (lit "Bob");
     platform_email := None;
     display_name := Some (lit "Bob");
     access_token := lit "bob-token";
     refresh_token := None;
     token_expires_at := None;
     primary_id := Some (lit "UC999");
     platform_metadata := Some [];
     is_active := true; is_verified := true;
     connected_at := Some 0%Z; last_used_at := Some 0%Z;
     last_token_refresh := None |}.

Definition post_of (i account : Uuid.UUID) (status : string)
    (metrics : dict val) : SocialPost :=
  {| sp_id := i; sp_account_id := account; sp_video_id := 3%N;
     sp_title := lit "Demo"; sp_description := lit "A demo video";
     sp_tags := []; sp_status := lit status; sp_platform_settings := [];
     sp_created_at := 10; sp_platform_post_id := None; sp_post_url := None;
     sp_posted_at := None; sp_metrics := metrics; sp_error_message := None |}.

(** Alice's and Bob's accounts, each with one post. *)
Definition shared_db : DB :=
  {| accounts := [Sample.alice_account; bob_account];
     posts := [post_of 40%N 9%N "posted" [(lit "views", VInt 12)];
               post_of 41%N 30%N "failed" []];
     videos := videos Sample.alice_db |}.

(** The database reads the text of a UUID as Python does. *)
Definition delete_env : Accounts.DeleteEnv :=
  {| Accounts.read_id := Uuid.of_str; Accounts.delete_commit := Ret tt |}.

Definition metrics_env : Posts.MetricsEnv :=
  {| Posts.metrics_read_id := Uuid.of_str;
     Posts.metrics_loads := fun d => Ret d |}.

Definition redirect_env : Posts.RedirectEnv :=
  {| Posts.redirect_now := 60; Posts.redirect_post_id := 50%N;
     Posts.redirect_commit := Ret tt;
     Posts.redirect_refresh := Ret tt |}.

End Scenario.

(* ===================================================================== *)
(** ** Properties of the string operations *)
(* ===================================================================== *)

Arguments slice_to : simpl never.
Arguments lit : simpl never.
Arguments dec : simpl never.

Lemma slice_to_length {A} (n : nat) (s : list A) :
  List.length (slice_to n s) <= n.
Proof. unfold slice_to. apply firstn_le_length. Qed.

Lemma slice_to_incl {A} (n : nat) (s : list A) (x : A) :
  In x (slice_to n s) -> In x s.
Proof.
  unfold slice_to. intros H.
  rewrite <- (firstn_skipn n s). apply in_or_app. now left.
Qed.

Lemma remove_char_absent (c : ascii) (s : str) : ~ In c (remove_char c s).
Proof.
  unfold remove_char. intros H. apply filter_In in H. destruct H as [_ H].
  unfold char_eqb in H. rewrite Ascii.eqb_refl in H. discriminate.
Qed.

Lemma lstrip_by_incl (p : ascii -> bool) (s : str) (x : ascii) :
  In x (lstrip_by p s) -> In x s.
Proof.
  induction s as [|c r IH]; simpl; auto.
  destruct (p c); auto.
Qed.

Lemma strip_by_incl (p : ascii -> bool) (s : str) (x : ascii) :
  In x (strip_by p s) -> In x s.
Proof.
  unfold strip_by. intros H.
  apply in_rev in H. apply lstrip_by_incl in H.
  apply in_rev in H. now apply lstrip_by_incl in H.
Qed.

(** A tag holds no hash sign. *)
Definition hash_free (tag : str) : Prop := ~ In "#"%char tag.

(* ===================================================================== *)
(** ** The metadata bodies *)
(* ===================================================================== *)

(** [YouTubeUploader.upload_video]: the body keeps the three limits and
    its tags hold no hash sign. *)
Lemma uploader_body_limits (t : str) (d : option str) (tg : option (list str))
    (c p m : val) :
  let b := snippet (YouTubeUploader.request_body t d tg c p m) in
  List.length (title b) <= 100 /\ List.length (description b) <= 5000
  /\ List.length (tags b) <= 50 /\ Forall hash_free (tags b).
Proof.
  simpl. repeat split.
  - apply slice_to_length.
  - destruct d as [d|]; simpl; [|lia].
    destruct (truthy d); simpl; [apply slice_to_length | lia].
  - apply slice_to_length.
  - unfold YouTubeUploader.clean_tags.
    apply Forall_forall. intros x Hx. apply slice_to_incl in Hx.
    apply in_map_iff in Hx. destruct Hx as [tag [<- _]].
    intros H. apply strip_by_incl in H. now apply remove_char_absent in H.
Qed.

(** [YouTubeAPI.upload_video]: the body keeps the three limits. *)
Lemma api_body_limits (t d : str) (tg : option (list str)) (c p : str)
    (kw : dict val) :
  let b := snippet (YouTubeAPI.body_of t d tg c p kw) in
  List.length (title b) <= 100 /\ List.length (description b) <= 5000
  /\ List.length (tags b) <= 50.
Proof.
  unfold YouTubeAPI.body_of. cbn [snippet title description tags].
  repeat split; try apply slice_to_length.
  destruct tg as [[|x r]|]; try (cbn; lia).
  apply slice_to_length.
Qed.

(** [YouTubeIntegration.post_video]: title and description keep their
    limits, the tags hold no hash sign and are at most 500. *)
Lemma integration_body_limits (pd : YouTubeIntegration.PostData)
    (st : dict val) (b : Snippet) :
  YouTubeIntegration.snippet_of pd st = Ret b ->
  List.length (title b) <= 100 /\ List.length (description b) <= 5000
  /\ List.length (tags b) <= 500 /\ Forall hash_free (tags b).
Proof.
  unfold YouTubeIntegration.snippet_of.
  destruct (YouTubeIntegration.pd_title pd) as [t|]; simpl; [|discriminate].
  destruct (YouTubeIntegration.pd_description pd) as [d|]; simpl; [|discriminate].
  destruct (YouTubeIntegration.pd_tags pd) as [tg|]; simpl; [|discriminate].
  intros H. injection H as <-. simpl. repeat split.
  - apply slice_to_length.
  - destruct d as [d|]; simpl; [|lia].
    destruct (truthy d); simpl; [apply slice_to_length | lia].
  - rewrite length_map. apply slice_to_length.
  - apply Forall_forall. intros x Hx.
    apply in_map_iff in Hx. destruct Hx as [tag [<- _]].
    apply remove_char_absent.
Qed.

(** C3: with fifty-one tags in [post_data], the body that
    [YouTubeIntegration.post_video] sends when it opens the upload
    session carries all fifty-one: its cut is at 500 entries, where the
    two [upload_video] functions cut at 50. *)
Theorem integration_sends_51_tags :
  exists body rest,
    snd (YouTubeIntegration.post_video Sample.integration_env (lit "token")
           Sample.post_data51)
      = EvHttpPost (lit "token") body :: rest
    /\ List.length (tags (snippet body)) = 51
    /\ List.length (tags (snippet
         (YouTubeUploader.request_body (lit "Demo") None (Some Sample.tags51)
            VNone VNone VNone))) = 50.
Proof.
  eexists. eexists. split; [reflexivity|]. split; reflexivity.
Qed.

(* ===================================================================== *)
(** ** The upload loop of [YouTubeAPI.upload_video] *)
(* ===================================================================== *)

Lemma api_loop_retries_le (script : list Chunk) :
  forall calls retry err,
    retry <= Config.MAX_RETRIES ->
    loop_retries (YouTubeAPI.upload_loop script calls retry err)
      <= Config.MAX_RETRIES.
Proof.
  induction script as [|c rest IH]; intros calls retry err Hr; simpl; auto.
  destruct c as [|response|[st content text|text]]; simpl; auto.
  destruct (Config.retriable st); simpl; auto.
  destruct (Config.MAX_RETRIES <? S retry) eqn:E; simpl; auto.
  apply IH. apply Nat.ltb_ge in E. exact E.
Qed.

(** Over a prefix of progress and retriable errors that stays within the
    bound, the loop only counts. *)
Lemma api_loop_passes (pre : list Chunk) :
  forall rest calls retry err,
    forallb passable pre = true ->
    retry + count_retriable pre <= Config.MAX_RETRIES ->
    exists err',
      YouTubeAPI.upload_loop (pre ++ rest) calls retry err
      = YouTubeAPI.upload_loop rest (calls + List.length pre)
          (retry + count_retriable pre) err'.
Proof.
  unfold count_retriable.
  induction pre as [|c pre IH]; intros rest calls retry err Hp Hc; simpl in *.
  - exists err. now rewrite !Nat.add_0_r.
  - apply andb_prop in Hp. destruct Hp as [Hc1 Hp].
    destruct c as [|response|[st content text|text]]; simpl in *;
      try discriminate.
    + destruct (IH rest (S calls) retry err Hp Hc) as [err' ->].
      exists err'. f_equal. lia.
    + rewrite Hc1 in *. simpl in Hc.
      destruct (Config.MAX_RETRIES <? S retry) eqn:E.
      * apply Nat.ltb_lt in E. exfalso. lia.
      * destruct (IH rest (S calls) (S retry)
                     (Some (YouTubeAPI.http_error_text st content)) Hp)
          as [err' ->]; [lia|].
        exists err'. f_equal; simpl; lia.
Qed.

Lemma api_loop_running (script : list Chunk) :
  forall calls retry err,
    loop_result (YouTubeAPI.upload_loop script calls retry err) = Running ->
    forallb passable script = true.
Proof.
  induction script as [|c rest IH]; intros calls retry err H; simpl in *; auto.
  destruct c as [|response|[st content text|text]]; simpl in *;
    try discriminate; eauto.
  destruct (Config.retriable st); simpl in *; try discriminate.
  destruct (Config.MAX_RETRIES <? S retry); simpl in *; try discriminate.
  eauto.
Qed.


(** [YouTubeAPI.upload_video] by cases, with the [except] of the outer
    [try] applied in each. *)
Lemma api_upload_video_cases (env : YouTubeAPI.Env) (account : SocialAccount)
    (path t d : str) (tg : option (list str)) (c p : str) (kw : dict val) :
  YouTubeAPI.upload_video env account path t d tg c p kw =
  match YouTubeAPI.fs env path with
  | None =>
      (Returned (fail_result (lit "Video file not found: " ++ path)), account, [])
  | Some size =>
      if (Config.MAX_FILE_SIZE <? size)%Z then
        (Returned (fail_result
           (lit "Video file exceeds YouTube size limit (128GB)")), account, [])
      else
        match YouTubeAPI.get_youtube_service env account with
        | (Raise e, account, trace) =>
            (Returned (fail_result (exn_str e)), account, trace)
        | (Ret youtube, account, trace) =>
            let body := YouTubeAPI.body_of t d tg c p kw in
            match YouTubeAPI.media env with
            | Raise e => (Returned (fail_result (exn_str e)), account, trace)
            | Ret _ =>
                match YouTubeAPI.insert env with
                | Raise e =>
                    (Returned (fail_result (exn_str e)), account,
                     trace ++ [EvInsert (svc_token youtube) body])
                | Ret _ =>
                    let fin :=
                      YouTubeAPI.upload_loop (YouTubeAPI.chunks env) 0 0 None in
                    (api_answer fin, account,
                     (trace ++ [EvInsert (svc_token youtube) body])
                       ++ repeat EvNextChunk (loop_calls fin))
                end
            end
        end
  end.
Proof.
  unfold YouTubeAPI.upload_video, YouTubeAPI.upload_video_try, api_answer.
  destruct (YouTubeAPI.fs env path) as [size|]; [|reflexivity].
  destruct (Config.MAX_FILE_SIZE <? size)%Z; [reflexivity|].
  destruct (YouTubeAPI.get_youtube_service env account) as [[[youtube|e] acc] tr];
    [|reflexivity].
  destruct (YouTubeAPI.media env); [|reflexivity].
  destruct (YouTubeAPI.insert env); [|reflexivity].
  cbv zeta.
  destruct (loop_result (YouTubeAPI.upload_loop (YouTubeAPI.chunks env) 0 0 None))
    as [[|kv response]| |]; try reflexivity.
  destruct (truthy_val (get_or (lit "id") VNone (kv :: response))); reflexivity.
Qed.

(** The retry policy of [YouTubeAPI.upload_video]: the loop calls
    [next_chunk] again only after an [HttpError] whose status is one of
    500, 502, 503, 504, and does so at most [MAX_RETRIES] = 3 times over
    the upload, whatever the outcomes are.  When the outcomes so far were
    progress reports and at most three such errors: a further retriable
    error is retried if fewer than three came before and otherwise ends
    the upload with the failure "Max retries exceeded: " followed by the
    text of that last error; any other [HttpError] and any other
    exception, a network or timeout error included, ends the upload at
    once with its own text and no further call. *)
Theorem api_upload_retry_policy (env : YouTubeAPI.Env) (account : SocialAccount)
    (path t d : str) (tg : option (list str)) (c p : str) (kw : dict val)
    (size : Z) (youtube : Service) (account' : SocialAccount)
    (trace : list Event) (pre : list Chunk) (ch : Chunk) (rest : list Chunk) :
  YouTubeAPI.fs env path = Some size ->
  (Config.MAX_FILE_SIZE <? size)%Z = false ->
  YouTubeAPI.get_youtube_service env account = (Ret youtube, account', trace) ->
  YouTubeAPI.media env = Ret tt ->
  YouTubeAPI.insert env = Ret tt ->
  YouTubeAPI.chunks env = pre ++ ch :: rest ->
  forallb passable pre = true ->
  count_retriable pre <= Config.MAX_RETRIES ->
  let fin := YouTubeAPI.upload_loop (YouTubeAPI.chunks env) 0 0 None in
  let out := fst (fst (YouTubeAPI.upload_video env account path t d tg c p kw)) in
  (forall script,
      loop_retries (YouTubeAPI.upload_loop script 0 0 None)
        <= Config.MAX_RETRIES)
  /\ match ch with
     | ChunkRaise (HttpError st content text) =>
         if Config.retriable st then
           if count_retriable pre =? Config.MAX_RETRIES then
             out = Returned (fail_result
                     (lit "Max retries exceeded: "
                      ++ YouTubeAPI.http_error_text st content))
             /\ loop_retries fin = Config.MAX_RETRIES
             /\ loop_calls fin = S (List.length pre)
           else
             exists err,
               fin = YouTubeAPI.upload_loop rest (S (List.length pre))
                       (S (count_retriable pre)) err
         else
           out = Returned (fail_result text)
           /\ loop_retries fin = count_retriable pre
           /\ loop_calls fin = S (List.length pre)
     | ChunkRaise (Error text) =>
         out = Returned (fail_result text)
         /\ loop_retries fin = count_retriable pre
         /\ loop_calls fin = S (List.length pre)
     | ChunkDone response =>
         loop_result fin = Returned response
         /\ loop_retries fin = count_retriable pre
     | ChunkProgress => True
     end.
Proof.
  intros Hfs Hsize Hsvc Hmedia Hinsert Hchunks Hpre Hcount fin out.
  split.
  { intros script. apply api_loop_retries_le. apply Nat.le_0_l. }
  assert (Hout : out = api_answer fin).
  { unfold out. rewrite api_upload_video_cases.
    rewrite Hfs, Hsize, Hsvc, Hmedia, Hinsert. reflexivity. }
  destruct (api_loop_passes pre (ch :: rest) 0 0 None Hpre Hcount) as [err Hloop].
  simpl in Hloop.
  assert (Hfin : fin = YouTubeAPI.upload_loop (ch :: rest) (List.length pre)
                         (count_retriable pre) err).
  { unfold fin. rewrite Hchunks. exact Hloop. }
  clearbody fin out.
  destruct ch as [|response|[st content text|text]]; auto.
  - subst fin. simpl. auto.
  - simpl in Hfin. destruct (Config.retriable st).
    + destruct (count_retriable pre =? Config.MAX_RETRIES) eqn:E.
      * apply Nat.eqb_eq in E. rewrite E in Hfin.
        replace (Config.MAX_RETRIES <? S Config.MAX_RETRIES) with true in Hfin
          by reflexivity.
        subst. unfold api_answer. simpl. auto.
      * apply Nat.eqb_neq in E.
        replace (Config.MAX_RETRIES <? S (count_retriable pre)) with false
          in Hfin by (symmetry; apply Nat.ltb_ge; lia).
        eauto.
    + subst. unfold api_answer. simpl. auto.
  - subst. unfold api_answer. simpl. auto.
Qed.

Lemma api_upload_retry_policy_witness :
  let env := Sample.api_env 1024 false (Raise (Error [])) Sample.four_errors in
  let pre := [Sample.unavailable; ChunkProgress; Sample.unavailable;
              Sample.unavailable] in
  forallb passable pre = true
  /\ count_retriable pre <= Config.MAX_RETRIES
  /\ fst (fst (YouTubeAPI.upload_video env (Sample.account None)
                 Sample.demo_path (lit "Demo") [] None (lit "22")
                 (lit "private") []))
     = Returned (fail_result
         (lit "Max retries exceeded: "
          ++ YouTubeAPI.http_error_text 503 (lit "b'backend error'"))).
Proof.
  intros env pre.
  split; [reflexivity|]. split; [apply le_n|].
  exact (proj1 (proj2
    (@api_upload_retry_policy env (Sample.account None) Sample.demo_path
       (lit "Demo") [] None (lit "22") (lit "private") [] 1024%Z
       {| svc_token := lit "stored-token"; svc_refresh_token := None |}
       (Sample.account None) [EvBuild (lit "stored-token")]
       pre Sample.unavailable [Sample.done]
       eq_refl eq_refl eq_refl eq_refl eq_refl eq_refl eq_refl (le_n _)))).
Defined.

(** The loop of [YouTubeUploader.upload_video] passes over any number of
    failed calls. *)
Lemma uploader_loop_unbounded (n : nat) (e : Exn) (response : dict val) :
  forall calls retries,
    YouTubeUploader.upload_loop (repeat (ChunkRaise e) n ++ [ChunkDone response])
      calls retries
    = {| loop_result := Returned response; loop_calls := S (calls + n);
         loop_retries := retries + n |}.
Proof.
  induction n as [|n IH]; intros calls retries; simpl.
  - now rewrite !Nat.add_0_r.
  - rewrite IH. f_equal; lia.
Qed.

(** C4: the two upload loops follow two retry policies, and neither is
    the one claimed.  In [YouTubeAPI.upload_video] a timeout on the first
    [next_chunk] ends the upload after that one call, although the next
    call would have delivered the video: a network error is not retried.
    On three gateway errors (status 503) with a progress report between
    them and a fourth one, that function gives up with "Max retries
    exceeded"; [YouTubeUploader.upload_video], given the same outcomes,
    passes over all four and succeeds.  It also passes over four client
    errors (status 400, outside the retriable set) in a row, and over
    any number [n] of raising calls, whatever they raise: the loop has
    no bound. *)
Theorem retry_differs_between_paths :
  (let env := Sample.api_env 1024 false (Raise (Error []))
                [Sample.timed_out; Sample.done] in
   fst (fst (YouTubeAPI.upload_video env (Sample.account None)
               Sample.demo_path (lit "Demo") [] None (lit "22")
               (lit "private") []))
     = Returned (fail_result (lit "timed out"))
   /\ loop_calls (YouTubeAPI.upload_loop (YouTubeAPI.chunks env) 0 0 None) = 1
   /\ loop_retries (YouTubeAPI.upload_loop (YouTubeAPI.chunks env) 0 0 None) = 0)
  /\ (let env := Sample.api_env 1024 false (Raise (Error []))
                   Sample.four_errors in
      fst (fst (YouTubeAPI.upload_video env (Sample.account None)
                  Sample.demo_path (lit "Demo") [] None (lit "22")
                  (lit "private") []))
        = Returned (fail_result
            (lit "Max retries exceeded: "
             ++ YouTubeAPI.http_error_text 503 (lit "b'backend error'")))
      /\ loop_retries (YouTubeAPI.upload_loop (YouTubeAPI.chunks env) 0 0 None)
         = 3)
  /\ (let env := Sample.uploader_env 1024 Sample.four_errors in
      fst (YouTubeUploader.upload_video Sample.authenticated env
             Sample.demo_path (lit "Demo") None None VNone VNone VNone)
        = Returned (ok_result (lit "abc123") (watch_url (lit "abc123")))
      /\ loop_retries (YouTubeUploader.upload_loop (YouTubeUploader.chunks env) 0 0)
         = 4
      /\ loop_calls (YouTubeUploader.upload_loop (YouTubeUploader.chunks env) 0 0)
         = 6)
  /\ (let env := Sample.uploader_env 1024
                   [Sample.bad_request; Sample.bad_request; Sample.bad_request;
                    Sample.bad_request; Sample.done] in
      fst (YouTubeUploader.upload_video Sample.authenticated env
             Sample.demo_path (lit "Demo") None None VNone VNone VNone)
        = Returned (ok_result (lit "abc123") (watch_url (lit "abc123")))
      /\ loop_retries (YouTubeUploader.upload_loop (YouTubeUploader.chunks env) 0 0)
         = 4
      /\ Config.MAX_RETRIES = 3
      /\ Config.retriable 400 = false)
  /\ (forall (n : nat) (e : Exn) (response : dict val),
        let fin := YouTubeUploader.upload_loop
                     (repeat (ChunkRaise e) n ++ [ChunkDone response]) 0 0 in
        loop_result fin = Returned response
        /\ loop_retries fin = n
        /\ loop_calls fin = S n).
Proof.
  split; [repeat split|]. split; [repeat split|]. split; [repeat split|].
  split; [repeat split|].
  intros n e response. cbv zeta. rewrite uploader_loop_unbounded.
  repeat split.
Qed.


(* ===================================================================== *)
(** ** File validation *)
(* ===================================================================== *)

(** [YouTubeAPI.upload_video] answers a missing or oversized file with a
    failure before any call leaves the process. *)
Lemma api_rejects_bad_file (env : YouTubeAPI.Env) (account : SocialAccount)
    (path t d : str) (tg : option (list str)) (c p : str) (kw : dict val) :
  (YouTubeAPI.fs env path = None
   \/ exists size, YouTubeAPI.fs env path = Some size
                   /\ (Config.MAX_FILE_SIZE < size)%Z) ->
  exists msg,
    YouTubeAPI.upload_video env account path t d tg c p kw
    = (Returned (fail_result msg), account, []).
Proof.
  intros H. rewrite api_upload_video_cases.
  destruct H as [-> | [size [-> Hs]]]; [eauto|].
  apply Z.ltb_lt in Hs. rewrite Hs. eauto.
Qed.

(** [YouTubeUploader.upload_video] does so for a missing file. *)
Lemma uploader_rejects_missing_file (self : YouTubeUploader.Uploader)
    (env : YouTubeUploader.Env) (path t : str) (d : option str)
    (tg : option (list str)) (c p m : val) :
  YouTubeUploader.fs env path = None ->
  exists msg,
    YouTubeUploader.upload_video self env path t d tg c p m
    = (Returned (fail_result msg), []).
Proof.
  intros H. unfold YouTubeUploader.upload_video, exists_.
  destruct (YouTubeUploader.youtube_service self); rewrite ?H; simpl; eauto.
Qed.

(** C5: a file of [MAX_FILE_SIZE] + 1 bytes.  [YouTubeAPI.upload_video]
    answers with the size failure and makes no call;
    [YouTubeUploader.upload_video], which checks only that the file
    exists, creates the upload request, transfers the file and reports
    success. *)
Theorem uploader_uploads_oversized_file :
  (Config.MAX_FILE_SIZE < Sample.oversize)%Z
  /\ YouTubeAPI.upload_video
       (Sample.api_env Sample.oversize false (Raise (Error [])) [Sample.done])
       (Sample.account None) Sample.demo_path (lit "Demo") [] None (lit "22")
       (lit "private") []
     = (Returned (fail_result
          (lit "Video file exceeds YouTube size limit (128GB)")),
        Sample.account None, [])
  /\ YouTubeUploader.upload_video Sample.authenticated
       (Sample.uploader_env Sample.oversize [Sample.done])
       Sample.demo_path (lit "Demo") None None VNone VNone VNone
     = (Returned (ok_result (lit "abc123") (watch_url (lit "abc123"))),
        [EvInsert (lit "stored-token")
           (YouTubeUploader.request_body (lit "Demo") None None VNone VNone VNone);
         EvNextChunk]).
Proof. repeat split. Qed.

(* ===================================================================== *)
(** ** Token refresh before the upload *)
(* ===================================================================== *)

Lemma uploads_with_chunks (token : str) (n : nat) :
  uploads_with token (repeat EvNextChunk n).
Proof.
  unfold uploads_with. apply Forall_forall. intros ev H.
  apply repeat_spec in H. now subst.
Qed.

(** After the service has been built with [token], whatever follows in
    [YouTubeAPI.upload_video] uses that token. *)
Lemma api_tail_uses_service_token (env : YouTubeAPI.Env) (token : str)
    (body : Body) (out : Outcome PublishResult) (account : SocialAccount)
    (before tr : list Event) (youtube : Service) :
  svc_token youtube = token ->
  match YouTubeAPI.media env with
  | Raise e => (Returned (fail_result (exn_str e)), account, before)
  | Ret _ =>
      match YouTubeAPI.insert env with
      | Raise e =>
          (Returned (fail_result (exn_str e)), account,
           before ++ [EvInsert (svc_token youtube) body])
      | Ret _ =>
          let fin := YouTubeAPI.upload_loop (YouTubeAPI.chunks env) 0 0 None in
          (api_answer fin, account,
           (before ++ [EvInsert (svc_token youtube) body])
             ++ repeat EvNextChunk (loop_calls fin))
      end
  end = (out, account, tr) ->
  exists rest, tr = before ++ rest /\ uploads_with token rest.
Proof.
  intros Ht H.
  destruct (YouTubeAPI.media env).
  - destruct (YouTubeAPI.insert env); injection H as _ <-.
    + rewrite <- app_assoc. eexists. split; [reflexivity|].
      apply Forall_app. split; [|apply uploads_with_chunks].
      constructor; [exact Ht | constructor].
    + eexists. split; [reflexivity|].
      constructor; [exact Ht | constructor].
  - injection H as _ <-. exists []. split; [now rewrite app_nil_r | constructor].
Qed.

(** [get_youtube_service] never refreshes: the credentials it makes
    carry no expiry, so they do not report expired; the account stays as
    it was and the one call is the build with the stored token. *)
Lemma service_uses_stored_token (env : YouTubeAPI.Env)
    (account : SocialAccount) :
  snd (fst (YouTubeAPI.get_youtube_service env account)) = account
  /\ snd (YouTubeAPI.get_youtube_service env account)
     = [EvBuild (access_token account)]
  /\ (forall youtube,
        fst (fst (YouTubeAPI.get_youtube_service env account)) = Ret youtube ->
        svc_token youtube = access_token account).
Proof.
  unfold YouTubeAPI.get_youtube_service, YouTubeAPI.creds_expired.
  cbn [YouTubeAPI.credentials_of YouTubeAPI.cr_expiry andb].
  destruct (YouTubeAPI.build env); cbn [fst snd app].
  - repeat split. now intros youtube [= <-].
  - repeat split. discriminate.
Qed.

(* ===================================================================== *)
(** ** The publish operations answer with a result dictionary *)
(* ===================================================================== *)

Lemma well_formed_fail (msg : str) : well_formed (fail_result msg).
Proof. unfold well_formed. simpl. discriminate. Qed.

Lemma well_formed_ok (i u : str) : well_formed (ok_result i u).
Proof. unfold well_formed. simpl. split; discriminate. Qed.

Create HintDb publish.
#[local] Hint Resolve well_formed_fail well_formed_ok : publish.

Lemma api_answer_well_formed (fin : LoopEnd) :
  (exists r, api_answer fin = Returned r /\ well_formed r)
  \/ (api_answer fin = Running /\ loop_result fin = Running).
Proof.
  unfold api_answer.
  destruct (loop_result fin) as [[|kv response]|e|]; eauto with publish.
  destruct (truthy_val _); eauto with publish.
Qed.

Lemma integration_post_video_returns (env : YouTubeIntegration.Env)
    (token : str) (pd : YouTubeIntegration.PostData) :
  exists r,
    fst (YouTubeIntegration.post_video env token pd) = Ret r /\ well_formed r.
Proof.
  unfold YouTubeIntegration.post_video, YouTubeIntegration.post_video_try.
  destruct (YouTubeIntegration.snippet_of pd _); simpl; eauto with publish.
  destruct (YouTubeIntegration.session_post env) as [resp|e]; simpl;
    eauto with publish.
  assert (Hfailed :
    forall tr, exists r,
      fst (match
             (match YouTubeIntegration.resp_text resp with
              | Raise e => Raise e
              | Ret error =>
                  Ret (fail_result (lit "YouTube upload failed: " ++ error))
              end, tr : list Event)
           with
           | (Raise e, trace) => (Ret (fail_result (exn_str e)), trace)
           | r => r
           end) = Ret r /\ well_formed r).
  { intros tr. destruct (YouTubeIntegration.resp_text resp); simpl;
      eauto with publish. }
  destruct (YouTubeIntegration.is_ok (YouTubeIntegration.resp_status resp));
    [|apply Hfailed].
  destruct (YouTubeIntegration.resp_location resp) as [[|x location]|];
    try apply Hfailed.
  destruct (YouTubeIntegration.pd_video_path pd) as [video_path|]; simpl;
    eauto with publish.
  destruct (YouTubeIntegration._upload_video_file env (x :: location) video_path)
    as [[video_result|e] sent]; simpl; eauto with publish.
  destruct (get (lit "id") video_result); simpl; eauto with publish.
Qed.

(** C8: the publish operation of the adapter answers with a result
    dictionary and raises nothing, whatever the provider and the library
    do.  [YouTubeIntegration.post_video] always returns a dictionary whose
    [success] flag comes with the post id and URL, or with the error.
    [YouTubeAPI.upload_video] returns such a dictionary as soon as its
    loop ends, that is unless every [next_chunk] outcome supplied was a
    progress report or a retriable error; no exception leaves either
    function. *)
Theorem publish_returns_result :
  (forall env token pd,
      exists r,
        fst (YouTubeIntegration.post_video env token pd) = Ret r
        /\ well_formed r)
  /\ (forall env account path t d tg c p kw,
         let out :=
           fst (fst (YouTubeAPI.upload_video env account path t d tg c p kw)) in
         (exists r, out = Returned r /\ well_formed r)
         \/ (out = Running
             /\ forallb passable (YouTubeAPI.chunks env) = true))
  /\ (forall env account path t d tg c p kw,
         forallb passable (YouTubeAPI.chunks env) = false ->
         exists r,
           fst (fst (YouTubeAPI.upload_video env account path t d tg c p kw))
             = Returned r
           /\ well_formed r).
Proof.
  assert (Hapi : forall env account path t d tg c p kw,
    let out :=
      fst (fst (YouTubeAPI.upload_video env account path t d tg c p kw)) in
    (exists r, out = Returned r /\ well_formed r)
    \/ (out = Running /\ forallb passable (YouTubeAPI.chunks env) = true)).
  { intros env account path t d tg c p kw. cbv zeta.
    rewrite api_upload_video_cases.
    destruct (YouTubeAPI.fs env path) as [size|]; simpl; eauto with publish.
    destruct (Config.MAX_FILE_SIZE <? size)%Z; simpl; eauto with publish.
    destruct (YouTubeAPI.get_youtube_service env account)
      as [[[youtube|e] acc] tr]; simpl; eauto with publish.
    destruct (YouTubeAPI.media env); simpl; eauto with publish.
    destruct (YouTubeAPI.insert env); simpl; eauto with publish.
    destruct (api_answer_well_formed
                (YouTubeAPI.upload_loop (YouTubeAPI.chunks env) 0 0 None))
      as [H | [H1 H2]]; [now left|].
    right. split; [exact H1|]. now apply api_loop_running in H2. }
  split; [apply integration_post_video_returns|].
  split; [exact Hapi|].
  intros env account path t d tg c p kw Hp.
  destruct (Hapi env account path t d tg c p kw) as [H | [_ H]]; [exact H|].
  rewrite H in Hp. discriminate.
Qed.

Lemma publish_returns_result_witness :
  let env := Sample.api_env 1024 false (Raise (Error [])) [Sample.timed_out] in
  forallb passable (YouTubeAPI.chunks env) = false
  /\ exists r,
       fst (fst (YouTubeAPI.upload_video env (Sample.account None)
                   Sample.demo_path (lit "Demo") [] None (lit "22")
                   (lit "private") []))
         = Returned r
       /\ well_formed r.
Proof.
  intros env.
  assert (H : forallb passable (YouTubeAPI.chunks env) = false) by reflexivity.
  split; [exact H|].
  exact (proj2 (proj2 publish_returns_result) env (Sample.account None)
           Sample.demo_path (lit "Demo") [] None (lit "22") (lit "private") []
           H).
Defined.

(* ===================================================================== *)
(** ** UUID text and the state token *)
(* ===================================================================== *)

Lemma char_eqb_refl (c : ascii) : char_eqb c c = true.
Proof. apply Ascii.eqb_refl. Qed.

Lemma char_eqb_eq (a b : ascii) : char_eqb a b = true <-> a = b.
Proof. apply Ascii.eqb_eq. Qed.

Lemma char_eqb_neq (a b : ascii) : char_eqb a b = false <-> a <> b.
Proof. apply Ascii.eqb_neq. Qed.

Lemma str_eqb_refl (s : str) : str_eqb s s = true.
Proof.
  induction s as [|c s IH]; simpl; auto.
  now rewrite char_eqb_refl, IH.
Qed.

Lemma str_eqb_eq (a b : str) : str_eqb a b = true <-> a = b.
Proof.
  split; [|intros ->; apply str_eqb_refl].
  revert b; induction a as [|x a IH]; intros [|y b] H; simpl in H;
    try discriminate; auto.
  apply andb_prop in H. destruct H as [H1 H2].
  apply char_eqb_eq in H1. apply IH in H2. now subst.
Qed.

Lemma hex_digit_value (n : N) :
  (n < 16)%N -> Uuid.hex_value (Uuid.hex_digit n) = Some n.
Proof.
  intros H.
  assert (Hall : forallb
            (fun k => match Uuid.hex_value (Uuid.hex_digit (N.of_nat k)) with
                      | Some v => N.eqb v (N.of_nat k)
                      | None => false
                      end) (seq 0 16) = true) by reflexivity.
  rewrite forallb_forall in Hall.
  specialize (Hall (N.to_nat n)). rewrite N2Nat.id in Hall.
  destruct (Uuid.hex_value (Uuid.hex_digit n)) as [v|].
  - f_equal. apply N.eqb_eq. apply Hall. apply in_seq. lia.
  - exfalso. assert (false = true); [|discriminate].
    apply Hall. apply in_seq. lia.
Qed.

Lemma mod16_lt (n : N) : (n mod 16 < 16)%N.
Proof. apply N.mod_lt. discriminate. Qed.

Lemma hex_fixed_hex (k : nat) : forall n, Forall is_hex (Uuid.hex_fixed k n).
Proof.
  induction k as [|k IH]; intros n; simpl; [constructor|].
  apply Forall_app. split; [apply IH|].
  constructor; [|constructor].
  unfold is_hex. rewrite hex_digit_value by apply mod16_lt. discriminate.
Qed.

Lemma hex_fixed_length (k : nat) :
  forall n, List.length (Uuid.hex_fixed k n) = k.
Proof.
  induction k as [|k IH]; intros n; simpl; auto.
  rewrite length_app, IH. simpl. lia.
Qed.

Lemma hex_number_hex_fixed (k : nat) :
  forall n, hex_number (Uuid.hex_fixed k n) = (n mod 16 ^ N.of_nat k)%N.
Proof.
  unfold hex_number.
  induction k as [|k IH]; intros n.
  - simpl. now rewrite N.mod_1_r.
  - cbn [Uuid.hex_fixed]. rewrite fold_left_app, IH. cbn [fold_left].
    rewrite hex_digit_value by apply mod16_lt.
    rewrite Nat2N.inj_succ, N.pow_succ_r'.
    rewrite N.Div0.mod_mul_r. lia.
Qed.

(** A hexadecimal digit is no blank, sign, underscore or [x]. *)
Lemma hex_is_plain (c : ascii) :
  is_hex c ->
  Uuid.int_space c = false
  /\ char_eqb c "+"%char = false /\ char_eqb c "-"%char = false
  /\ char_eqb c "_"%char = false
  /\ char_eqb c "x"%char = false /\ char_eqb c "X"%char = false.
Proof.
  unfold is_hex.
  destruct c as [[] [] [] [] [] [] [] []];
    try (intros _; repeat split; reflexivity);
    intros H; exfalso; apply H; reflexivity.
Qed.

Lemma scan_digits_hex (s : str) :
  Forall is_hex s ->
  forall acc prev,
    s <> [] \/ prev = Uuid.PDigit ->
    Uuid.scan_digits s acc prev
    = Some (fold_left
              (fun acc c =>
                 match Uuid.hex_value c with
                 | Some v => (16 * acc + v)%N
                 | None => acc
                 end) s acc, []).
Proof.
  induction 1 as [|c r Hc Hr IH]; intros acc prev Hp.
  - destruct Hp as [Hp | ->]; [now destruct Hp | reflexivity].
  - cbn [Uuid.scan_digits fold_left]. unfold is_hex in Hc.
    destruct (Uuid.hex_value c) as [v|]; [|now destruct Hc].
    apply IH. now right.
Qed.

(** [int(hex, 16)] on a string of hexadecimal digits. *)
Lemma int16_hex (s : str) :
  Forall is_hex s -> s <> [] ->
  Uuid.int16 s = Some (Z.of_N (hex_number s)).
Proof.
  intros Hs Hne. destruct s as [|c r]; [now destruct Hne|].
  pose proof (Forall_inv Hs) as Hc. pose proof (Forall_inv_tail Hs) as Hr.
  destruct (hex_is_plain _ Hc) as [Hsp [Hplus [Hminus [Hunder _]]]].
  assert (Hscan : Uuid.scan_digits (c :: r) 0 Uuid.PStart
                  = Some (hex_number (c :: r), [])).
  { unfold hex_number. apply (scan_digits_hex _ Hs). left. discriminate. }
  unfold Uuid.int16. cbn [lstrip_by]. rewrite Hsp, Hplus, Hminus.
  cbv beta iota zeta.
  destruct r as [|x r0].
  - rewrite Hunder, Hscan. reflexivity.
  - destruct (hex_is_plain _ (Forall_inv Hr)) as [_ [_ [_ [_ [Hx HX]]]]].
    rewrite Hx, HX, andb_false_r, Hunder, Hscan. reflexivity.
Qed.

Lemma skipn_incl {A} (n : nat) (l : list A) (x : A) :
  In x (skipn n l) -> In x l.
Proof.
  intros H. rewrite <- (firstn_skipn n l). apply in_or_app. now right.
Qed.

Lemma firstn_incl {A} (n : nat) (l : list A) (x : A) :
  In x (firstn n l) -> In x l.
Proof. apply slice_to_incl. Qed.

Lemma grouped_chars (hex : str) (x : ascii) :
  In x (grouped hex) -> x = "-"%char \/ In x hex.
Proof.
  unfold grouped. intros H.
  repeat (apply in_app_or in H; destruct H as [H|H];
          [right; try apply skipn_incl in H; apply firstn_incl in H;
           try apply skipn_incl in H; exact H|];
          destruct H as [H|H]; [now left|]).
  right. now apply skipn_incl in H.
Qed.

Lemma regroup (hex : str) :
  firstn 8 hex ++ firstn 4 (skipn 8 hex) ++ firstn 4 (skipn 12 hex)
    ++ firstn 4 (skipn 16 hex) ++ skipn 20 hex = hex.
Proof.
  change (skipn 20 hex) with (skipn (4 + 16) hex).
  rewrite <- skipn_skipn, firstn_skipn.
  change (skipn 16 hex) with (skipn (4 + 12) hex).
  rewrite <- skipn_skipn, firstn_skipn.
  change (skipn 12 hex) with (skipn (4 + 8) hex).
  rewrite <- skipn_skipn, firstn_skipn.
  apply firstn_skipn.
Qed.

Lemma remove_char_id (c : ascii) (s : str) :
  ~ In c s -> remove_char c s = s.
Proof.
  unfold remove_char. induction s as [|x s IH]; intros H; simpl; auto.
  destruct (char_eqb x c) eqn:E.
  - apply char_eqb_eq in E. subst. exfalso. apply H. now left.
  - simpl. f_equal. apply IH. intros H'. apply H. now right.
Qed.

Lemma remove_char_app (c : ascii) (a b : str) :
  remove_char c (a ++ b) = remove_char c a ++ remove_char c b.
Proof. apply filter_app. Qed.

Lemma remove_dash_grouped (hex : str) :
  ~ In "-"%char hex -> remove_char "-"%char (grouped hex) = hex.
Proof.
  intros H. unfold grouped.
  assert (Hf : forall n, remove_char "-"%char (firstn n hex) = firstn n hex).
  { intros n. apply remove_char_id. intros H'.
    apply H. eapply (@slice_to_incl ascii). exact H'. }
  assert (Hfs : forall n m, remove_char "-"%char (firstn n (skipn m hex))
                            = firstn n (skipn m hex)).
  { intros n m. apply remove_char_id. intros H'.
    apply H. eapply skipn_incl, (@slice_to_incl ascii). exact H'. }
  assert (Hs : forall m, remove_char "-"%char (skipn m hex) = skipn m hex).
  { intros m. apply remove_char_id. intros H'. apply H.
    eapply skipn_incl. exact H'. }
  assert (Hd : forall s, remove_char "-"%char ("-"%char :: s)
                         = remove_char "-"%char s) by reflexivity.
  rewrite !remove_char_app, !Hd, !remove_char_app, !Hd, !remove_char_app, !Hd,
    !remove_char_app, !Hd.
  rewrite Hf, !Hfs, Hs. apply regroup.
Qed.

Lemma lstrip_by_id (p : ascii -> bool) (s : str) :
  (forall x, In x s -> p x = false) -> lstrip_by p s = s.
Proof.
  destruct s as [|c r]; simpl; auto.
  intros H. now rewrite (H c (or_introl eq_refl)).
Qed.

Lemma strip_by_id (p : ascii -> bool) (s : str) :
  (forall x, In x s -> p x = false) -> strip_by p s = s.
Proof.
  intros H. unfold strip_by. rewrite (lstrip_by_id p s H).
  rewrite lstrip_by_id; [apply rev_involutive|].
  intros x Hx. apply H. now apply in_rev.
Qed.

Lemma starts_with_incl (pat : str) :
  forall s x, Uuid.starts_with pat s = true -> In x pat -> In x s.
Proof.
  induction pat as [|p pat IH]; intros [|c s] x H Hx; simpl in *;
    try contradiction; try discriminate.
  apply andb_prop in H. destruct H as [H1 H2]. apply char_eqb_eq in H1.
  destruct Hx as [<- | Hx]; [now left|]. right. eauto.
Qed.

(** A pattern with a character that the string lacks is not found. *)
Lemma remove_sub_id (pat s : str) (x : ascii) :
  In x pat -> ~ In x s -> Uuid.remove_sub pat s = s.
Proof.
  unfold Uuid.remove_sub. intros Hx.
  induction s as [|c s IH]; intros H; simpl; auto.
  destruct (Uuid.starts_with pat (c :: s)) eqn:E.
  - exfalso. apply H. eapply starts_with_incl; eauto.
  - f_equal. apply IH. intros H'. apply H. now right.
Qed.

Lemma is_hex_in (hex : str) (x : ascii) :
  Forall is_hex hex -> In x hex -> is_hex x.
Proof. intros H. now apply Forall_forall. Qed.

(** The text of a UUID holds digits and dashes only. *)
Lemma to_str_chars (u : Uuid.UUID) (x : ascii) :
  In x (Uuid.to_str u) -> x = "-"%char \/ is_hex x.
Proof.
  intros H. apply (grouped_chars (Uuid.hex_fixed 32 u)) in H.
  destruct H as [H|H]; [now left|right].
  eapply is_hex_in; [apply hex_fixed_hex | exact H].
Qed.

Lemma to_str_no_colon (u : Uuid.UUID) : ~ In ":"%char (Uuid.to_str u).
Proof.
  intros H. apply to_str_chars in H. destruct H as [H|H]; [discriminate|].
  now apply H.
Qed.

(** [uuid.UUID(str(u)) == u] *)
Lemma of_str_to_str (u : Uuid.UUID) :
  Uuid.valid u -> Uuid.of_str (Uuid.to_str u) = Ret u.
Proof.
  intros Hu. unfold Uuid.of_str.
  rewrite (@remove_sub_id (lit "urn:") _ ":"%char);
    [|cbv; tauto | apply to_str_no_colon].
  rewrite (@remove_sub_id (lit "uuid:") _ ":"%char);
    [|cbv; tauto | apply to_str_no_colon].
  rewrite strip_by_id.
  2:{ intros x Hx. apply to_str_chars in Hx.
      destruct Hx as [-> | Hx]; [reflexivity|].
      unfold Uuid.is_brace.
      destruct (char_eqb x "{"%char) eqn:E1.
      { apply char_eqb_eq in E1. subst. now exfalso; apply Hx. }
      destruct (char_eqb x "}"%char) eqn:E2; [|reflexivity].
      apply char_eqb_eq in E2. subst. now exfalso; apply Hx. }
  change (Uuid.to_str u) with (grouped (Uuid.hex_fixed 32 u)).
  rewrite remove_dash_grouped.
  2:{ intros H. eapply is_hex_in in H; [|apply hex_fixed_hex]. now apply H. }
  rewrite hex_fixed_length. cbn [Nat.eqb negb].
  rewrite int16_hex, hex_number_hex_fixed.
  - rewrite N.mod_small by exact Hu.
    replace (Z.of_N u <? 0)%Z with false by (symmetry; apply Z.ltb_ge; lia).
    now rewrite N2Z.id.
  - apply hex_fixed_hex.
  - intros H. apply (f_equal (@List.length ascii)) in H.
    rewrite hex_fixed_length in H. discriminate.
Qed.

Lemma split_whole (c : ascii) (a : str) : ~ In c a -> split c a = [a].
Proof.
  induction a as [|x a IH]; intros H; simpl; auto.
  destruct (char_eqb x c) eqn:E.
  - apply char_eqb_eq in E. subst. exfalso. apply H. now left.
  - rewrite IH; [reflexivity|]. intros H'. apply H. now right.
Qed.

Lemma split_at (c : ascii) (a b : str) :
  ~ In c a -> split c (a ++ c :: b) = a :: split c b.
Proof.
  induction a as [|x a IH]; intros H; simpl.
  - now rewrite char_eqb_refl.
  - destruct (char_eqb x c) eqn:E.
    + apply char_eqb_eq in E. subst. exfalso. apply H. now left.
    + rewrite IH; [reflexivity|]. intros H'. apply H. now right.
Qed.

Lemma split_state (user : Router.User) (nonce : Uuid.UUID) :
  split ":"%char (Router.state_of user nonce)
  = [Uuid.to_str (Router.u_id user); Router.youtube; Uuid.to_str nonce].
Proof.
  unfold Router.state_of.
  rewrite split_at by apply to_str_no_colon.
  rewrite split_at by (cbv; intuition discriminate).
  rewrite split_whole by apply to_str_no_colon. reflexivity.
Qed.

(* ===================================================================== *)
(** ** The OAuth callback *)
(* ===================================================================== *)

(** The callback once its parameters have passed the first two checks. *)
Lemma callback_cases (env : Router.Provider) (db : Router.DB)
    (code state : str) (error : option str) :
  truthy code = true -> truthy state = true -> truthy_opt error = false ->
  Router.youtube_oauth_callback env db (Some code) (Some state) error =
  match Router.parse_state state with
  | Raise e => (Router.Redirect_exception e, db)
  | Ret user =>
      match Router.exchange_and_link env db user with
      | (Raise e, db) => (Router.Redirect_exception e, db)
      | (Ret None, db) => (Router.Redirect_token_exchange_failed, db)
      | (Ret (Some None), db) => (Router.Redirect_channel_fetch_failed, db)
      | (Ret (Some (Some channel)), db) =>
          (Router.Redirect_success (Router.channel_title channel), db)
      end
  end.
Proof.
  intros Hc Hs He. unfold Router.youtube_oauth_callback.
  destruct error as [[|x error]|]; try discriminate;
    simpl truthy_opt; rewrite Hc, Hs; reflexivity.
Qed.

Lemma parse_issued_state (user : Router.User) (nonce : Uuid.UUID) :
  Uuid.valid (Router.u_id user) ->
  Router.parse_state (Router.state_of user nonce) = Ret (Router.u_id user).
Proof.
  intros H. unfold Router.parse_state. rewrite split_state.
  cbn [Router.unpack3 Py.bind]. now apply of_str_to_str.
Qed.

Lemma unpack3_wrong_count (parts : list str) :
  List.length parts <> 3 -> exists e, Router.unpack3 parts = Raise e.
Proof.
  destruct parts as [|a [|b [|c [|d parts]]]]; simpl; intros H; eauto.
  now contradiction H.
Qed.

Lemma state_of_truthy (user : Router.User) (nonce : Uuid.UUID) :
  truthy (Router.state_of user nonce) = true.
Proof.
  unfold Router.state_of. destruct (Uuid.to_str (Router.u_id user)); reflexivity.
Qed.

(** C9: the state that [initiate_oauth] issues for a user is the text of
    the user's id, ["youtube"] and the text of the nonce, joined by
    colons; splitting it on the colon gives back exactly these three
    parts, and the callback's parsing of it yields the id of the issuing
    user, for whom the callback then runs the exchange.  A callback whose
    state does not split into exactly three parts ends in the handler of
    the [try] with the database as it was. *)
Theorem state_round_trip (client_id : option str) (nonce : Uuid.UUID)
    (name : str) (user : Router.User) :
  Uuid.valid (Router.u_id user) ->
  match Router.initiate_oauth client_id nonce name user with
  | Router.Ok (Some r) =>
      name = Router.youtube
      /\ Router.as_state r
         = Uuid.to_str (Router.u_id user) ++ lit ":youtube:" ++ Uuid.to_str nonce
      /\ split ":"%char (Router.as_state r)
         = [Uuid.to_str (Router.u_id user); lit "youtube"; Uuid.to_str nonce]
      /\ Router.parse_state (Router.as_state r) = Ret (Router.u_id user)
      /\ (forall env db code error,
             truthy code = true -> truthy_opt error = false ->
             Router.youtube_oauth_callback env db (Some code)
               (Some (Router.as_state r)) error
             = match Router.exchange_and_link env db (Router.u_id user) with
               | (Raise e, db) => (Router.Redirect_exception e, db)
               | (Ret None, db) => (Router.Redirect_token_exchange_failed, db)
               | (Ret (Some None), db) =>
                   (Router.Redirect_channel_fetch_failed, db)
               | (Ret (Some (Some channel)), db) =>
                   (Router.Redirect_success (Router.channel_title channel), db)
               end)
  | Router.Ok None => name <> Router.youtube
  | Router.HTTPException _ _ =>
      name = Router.youtube /\ truthy_opt client_id = false
  end
  /\ (forall env db code state error,
         List.length (split ":"%char state) <> 3 ->
         truthy code = true -> truthy state = true ->
         truthy_opt error = false ->
         exists e,
           Router.youtube_oauth_callback env db (Some code) (Some state) error
           = (Router.Redirect_exception e, db)).
Proof.
  intros Hu. split.
  - unfold Router.initiate_oauth.
    destruct (str_eqb name Router.youtube) eqn:E.
    + apply str_eqb_eq in E.
      destruct client_id as [[|x cid]|]; try (split; [exact E | reflexivity]).
      cbn [Router.as_state].
      split; [exact E|]. split; [reflexivity|].
      split; [apply split_state|].
      split; [now apply parse_issued_state|].
      intros env db code error Hc He.
      rewrite callback_cases by (auto using state_of_truthy).
      now rewrite parse_issued_state.
    + intros ->. now rewrite str_eqb_refl in E.
  - intros env db code state error Hn Hc Hs He.
    rewrite callback_cases by assumption.
    unfold Router.parse_state.
    destruct (unpack3_wrong_count _ Hn) as [e ->]. simpl. eauto.
Qed.

Lemma state_round_trip_witness :
  Uuid.valid (Router.u_id Sample.alice)
  /\ Router.parse_state (Router.state_of Sample.alice Sample.nonce)
     = Ret (Router.u_id Sample.alice).
Proof.
  assert (H : Uuid.valid (Router.u_id Sample.alice)) by reflexivity.
  split; [exact H|].
  exact (proj1 (proj2 (proj2 (proj2 (proj1
    (@state_round_trip (Some (lit "client")) Sample.nonce Router.youtube
       Sample.alice H)))))).
Defined.






(* ===================================================================== *)
(** ** Linking the same channel again *)
(* ===================================================================== *)

Section UpdateFirst.

Variable f : SocialAccount -> bool.
Variable g : SocialAccount -> SocialAccount.

Lemma update_first_length (l : list SocialAccount) :
  List.length (Router.update_first f g l) = List.length l.
Proof.
  induction l as [|a l IH]; simpl; auto.
  destruct (f a); simpl; auto.
Qed.

Lemma find_update_first (l : list SocialAccount) (a : SocialAccount) :
  find f l = Some a -> f (g a) = true ->
  find f (Router.update_first f g l) = Some (g a).
Proof.
  induction l as [|x l IH]; simpl; [discriminate|].
  destruct (f x) eqn:E; intros H Hg.
  - injection H as ->. simpl. now rewrite Hg.
  - simpl. rewrite E. auto.
Qed.

Lemma rows_update_first (h : SocialAccount -> bool) (l : list SocialAccount) :
  (forall a, h (g a) = h a) ->
  rows h (Router.update_first f g l) = rows h l.
Proof.
  intros Hh. unfold rows.
  induction l as [|x l IH]; simpl; auto.
  destruct (f x); simpl.
  - rewrite Hh. destruct (h x); reflexivity.
  - destruct (h x); simpl; auto.
Qed.

End UpdateFirst.

Lemma rows_find_none (f : SocialAccount -> bool) (l : list SocialAccount) :
  find f l = None -> rows f l = 0.
Proof.
  unfold rows. induction l as [|x l IH]; simpl; auto.
  destruct (f x); [discriminate | auto].
Qed.

Lemma find_app_new (f : SocialAccount -> bool) (l : list SocialAccount)
    (x : SocialAccount) :
  find f l = None -> f x = true -> find f (l ++ [x]) = Some x.
Proof.
  induction l as [|y l IH]; simpl; intros H Hx.
  - now rewrite Hx.
  - destruct (f y); [discriminate | auto].
Qed.

Lemma rows_app (f : SocialAccount -> bool) (l l' : list SocialAccount) :
  rows f (l ++ l') = rows f l + rows f l'.
Proof. unfold rows. now rewrite filter_app, length_app. Qed.

Lemma same_channel_linked (now : Z) (new_id user : Uuid.UUID) (token : str)
    (tokens : Router.Tokens) (channel : Router.Channel) :
  Router.same_channel user (Router.channel_id channel)
    (Router.linked now new_id user token tokens channel) = true.
Proof.
  unfold Router.same_channel, Router.linked, opt_str_eqb.
  cbn [user_id platform primary_id].
  now rewrite N.eqb_refl, !str_eqb_refl.
Qed.

(** A second upsert for the key of a first one finds the row and rewrites
    it where it is. *)
Lemma upsert_channel_again (l : list SocialAccount) (user : Uuid.UUID)
    (now1 now2 : Z) (id1 id2 : Uuid.UUID) (token1 token2 : str)
    (tokens1 tokens2 : Router.Tokens) (ch1 ch2 : Router.Channel) :
  Router.channel_id ch1 = Router.channel_id ch2 ->
  let key := Router.same_channel user (Router.channel_id ch2) in
  let l1 := Router.upsert_channel now1 id1 user token1 tokens1 ch1 l in
  let l2 := Router.upsert_channel now2 id2 user token2 tokens2 ch2 l1 in
  List.length l2 = List.length l1
  /\ (exists a, find key l1 = Some a
                /\ find key l2 = Some (Router.relinked now2 token2 tokens2 ch2 a))
  /\ rows key l2 = rows key l1
  /\ (find key l = None -> rows key l2 = 1)
  /\ (forall u name, rows (active_for u name) l2 = rows (active_for u name) l1).
Proof.
  intros Hch key l1 l2.
  assert (Hkeep : forall now token tokens ch a,
             key (Router.relinked now token tokens ch a) = key a)
    by reflexivity.
  assert (H1 : exists a, find key l1 = Some a).
  { subst l1. unfold Router.upsert_channel. rewrite Hch. fold key.
    destruct (find key l) as [a|] eqn:E.
    - exists (Router.relinked now1 token1 tokens1 ch1 a).
      apply find_update_first; [exact E|].
      rewrite Hkeep. now apply find_some in E.
    - eexists. apply find_app_new; [exact E|].
      subst key. rewrite <- Hch. apply same_channel_linked. }
  destruct H1 as [a Ha].
  assert (Hl2 : l2 = Router.update_first key
                       (Router.relinked now2 token2 tokens2 ch2) l1).
  { subst l2. unfold Router.upsert_channel. fold key. now rewrite Ha. }
  rewrite Hl2. split; [apply update_first_length|].
  split.
  { exists a. split; [exact Ha|].
    apply find_update_first; [exact Ha|].
    rewrite Hkeep. now apply find_some in Ha. }
  split; [apply rows_update_first; intros; apply Hkeep|].
  split; [|intros u name; apply rows_update_first; reflexivity].
  intros Hnone. rewrite rows_update_first by (intros; apply Hkeep).
  subst l1. unfold Router.upsert_channel. rewrite Hch. fold key.
  rewrite Hnone, rows_app, (rows_find_none _ _ Hnone).
  unfold rows. simpl. subst key. rewrite <- Hch at 1.
  now rewrite same_channel_linked.
Qed.

Lemma others_update_first (f : SocialAccount -> bool)
    (g : SocialAccount -> SocialAccount) (l : list SocialAccount) :
  (forall a, f (g a) = f a) ->
  others f (Router.update_first f g l) = others f l.
Proof.
  intros Hg. unfold others.
  induction l as [|a l IH]; simpl; auto.
  destruct (f a) eqn:E; simpl.
  - now rewrite Hg, E.
  - rewrite E. simpl. now rewrite IH.
Qed.

(** What the filter of the "account already exists" query selects. *)
Lemma same_channel_spec (user : Uuid.UUID) (channel : str) (a : SocialAccount) :
  Router.same_channel user channel a = true ->
  user_id a = user /\ platform a = lit "youtube" /\ primary_id a = Some channel.
Proof.
  unfold Router.same_channel, opt_str_eqb. intros H.
  apply andb_prop in H. destruct H as [H Hp].
  apply andb_prop in H. destruct H as [Hu Hy].
  apply N.eqb_eq in Hu. apply str_eqb_eq in Hy.
  destruct (primary_id a) as [p|]; [|discriminate].
  apply str_eqb_eq in Hp. subst. auto.
Qed.

(** The second upsert leaves the rows outside the key alone; the row it
    rewrites is the one the first upsert added, if that one added a
    row. *)
Lemma upsert_channel_again_frame (l : list SocialAccount) (user : Uuid.UUID)
    (now1 now2 : Z) (id1 id2 : Uuid.UUID) (token1 token2 : str)
    (tokens1 tokens2 : Router.Tokens) (ch1 ch2 : Router.Channel) :
  Router.channel_id ch1 = Router.channel_id ch2 ->
  let key := Router.same_channel user (Router.channel_id ch2) in
  let l1 := Router.upsert_channel now1 id1 user token1 tokens1 ch1 l in
  let l2 := Router.upsert_channel now2 id2 user token2 tokens2 ch2 l1 in
  others key l2 = others key l1
  /\ (find key l = None ->
      find key l1 = Some (Router.linked now1 id1 user token1 tokens1 ch1)).
Proof.
  intros Hch key l1 l2.
  assert (H1 : find key l = None ->
               find key l1 = Some (Router.linked now1 id1 user token1 tokens1 ch1)).
  { intros Hnone. subst l1. unfold Router.upsert_channel.
    rewrite Hch. fold key. rewrite Hnone.
    apply find_app_new; [exact Hnone|].
    subst key. rewrite <- Hch. apply same_channel_linked. }
  split; [|exact H1].
  subst l2. unfold Router.upsert_channel at 1. fold key.
  destruct (find key l1) as [a|] eqn:E.
  - apply others_update_first. reflexivity.
  - exfalso.
    destruct (upsert_channel_again l user now1 now2 id1 id2 token1 token2
                tokens1 tokens2 ch1 ch2 Hch) as [_ [[a [Ha _]] _]].
    fold key in Ha. fold l1 in Ha. congruence.
Qed.

Lemma exchange_and_link_success (env : Router.Provider) (db db' : Router.DB)
    (user : Uuid.UUID) (channel : Router.Channel) :
  Router.exchange_and_link env db user = (Ret (Some (Some channel)), db') ->
  exists tokens token,
    issued env = Some (tokens, token)
    /\ linked_channel env = Some channel
    /\ db' = Router.set_accounts db
               (Router.upsert_channel (Router.link_now env)
                  (Router.link_new_id env) user token tokens channel
                  (Router.accounts db)).
Proof.
  unfold Router.exchange_and_link, issued, linked_channel.
  destruct (Router.token_response env) as [response|]; [|discriminate].
  destruct (negb _); [discriminate|].
  destruct (Router.tr_json response) as [tokens|]; [|discriminate].
  cbn [Py.bind]. unfold item.
  destruct (Router.tk_access_token tokens) as [token|]; [|discriminate].
  cbn [Py.bind].
  destruct (Router.channel_response env) as [channels|]; [|discriminate].
  destruct (_ =? _)%Z; [|discriminate].
  destruct (Router.cr_items channels) as [[|[ch|] items]|];
    try discriminate.
  destruct (Router.link_commit env); [|discriminate].
  intros H. injection H as -> <-. eauto.
Qed.

Lemma callback_success (env : Router.Provider) (db db' : Router.DB)
    (code state error : option str) (t : str) :
  Router.youtube_oauth_callback env db code state error
    = (Router.Redirect_success t, db') ->
  exists user channel,
    state_user state = Some user
    /\ Router.exchange_and_link env db user = (Ret (Some (Some channel)), db').
Proof.
  unfold Router.youtube_oauth_callback, state_user.
  destruct error as [[|x error]|]; try discriminate.
  all: destruct code as [code|], state as [state|]; simpl;
    try discriminate.
  all: try (destruct (truthy code); discriminate).
  all: destruct (truthy code), (truthy state); simpl; try discriminate.
  all: destruct (Router.parse_state state) as [user|]; [|discriminate].
  all: destruct (Router.exchange_and_link env db user) as [[[[c|]|]|] d] eqn:E;
    try discriminate.
  all: intros H; injection H as _ <-; eauto.
Qed.

(** Two successful links of one channel for one user, at the level that
    both routes share. *)
Lemma relink_core (env1 env2 : Router.Provider) (db db1 db2 : Router.DB)
    (user : Uuid.UUID) (ch1 ch2 : Router.Channel) :
  Router.exchange_and_link env1 db user = (Ret (Some (Some ch1)), db1) ->
  Router.exchange_and_link env2 db1 user = (Ret (Some (Some ch2)), db2) ->
  Router.channel_id ch1 = Router.channel_id ch2 ->
  exists tokens token a,
    let key := Router.same_channel user (Router.channel_id ch2) in
    issued env2 = Some (tokens, token)
    /\ List.length (Router.accounts db2) = List.length (Router.accounts db1)
    /\ find key (Router.accounts db1) = Some a
    /\ find key (Router.accounts db2)
       = Some (Router.relinked (Router.link_now env2) token tokens ch2 a)
    /\ rows key (Router.accounts db2) = rows key (Router.accounts db1)
    /\ (find key (Router.accounts db) = None ->
        rows key (Router.accounts db2) = 1)
    /\ (one_active_per_platform (Router.accounts db1) ->
        one_active_per_platform (Router.accounts db2)).
Proof.
  intros H1 H2 Hch.
  apply exchange_and_link_success in H1. destruct H1 as [tk1 [t1 [_ [_ ->]]]].
  apply exchange_and_link_success in H2. destruct H2 as [tk2 [t2 [Hi [_ ->]]]].
  cbn [Router.accounts Router.set_accounts].
  destruct (upsert_channel_again (Router.accounts db) user
              (Router.link_now env1) (Router.link_now env2)
              (Router.link_new_id env1) (Router.link_new_id env2)
              t1 t2 tk1 tk2 ch1 ch2 Hch)
    as [Hlen [[a [Ha Ha']] [Hrows [Hone Hact]]]].
  exists tk2, t2, a. cbv zeta.
  repeat split; auto.
  intros Hinv u name. rewrite Hact. apply Hinv.
Qed.

(** C7: when the callback has linked a channel for a user and then links
    the same channel for the same user again, the second link adds no
    row: it rewrites, where it stands, the row the query finds for (user,
    "youtube", channel id).  That row then carries the access token,
    refresh token and expiry of the second exchange, the time of the
    second link as its last token refresh, and the metadata made from
    the channel as the provider reported it the second time; its id,
    owner, platform, channel id, names, flags and the times of
    connection and last use are what they were.  Every other row, the
    posts and the videos are untouched.  The number of rows under the
    key is unchanged; if there was none before the first link there is
    exactly one, the row the first link added; and if the accounts had
    at most one active row per user and platform before the second link
    they still have. *)
Theorem relink_updates_in_place (env1 env2 : Router.Provider)
    (db db1 db2 : Router.DB) (code1 code2 state1 state2 error1 error2 : option str)
    (t1 t2 : str) :
  Router.youtube_oauth_callback env1 db code1 state1 error1
    = (Router.Redirect_success t1, db1) ->
  Router.youtube_oauth_callback env2 db1 code2 state2 error2
    = (Router.Redirect_success t2, db2) ->
  state_user state1 = state_user state2 ->
  option_map Router.channel_id (linked_channel env1)
    = option_map Router.channel_id (linked_channel env2) ->
  exists user channel tokens token a a',
    let key := Router.same_channel user (Router.channel_id channel) in
    state_user state2 = Some user
    /\ linked_channel env2 = Some channel
    /\ issued env2 = Some (tokens, token)
    /\ List.length (Router.accounts db2) = List.length (Router.accounts db1)
    /\ find key (Router.accounts db1) = Some a
    /\ find key (Router.accounts db2) = Some a'
    /\ a' = Router.relinked (Router.link_now env2) token tokens channel a
    /\ (access_token a' = token
        /\ refresh_token a' = Router.tk_refresh_token tokens
        /\ token_expires_at a'
           = Some (Router.link_now env2
                   + match Router.tk_expires_in tokens with
                     | Some s => s
                     | None => 3600
                     end)%Z
        /\ last_token_refresh a' = Some (Router.link_now env2)
        /\ platform_metadata a'
           = Some [(lit "subscriber_count",
                      VInt (Router.subscriber_count channel));
                   (lit "video_count", VInt (Router.video_count channel));
                   (lit "view_count", VInt (Router.view_count channel));
                   (lit "channel_type", VStr (lit "personal"))])
    /\ (id a' = id a
        /\ user_id a' = user
        /\ platform a' = lit "youtube"
        /\ primary_id a' = Some (Router.channel_id channel)
        /\ platform_user_id a' = platform_user_id a
        /\ platform_username a' = platform_username a
        /\ platform_email a' = platform_email a
        /\ display_name a' = display_name a
        /\ is_active a' = is_active a
        /\ is_verified a' = is_verified a
        /\ connected_at a' = connected_at a
        /\ last_used_at a' = last_used_at a)
    /\ others key (Router.accounts db2) = others key (Router.accounts db1)
    /\ Router.posts db2 = Router.posts db1
    /\ Router.videos db2 = Router.videos db1
    /\ rows key (Router.accounts db2) = rows key (Router.accounts db1)
    /\ (find key (Router.accounts db) = None ->
        rows key (Router.accounts db2) = 1
        /\ id a' = Router.link_new_id env1)
    /\ (one_active_per_platform (Router.accounts db1) ->
        one_active_per_platform (Router.accounts db2)).
Proof.
  intros H1 H2 Hu Hc.
  apply callback_success in H1. destruct H1 as [u1 [ch1 [Hu1 H1]]].
  apply callback_success in H2. destruct H2 as [u2 [ch2 [Hu2 H2]]].
  assert (u1 = u2) by congruence. subst u2.
  pose proof (exchange_and_link_success _ _ _ _ _ H1)
    as [tk1 [tn1 [_ [Hl1 Hdb1]]]].
  pose proof (exchange_and_link_success _ _ _ _ _ H2)
    as [tk2 [tn2 [Hi2 [Hl2 Hdb2]]]].
  rewrite Hl1, Hl2 in Hc. simpl in Hc. injection Hc as Hc.
  destruct (relink_core _ _ _ _ _ _ _ _ H1 H2 Hc)
    as [tokens [token [a [Hi [Hlen [Ha [Ha' [Hrows [Hone Hinv]]]]]]]]].
  cbv zeta in *.
  assert (tokens = tk2 /\ token = tn2) as [-> ->] by (split; congruence).
  destruct (upsert_channel_again_frame (Router.accounts db) u1
              (Router.link_now env1) (Router.link_now env2)
              (Router.link_new_id env1) (Router.link_new_id env2)
              tn1 tn2 tk1 tk2 ch1 ch2 Hc) as [Hothers Hfirst].
  cbv zeta in Hothers, Hfirst.
  pose proof (find_some _ _ Ha) as [_ Hkey].
  apply same_channel_spec in Hkey. destruct Hkey as [Hku [Hkp Hkc]].
  exists u1, ch2, tk2, tn2, a,
    (Router.relinked (Router.link_now env2) tn2 tk2 ch2 a).
  cbv zeta.
  split; [exact Hu2|]. split; [exact Hl2|]. split; [exact Hi|].
  split; [exact Hlen|]. split; [exact Ha|]. split; [exact Ha'|].
  split; [reflexivity|].
  split; [repeat split|].
  split; [repeat split; assumption|].
  split; [rewrite Hdb2, Hdb1; exact Hothers|].
  split; [rewrite Hdb2; reflexivity|].
  split; [rewrite Hdb2; reflexivity|].
  split; [exact Hrows|].
  split; [|exact Hinv].
  intros Hnone. split; [exact (Hone Hnone)|].
  rewrite Hdb1 in Ha. cbn [Router.accounts Router.set_accounts] in Ha.
  rewrite (Hfirst Hnone) in Ha. injection Ha as <-. reflexivity.
Qed.

Lemma relink_updates_in_place_witness :
  let state := Some (Router.state_of Sample.alice Sample.nonce) in
  let code := Some (lit "4/0Ab-code") in
  let env1 := Sample.provider "token-1" 100 7%N in
  let env2 := Sample.provider "token-2" 200 8%N in
  let first := Router.youtube_oauth_callback env1 Sample.empty_db code state None in
  let second := Router.youtube_oauth_callback env2 (snd first) code state None in
  first = (Router.Redirect_success (lit "Demo Channel"), snd first)
  /\ second = (Router.Redirect_success (lit "Demo Channel"), snd second)
  /\ state_user state = state_user state
  /\ option_map Router.channel_id (linked_channel env1)
     = option_map Router.channel_id (linked_channel env2)
  /\ List.length (Router.accounts (snd second))
     = List.length (Router.accounts (snd first))
  /\ exists a',
       find (Router.same_channel (Router.u_id Sample.alice) (lit "UC123"))
            (Router.accounts (snd second)) = Some a'
       /\ access_token a' = lit "token-2"
       /\ token_expires_at a' = Some 3799%Z
       /\ id a' = 7%N.
Proof.
  intros state code env1 env2 first second.
  assert (H1 : first = (Router.Redirect_success (lit "Demo Channel"), snd first))
    by reflexivity.
  assert (H2 : second
               = (Router.Redirect_success (lit "Demo Channel"), snd second))
    by reflexivity.
  split; [exact H1|]. split; [exact H2|].
  split; [reflexivity|]. split; [reflexivity|].
  destruct (relink_updates_in_place env1 env2 Sample.empty_db (snd first)
              (snd second) code code state state None None
              (lit "Demo Channel") (lit "Demo Channel") H1 H2 eq_refl eq_refl)
    as [user [channel [tokens [token [a [a' H]]]]]].
  cbv zeta in H.
  destruct H as [Hu [Hl [Hi [Hlen [_ [Ha' [_ [Hnew [Hold [_ [_ [_ [_ [Hone _]]]]]]]]]]]]]].
  split; [exact Hlen|].
  assert (Eu : user = Router.u_id Sample.alice).
  { assert (E : state_user state = Some (Router.u_id Sample.alice))
      by reflexivity.
    rewrite E in Hu. now injection Hu. }
  assert (Ec : Router.channel_id channel = lit "UC123").
  { assert (E : option_map Router.channel_id (linked_channel env2)
                = Some (lit "UC123")) by reflexivity.
    rewrite Hl in E. now injection E. }
  assert (Et : tokens = {| Router.tk_access_token := Some (lit "token-2");
                           Router.tk_refresh_token := Some (lit "refresh");
                           Router.tk_expires_in := Some 3599%Z |}
               /\ token = lit "token-2").
  { assert (E : issued env2
                = Some ({| Router.tk_access_token := Some (lit "token-2");
                           Router.tk_refresh_token := Some (lit "refresh");
                           Router.tk_expires_in := Some 3599%Z |},
                        lit "token-2")) by reflexivity.
    rewrite Hi in E. injection E as -> ->. auto. }
  destruct Et as [-> ->]. rewrite Eu, Ec in Ha'.
  exists a'. split; [exact Ha'|].
  split; [exact (proj1 Hnew)|].
  split; [exact (proj1 (proj2 (proj2 Hnew)))|].
  exact (proj2 (Hone eq_refl)).
Defined.

(** The same holds for [exchange_youtube_token], which carries the same
    block. *)
Lemma exchange_relink_in_place (env1 env2 : Router.Provider)
    (db db1 db2 : Router.DB) (code1 code2 state1 state2 : option str)
    (user : Router.User) (r1 r2 : Router.Exchanged) :
  Router.exchange_youtube_token env1 db code1 state1 user = (Router.Ok r1, db1) ->
  Router.exchange_youtube_token env2 db1 code2 state2 user = (Router.Ok r2, db2) ->
  Router.ex_channel_id r1 = Router.ex_channel_id r2 ->
  let key := Router.same_channel (Router.u_id user) (Router.ex_channel_id r2) in
  List.length (Router.accounts db2) = List.length (Router.accounts db1)
  /\ rows key (Router.accounts db2) = rows key (Router.accounts db1)
  /\ (find key (Router.accounts db) = None -> rows key (Router.accounts db2) = 1).
Proof.
  assert (Hinv : forall env d d' code state r,
    Router.exchange_youtube_token env d code state user = (Router.Ok r, d') ->
    exists channel,
      Router.exchange_and_link env d (Router.u_id user)
        = (Ret (Some (Some channel)), d')
      /\ Router.ex_channel_id r = Router.channel_id channel).
  { intros env d d' code state r. unfold Router.exchange_youtube_token.
    destruct (negb (truthy_opt code) || negb (truthy_opt state));
      [discriminate|].
    destruct (Router.exchange_and_link env d (Router.u_id user))
      as [[[[c|]|]|] d0] eqn:E; try discriminate.
    destruct (Router.link_refresh env); [|discriminate].
    intros H. injection H as <- <-. eauto. }
  intros H1 H2 Hid key.
  apply Hinv in H1. destruct H1 as [ch1 [H1 E1]].
  apply Hinv in H2. destruct H2 as [ch2 [H2 E2]].
  assert (Hc : Router.channel_id ch1 = Router.channel_id ch2) by congruence.
  destruct (relink_core _ _ _ _ _ _ _ _ H1 H2 Hc)
    as [tokens [token [a [_ [Hlen [_ [_ [Hrows [Hone _]]]]]]]]].
  subst key. rewrite E2. auto.
Qed.

(* ===================================================================== *)
(** ** Manual account entry *)
(* ===================================================================== *)

(** The rejections of [add_social_account_manual] that write nothing: a
    platform that is not in [PLATFORM_CONFIGS] ("Unsupported platform"),
    an entry whose user, platform and platform_username are those of an
    existing account ("Account already exists"), and a commit that
    raises ("Failed to add account").  In each of these cases the route
    raises a 400 and the database is exactly what it was. *)
Theorem add_rejections_leave_store (env : Router.AddEnv) (db : Router.DB)
    (data : Router.SocialAccountCreate) (user : Router.User) :
  mem (Router.ac_platform data) Router.PLATFORM_CONFIGS = false
  \/ (exists a, In a (Router.accounts db)
                /\ Router.same_username user (Router.ac_platform data)
                     (Router.ac_platform_username data) a = true)
  \/ (exists e, Router.add_commit env = Raise e) ->
  exists detail,
    Router.add_social_account_manual env db data user
      = (Router.HTTPException 400 detail, db)
    /\ (mem (Router.ac_platform data) Router.PLATFORM_CONFIGS = false ->
        detail = lit "Unsupported platform: " ++ Router.ac_platform data)
    /\ (mem (Router.ac_platform data) Router.PLATFORM_CONFIGS = true ->
        (exists a, In a (Router.accounts db)
                   /\ Router.same_username user (Router.ac_platform data)
                        (Router.ac_platform_username data) a = true) ->
        detail = lit "Account already exists for " ++ Router.ac_platform data).
Proof.
  intros H. unfold Router.add_social_account_manual.
  destruct (mem (Router.ac_platform data) Router.PLATFORM_CONFIGS) eqn:Em;
    simpl negb; cbv iota.
  2:{ eexists. split; [reflexivity|]. split; [reflexivity|discriminate]. }
  destruct (find _ (Router.accounts db)) as [a|] eqn:Ef.
  { eexists. split; [reflexivity|]. split; [discriminate|reflexivity]. }
  assert (Hno : ~ exists a, In a (Router.accounts db)
                  /\ Router.same_username user (Router.ac_platform data)
                       (Router.ac_platform_username data) a = true).
  { intros [a [Ha Hs]].
    pose proof (find_none _ _ Ef a Ha) as Hf. congruence. }
  destruct H as [H | [H | [e H]]]; [discriminate | contradiction |].
  rewrite H. eexists. split; [reflexivity|].
  split; [discriminate | intros _ Hex; contradiction].
Qed.

Lemma add_rejections_leave_store_witness :
  (exists a, In a (Router.accounts Sample.alice_db)
             /\ Router.same_username Sample.alice
                  (Router.ac_platform Sample.manual_entry)
                  (Router.ac_platform_username Sample.manual_entry) a = true)
  /\ Router.add_social_account_manual Sample.add_env Sample.alice_db
       Sample.manual_entry Sample.alice
     = (Router.HTTPException 400 (lit "Account already exists for youtube"),
        Sample.alice_db).
Proof.
  assert (H : exists a, In a (Router.accounts Sample.alice_db)
             /\ Router.same_username Sample.alice
                  (Router.ac_platform Sample.manual_entry)
                  (Router.ac_platform_username Sample.manual_entry) a = true).
  { exists Sample.alice_account. split; [left; reflexivity | reflexivity]. }
  split; [exact H|].
  destruct (add_rejections_leave_store Sample.add_env Sample.alice_db
              Sample.manual_entry Sample.alice (or_intror (or_introl H)))
    as [detail [Heq [_ Hd]]].
  rewrite (Hd eq_refl H) in Heq. exact Heq.
Defined.

(** C10: a failed insert can leave its row behind.  The [try] of
    [add_social_account_manual] also covers [db.refresh] and the making
    of the response, which come after [db.commit()].  When the commit
    goes through and one of these raises, the route answers with the
    same 400 "Failed to add account: ..." as for a failed commit, its
    rollback finds nothing to undo, and the new row is in the store: the
    accounts are the old ones followed by the row of the entry.  The same
    entry sent again is then refused with "Account already exists". *)
Theorem add_failure_after_commit_keeps_row (env env' : Router.AddEnv)
    (db : Router.DB) (data : Router.SocialAccountCreate) (user : Router.User)
    (e : Exn) :
  mem (Router.ac_platform data) Router.PLATFORM_CONFIGS = true ->
  find (Router.same_username user (Router.ac_platform data)
          (Router.ac_platform_username data)) (Router.accounts db) = None ->
  Router.add_commit env = Ret tt ->
  Router.add_respond env = Raise e ->
  exists row db',
    Router.add_social_account_manual env db data user
    = (Router.HTTPException 400 (lit "Failed to add account: " ++ exn_str e),
       db')
    /\ Router.accounts db' = Router.accounts db ++ [row]
    /\ Router.posts db' = Router.posts db
    /\ Router.videos db' = Router.videos db
    /\ id row = Router.add_new_id env
    /\ user_id row = Router.u_id user
    /\ platform row = Router.ac_platform data
    /\ platform_username row = Some (Router.ac_platform_username data)
    /\ access_token row = Router.ac_access_token data
    /\ refresh_token row = Router.ac_refresh_token data
    /\ is_active row = true
    /\ Router.add_social_account_manual env' db' data user
       = (Router.HTTPException 400
            (lit "Account already exists for " ++ Router.ac_platform data),
          db').
Proof.
  intros Hm Hf Hc Hr. unfold Router.add_social_account_manual.
  rewrite Hm, Hf, Hc, Hr. cbn [negb].
  eexists. eexists. split; [reflexivity|].
  cbn [Router.accounts Router.posts Router.videos Router.set_accounts].
  repeat (split; [reflexivity|]).
  rewrite (find_app_new _ _ _ Hf); [reflexivity|].
  unfold Router.same_username, opt_str_eqb.
  cbn [user_id platform platform_username].
  now rewrite N.eqb_refl, !str_eqb_refl.
Qed.

Lemma add_failure_after_commit_keeps_row_witness :
  let env :=
    {| Router.add_now := 700; Router.add_new_id := 11%N;
       Router.add_commit := Ret tt;
       Router.add_respond :=
         Raise (Error (lit "1 validation error for SocialAccountResponse")) |} in
  let r := Router.add_social_account_manual env Sample.empty_db
             Sample.manual_entry Sample.alice in
  mem (Router.ac_platform Sample.manual_entry) Router.PLATFORM_CONFIGS = true
  /\ fst r = Router.HTTPException 400
               (lit "Failed to add account: 1 validation error for SocialAccountResponse")
  /\ List.length (Router.accounts (snd r)) = 1
  /\ exists row db',
       r = (Router.HTTPException 400
              (lit "Failed to add account: "
               ++ exn_str (Error (lit "1 validation error for SocialAccountResponse"))),
            db')
       /\ Router.accounts db' = Router.accounts Sample.empty_db ++ [row]
       /\ access_token row = Router.ac_access_token Sample.manual_entry
       /\ Router.add_social_account_manual Sample.add_env db'
            Sample.manual_entry Sample.alice
          = (Router.HTTPException 400
               (lit "Account already exists for "
                ++ Router.ac_platform Sample.manual_entry), db').
Proof.
  intros env r.
  assert (Hm : mem (Router.ac_platform Sample.manual_entry)
                   Router.PLATFORM_CONFIGS = true) by reflexivity.
  split; [exact Hm|]. split; [reflexivity|]. split; [reflexivity|].
  destruct (add_failure_after_commit_keeps_row env Sample.add_env
              Sample.empty_db Sample.manual_entry Sample.alice
              (Error (lit "1 validation error for SocialAccountResponse"))
              Hm eq_refl eq_refl eq_refl)
    as [row [db' [Hr [Ha [_ [_ [_ [_ [_ [_ [Ht [_ [_ Hagain]]]]]]]]]]]]].
  exists row, db'. auto.
Defined.

(* ===================================================================== *)
(** ** The publish loop *)
(* ===================================================================== *)









(* ===================================================================== *)
(** ** Further properties: the OAuth routes *)
(* ===================================================================== *)

(** The exchange writes only when it ends with a link. *)
Lemma exchange_and_link_keeps_db (env : Router.Provider) (db : Router.DB)
    (user : Uuid.UUID) :
  match fst (Router.exchange_and_link env db user) with
  | Ret (Some (Some _)) => True
  | _ => snd (Router.exchange_and_link env db user) = db
  end.
Proof.
  unfold Router.exchange_and_link.
  destruct (Router.token_response env) as [response|]; [|reflexivity].
  destruct (negb _); [reflexivity|].
  destruct (Router.tr_json response) as [tokens|]; [|reflexivity].
  cbn [Py.bind].
  destruct (item "access_token" (Router.tk_access_token tokens));
    [|reflexivity].
  cbn [Py.bind].
  destruct (Router.channel_response env) as [channels|]; [|reflexivity].
  destruct (_ =? _)%Z; [|reflexivity].
  destruct (Router.cr_items channels) as [[|[channel|] items]|];
    try reflexivity.
  destruct (Router.link_commit env); [exact I | reflexivity].
Qed.

(** X1: the callback is all or nothing.  Whatever the parameters and
    the provider's answers, a callback that does not end with the
    success redirect leaves the database exactly as it was. *)
Theorem callback_failure_keeps_db (env : Router.Provider) (db : Router.DB)
    (code state error : option str) :
  match fst (Router.youtube_oauth_callback env db code state error) with
  | Router.Redirect_success _ => True
  | _ => snd (Router.youtube_oauth_callback env db code state error) = db
  end.
Proof.
  unfold Router.youtube_oauth_callback.
  destruct error as [[|x error]|]; try reflexivity.
  all: destruct (negb (truthy_opt code) || negb (truthy_opt state));
    [reflexivity|].
  all: destruct (Router.parse_state _) as [user|]; [|reflexivity].
  all: pose proof (exchange_and_link_keeps_db env db user) as H.
  all: destruct (Router.exchange_and_link env db user) as [[[[c|]|]|] d];
    simpl in *; auto.
Qed.

(** An upsert leaves the rows outside its key as they are, in their
    order, and adds at most one row. *)
Lemma upsert_channel_frame (l : list SocialAccount) (user : Uuid.UUID)
    (now : Z) (new_id : Uuid.UUID) (token : str) (tokens : Router.Tokens)
    (channel : Router.Channel) :
  let key := Router.same_channel user (Router.channel_id channel) in
  let l' := Router.upsert_channel now new_id user token tokens channel l in
  others key l' = others key l
  /\ List.length l <= List.length l' <= S (List.length l)
  /\ exists a, find key l' = Some a /\ access_token a = token.
Proof.
  intros key l'. subst l'. unfold Router.upsert_channel. fold key.
  destruct (find key l) as [a|] eqn:E.
  - split; [apply others_update_first; reflexivity|].
    rewrite update_first_length. split; [lia|].
    exists (Router.relinked now token tokens channel a). split; [|reflexivity].
    apply find_update_first; [exact E|].
    apply find_some in E. apply E.
  - split.
    + unfold others. rewrite filter_app. simpl.
      unfold key at 2. rewrite same_channel_linked. simpl. apply app_nil_r.
    + rewrite length_app. simpl. split; [lia|].
      exists (Router.linked now new_id user token tokens channel).
      split; [|reflexivity].
      apply find_app_new; [exact E | apply same_channel_linked].
Qed.

Lemma callback_success_title (env : Router.Provider) (db db' : Router.DB)
    (code state error : option str) (t : str) :
  Router.youtube_oauth_callback env db code state error
    = (Router.Redirect_success t, db') ->
  exists user channel,
    state_user state = Some user
    /\ Router.exchange_and_link env db user = (Ret (Some (Some channel)), db')
    /\ t = Router.channel_title channel.
Proof.
  unfold Router.youtube_oauth_callback, state_user.
  destruct error as [[|x error]|]; try discriminate.
  all: destruct code as [code|], state as [state|]; simpl;
    try discriminate.
  all: try (destruct (truthy code); discriminate).
  all: destruct (truthy code), (truthy state); simpl; try discriminate.
  all: destruct (Router.parse_state state) as [user|]; [|discriminate].
  all: destruct (Router.exchange_and_link env db user) as [[[[c|]|]|] d] eqn:E;
    try discriminate.
  all: intros H; injection H as <- <-; eauto.
Qed.

(** X2: what a successful callback changes.  It touches the accounts
    only: posts and videos stay; every account row that is not the user's
    row for the linked channel stays as it was and in its place; at most
    one row is added; and the user's row for the channel then carries the
    access token the provider issued. *)
Theorem callback_success_frame (env : Router.Provider) (db db' : Router.DB)
    (code state error : option str) (t : str) :
  Router.youtube_oauth_callback env db code state error
    = (Router.Redirect_success t, db') ->
  exists user channel tokens token,
    let key := Router.same_channel user (Router.channel_id channel) in
    state_user state = Some user
    /\ linked_channel env = Some channel
    /\ issued env = Some (tokens, token)
    /\ t = Router.channel_title channel
    /\ Router.posts db' = Router.posts db
    /\ Router.videos db' = Router.videos db
    /\ others key (Router.accounts db') = others key (Router.accounts db)
    /\ List.length (Router.accounts db) <= List.length (Router.accounts db')
       <= S (List.length (Router.accounts db))
    /\ exists a, find key (Router.accounts db') = Some a
                 /\ access_token a = token.
Proof.
  intros H.
  apply callback_success_title in H.
  destruct H as [user [channel [Hu [H Ht]]]].
  pose proof (exchange_and_link_success _ _ _ _ _ H)
    as [tokens [token [Hi [Hl ->]]]].
  exists user, channel, tokens, token. cbv zeta.
  destruct (upsert_channel_frame (Router.accounts db) user (Router.link_now env)
              (Router.link_new_id env) token tokens channel)
    as [Ho [Hlen Hrow]].
  repeat split; auto; apply Hlen.
Qed.

Lemma callback_success_frame_witness :
  let state := Some (Router.state_of Sample.alice Sample.nonce) in
  let code := Some (lit "4/0Ab-code") in
  let env := Sample.provider "token-1" 100 7%N in
  let r := Router.youtube_oauth_callback env Sample.alice_db code state None in
  r = (Router.Redirect_success (lit "Demo Channel"), snd r)
  /\ Router.posts (snd r) = Router.posts Sample.alice_db
  /\ List.length (Router.accounts (snd r)) <= 2.
Proof.
  intros state code env r.
  assert (H : r = (Router.Redirect_success (lit "Demo Channel"), snd r))
    by reflexivity.
  split; [exact H|].
  destruct (callback_success_frame env Sample.alice_db (snd r) code state None
              (lit "Demo Channel") H)
    as [user [channel [tokens [token [_ [_ [_ [_ [Hp [_ [_ [Hlen _]]]]]]]]]]]].
  split; [exact Hp | exact (proj2 Hlen)].
Defined.

(** X3: the answers of [exchange_youtube_token].  A missing code or
    state is a 400 and writes nothing; every other failure, the route's
    own 400s for a refused code or a missing channel included, is
    answered with a 500 whose detail starts with "Token exchange failed:
    ".  Such a failure has written nothing, with one exception: when it
    is [db.refresh(account)] that raised, after the commit, the detail
    carries its text and the link is stored, the user's row for the
    channel holding the token the provider issued.  A success reports
    the first channel the provider listed. *)
Theorem exchange_token_answers (env : Router.Provider) (db : Router.DB)
    (code state : option str) (user : Router.User) :
  match Router.exchange_youtube_token env db code state user with
  | (Router.Ok r, db') =>
      truthy_opt code = true /\ truthy_opt state = true
      /\ exists channel,
           linked_channel env = Some channel
           /\ Router.ex_channel_id r = Router.channel_id channel
           /\ Router.ex_channel_name r = Router.channel_title channel
  | (Router.HTTPException status detail, db') =>
      (status = 400%Z /\ detail = lit "Missing code or state"
       /\ (truthy_opt code = false \/ truthy_opt state = false)
       /\ db' = db)
      \/ (status = 500%Z
          /\ truthy_opt code = true /\ truthy_opt state = true
          /\ (exists text, detail = lit "Token exchange failed: " ++ text)
          /\ ((forall u, Router.link_refresh env = Ret u -> db' = db)
              /\ (db' = db
                  \/ exists e channel tokens token a,
                       Router.link_refresh env = Raise e
                       /\ detail = lit "Token exchange failed: " ++ exn_str e
                       /\ linked_channel env = Some channel
                       /\ issued env = Some (tokens, token)
                       /\ db' = Router.set_accounts db
                                  (Router.upsert_channel (Router.link_now env)
                                     (Router.link_new_id env) (Router.u_id user)
                                     token tokens channel (Router.accounts db))
                       /\ find (Router.same_channel (Router.u_id user)
                                  (Router.channel_id channel))
                               (Router.accounts db') = Some a
                       /\ access_token a = token)))
  end.
Proof.
  unfold Router.exchange_youtube_token.
  destruct (truthy_opt code), (truthy_opt state); simpl;
    try (left; repeat split; auto).
  pose proof (exchange_and_link_keeps_db env db (Router.u_id user)) as Hk.
  destruct (Router.exchange_and_link env db (Router.u_id user))
    as [[[[c|]|]|e] d] eqn:E; simpl in Hk.
  - apply exchange_and_link_success in E.
    destruct E as [tokens [token [Hi [Hl Hd]]]].
    destruct (Router.link_refresh env) as [u|e] eqn:Er.
    + cbn. eauto 6.
    + right. split; [reflexivity|]. split; [reflexivity|].
      split; [reflexivity|]. split; [eauto|].
      split; [discriminate|]. right.
      destruct (upsert_channel_frame (Router.accounts db) (Router.u_id user)
                  (Router.link_now env) (Router.link_new_id env) token tokens c)
        as [_ [_ [a [Ha Ht]]]].
      exists e, c, tokens, token, a. subst d.
      repeat split; auto.
  - subst d. right. repeat split; eauto.
  - subst d. right. repeat split; eauto.
  - subst d. right. repeat split; eauto.
Qed.

(* ===================================================================== *)
(** ** Further properties: the account routes *)
(* ===================================================================== *)

Lemma rows_app_one (f : SocialAccount -> bool) (l : list SocialAccount)
    (x : SocialAccount) :
  f x = true -> rows f (l ++ [x]) = S (rows f l).
Proof.
  intros H. rewrite rows_app. unfold rows at 2. simpl. rewrite H. simpl. lia.
Qed.

(** X4: [connect_youtube_simple] writes one row or nothing.  On success
    it appends one row for the user and the channel found, holding the
    placeholder token, whether or not the user already has a row for
    that channel: the number of the user's rows for the channel goes up
    by one each time.  An [HTTPException] has written nothing.  An
    exception that leaves the route has written nothing either, unless
    it is the one [db.refresh] raised after the commit: then the row is
    stored all the same. *)
Theorem connect_simple_appends (env : Accounts.SimpleEnv) (db : Router.DB)
    (name : option str) (user : Router.User) :
  match Accounts.connect_youtube_simple env db name user with
  | (Ret (Router.Ok r), db') =>
      let key := Router.same_channel (Router.u_id user)
                   (Accounts.sc_channel_id r) in
      exists row,
        Router.accounts db' = Router.accounts db ++ [row]
        /\ Router.posts db' = Router.posts db
        /\ Router.videos db' = Router.videos db
        /\ key row = true
        /\ access_token row = lit "simple_api_key_connection"
        /\ refresh_token row = None
        /\ rows key (Router.accounts db') = S (rows key (Router.accounts db))
  | (Ret (Router.HTTPException _ _), db') => db' = db
  | (Raise e, db') =>
      (forall u, Accounts.simple_refresh env = Ret u -> db' = db)
      /\ (db' = db
          \/ (Accounts.simple_refresh env = Raise e
              /\ exists row,
                   Router.accounts db' = Router.accounts db ++ [row]
                   /\ Router.posts db' = Router.posts db
                   /\ Router.videos db' = Router.videos db
                   /\ id row = Accounts.simple_new_id env
                   /\ user_id row = Router.u_id user
                   /\ platform row = lit "youtube"
                   /\ access_token row = lit "simple_api_key_connection"))
  end.
Proof.
  unfold Accounts.connect_youtube_simple.
  destruct (negb (truthy _)); [reflexivity|].
  destruct (negb (truthy _)); [reflexivity|].
  destruct (Accounts.channels_for env _) as [[[|[[cid title]|] items]|]|];
    try reflexivity; try (split; [reflexivity | now left]).
  destruct (Accounts.simple_commit env); [|split; [reflexivity | now left]].
  cbv zeta.
  destruct (Accounts.simple_refresh env) as [u|e] eqn:Er.
  - cbn [Accounts.sc_channel_id Router.accounts Router.set_accounts
         Router.posts Router.videos].
    eexists. split; [reflexivity|].
    assert (Hk : Router.same_channel (Router.u_id user) cid
                   (Accounts.simple_account env user
                      (Accounts.without_at
                         (strip match name with Some n => n | None => [] end))
                      cid title) = true).
    { unfold Router.same_channel, Accounts.simple_account, opt_str_eqb.
      cbn [user_id platform primary_id].
      now rewrite N.eqb_refl, !str_eqb_refl. }
    repeat split; auto. now apply rows_app_one.
  - split; [discriminate|]. right. split; [reflexivity|].
    eexists. repeat split.
Qed.

(** X5: a simple connection followed by an OAuth link.  When the
    callback then links the same channel for the same user, it adds no
    row: it finds a row of the user for that channel and puts the issued
    access token on it; if the user had no row for the channel before the
    simple connection, that is the row the simple connection made, whose
    placeholder token is thereby replaced. *)
Theorem simple_then_oauth (senv : Accounts.SimpleEnv) (env : Router.Provider)
    (db db1 db2 : Router.DB) (name code state error : option str)
    (user : Router.User) (r : Accounts.SimpleConnected) (t : str) :
  Accounts.connect_youtube_simple senv db name user = (Ret (Router.Ok r), db1) ->
  Router.youtube_oauth_callback env db1 code state error
    = (Router.Redirect_success t, db2) ->
  state_user state = Some (Router.u_id user) ->
  option_map Router.channel_id (linked_channel env)
    = Some (Accounts.sc_channel_id r) ->
  let key := Router.same_channel (Router.u_id user) (Accounts.sc_channel_id r) in
  List.length (Router.accounts db2) = List.length (Router.accounts db1)
  /\ rows key (Router.accounts db2) = rows key (Router.accounts db1)
  /\ exists tokens token a,
       issued env = Some (tokens, token)
       /\ find key (Router.accounts db2) = Some a
       /\ access_token a = token
       /\ (find key (Router.accounts db) = None ->
           id a = Accounts.simple_new_id senv
           /\ platform_username a
              = Some (Accounts.without_at
                        (strip match name with Some n => n | None => [] end))
           /\ platform_user_id a = Some (Accounts.sc_channel_id r)).
Proof.
  intros Hs Hc Hu Hl key.
  (* the simple connection *)
  assert (Hrow : exists title,
    Router.accounts db1
    = Router.accounts db
      ++ [Accounts.simple_account senv user
            (Accounts.without_at
               (strip match name with Some n => n | None => [] end))
            (Accounts.sc_channel_id r) title]).
  { revert Hs. unfold Accounts.connect_youtube_simple.
    destruct (negb (truthy _)); [discriminate|].
    destruct (negb (truthy _)); [discriminate|].
    destruct (Accounts.channels_for senv _) as [[[|[[cid title]|] items]|]|];
      try discriminate.
    destruct (Accounts.simple_commit senv); [|discriminate].
    cbv zeta.
    destruct (Accounts.simple_refresh senv); [|discriminate].
    intros H. injection H as <- <-. cbn. eauto. }
  destruct Hrow as [title Hrow].
  assert (Hkrow : key (Accounts.simple_account senv user
            (Accounts.without_at
               (strip match name with Some n => n | None => [] end))
            (Accounts.sc_channel_id r) title) = true).
  { unfold key, Router.same_channel, Accounts.simple_account, opt_str_eqb.
    cbn [user_id platform primary_id].
    now rewrite N.eqb_refl, !str_eqb_refl. }
  (* the callback *)
  apply callback_success_title in Hc.
  destruct Hc as [u [channel [Hu' [Hc _]]]].
  assert (u = Router.u_id user) by congruence. subst u.
  pose proof (exchange_and_link_success _ _ _ _ _ Hc)
    as [tokens [token [Hi [Hch ->]]]].
  rewrite Hch in Hl. simpl in Hl. injection Hl as Hid.
  cbn [Router.accounts Router.set_accounts].
  unfold Router.upsert_channel. rewrite Hid. fold key.
  assert (Hfind : exists a0, find key (Router.accounts db1) = Some a0
            /\ (find key (Router.accounts db) = None ->
                a0 = Accounts.simple_account senv user
                       (Accounts.without_at
                          (strip match name with Some n => n | None => [] end))
                       (Accounts.sc_channel_id r) title)).
  { rewrite Hrow. destruct (find key (Router.accounts db)) as [a0|] eqn:E.
    - exists a0. split; [|discriminate].
      clear - E. induction (Router.accounts db) as [|x l IH]; simpl in *;
        [discriminate|]. destruct (key x); auto.
    - eexists. split; [apply find_app_new; [exact E | exact Hkrow]|].
      reflexivity. }
  destruct Hfind as [a0 [Ha0 Hnew]]. rewrite Ha0.
  split; [apply update_first_length|].
  split; [apply rows_update_first; reflexivity|].
  exists tokens, token, (Router.relinked (Router.link_now env) token tokens channel a0).
  split; [exact Hi|].
  split.
  { apply find_update_first; [exact Ha0|].
    apply find_some in Ha0. apply Ha0. }
  split; [reflexivity|].
  intros Hnone. rewrite (Hnew Hnone). cbn. auto.
Qed.

Lemma simple_then_oauth_witness :
  let state := Some (Router.state_of Sample.alice Sample.nonce) in
  let code := Some (lit "4/0Ab-code") in
  let env := Sample.provider "token-1" 100 7%N in
  let first := Accounts.connect_youtube_simple Scenario.simple_env
                 Sample.empty_db (Some (lit " @demo ")) Sample.alice in
  let second := Router.youtube_oauth_callback env (snd first) code state None in
  state_user state = Some (Router.u_id Sample.alice)
  /\ option_map Router.channel_id (linked_channel env) = Some (lit "UC123")
  /\ List.length (Router.accounts (snd second))
     = List.length (Router.accounts (snd first))
  /\ List.length (Router.accounts (snd first)) = 1.
Proof.
  intros state code env first second.
  assert (H1 : first
    = (Ret (Router.Ok
         {| Accounts.sc_message :=
              lit "YouTube channel Demo Channel connected successfully!";
            Accounts.sc_channel_id := lit "UC123";
            Accounts.sc_account_id := Uuid.to_str 21%N |}), snd first))
    by reflexivity.
  assert (H2 : second = (Router.Redirect_success (lit "Demo Channel"), snd second))
    by reflexivity.
  assert (H3 : state_user state = Some (Router.u_id Sample.alice))
    by reflexivity.
  assert (H4 : option_map Router.channel_id (linked_channel env)
               = Some (lit "UC123")) by reflexivity.
  split; [exact H3|]. split; [exact H4|].
  split; [|reflexivity].
  exact (proj1 (simple_then_oauth Scenario.simple_env env Sample.empty_db
                  (snd first) (snd second) (Some (lit " @demo ")) code state
                  None Sample.alice _ (lit "Demo Channel") H1 H2 H3 H4)).
Defined.

(** X6: a leading "@" does not matter to [connect_youtube_simple].  For
    a name without surrounding blanks that does not itself begin with
    "@", connecting "@name" looks up and stores exactly what connecting
    "name" does. *)
Theorem connect_simple_ignores_at (env : Accounts.SimpleEnv) (db : Router.DB)
    (name : str) (user : Router.User) :
  strip name = name ->
  Uuid.starts_with (lit "@") name = false ->
  truthy name = true ->
  Accounts.connect_youtube_simple env db (Some ("@"%char :: name)) user
  = Accounts.connect_youtube_simple env db (Some name) user.
Proof.
  intros Hs Ha Hn.
  assert (Hstrip : strip ("@"%char :: name) = "@"%char :: name).
  { revert Hs. unfold strip, strip_by. intros Hs.
    assert (Hlen : forall p s, List.length (lstrip_by p s) <= List.length s).
    { intros p s. induction s as [|c s IH]; simpl; auto.
      destruct (p c); simpl; lia. }
    assert (Hfix : forall p s, List.length (lstrip_by p s) = List.length s ->
                               lstrip_by p s = s).
    { intros p s. destruct s as [|c s]; simpl; auto.
      destruct (p c); auto. intros H. pose proof (Hlen p s). lia. }
    assert (H1 : lstrip_by is_space name = name).
    { apply Hfix. apply Nat.le_antisymm; [apply Hlen|].
      rewrite <- Hs at 1. rewrite length_rev.
      etransitivity; [apply Hlen|]. now rewrite length_rev. }
    rewrite H1 in Hs.
    assert (H2 : lstrip_by is_space (rev name) = rev name).
    { apply Hfix. rewrite <- (length_rev (lstrip_by is_space (rev name))).
      now rewrite Hs, length_rev. }
    cbn [lstrip_by]. change (is_space "@"%char) with false. cbv iota.
    cbn [rev]. destruct (rev name) as [|z m] eqn:Er.
    - apply (f_equal (@rev ascii)) in Er. rewrite rev_involutive in Er.
      subst name. discriminate.
    - simpl in H2. simpl. destruct (is_space z).
      + exfalso. pose proof (Hlen is_space m).
        apply (f_equal (@List.length ascii)) in H2. simpl in H2. lia.
      + change (rev ((z :: m) ++ ["@"%char]) = "@"%char :: name).
        rewrite <- Er, rev_app_distr, rev_involutive. reflexivity. }
  unfold Accounts.connect_youtube_simple.
  rewrite Hstrip, Hs. cbn [truthy negb]. rewrite Hn. cbn [negb].
  replace (Accounts.without_at ("@"%char :: name)) with name by reflexivity.
  replace (Accounts.without_at name) with name; [reflexivity|].
  unfold Accounts.without_at. now rewrite Ha.
Qed.

Lemma connect_simple_ignores_at_witness :
  strip (lit "demo") = lit "demo"
  /\ Uuid.starts_with (lit "@") (lit "demo") = false
  /\ truthy (lit "demo") = true
  /\ Accounts.connect_youtube_simple Scenario.simple_env Sample.empty_db
       (Some (lit "@demo")) Sample.alice
     = Accounts.connect_youtube_simple Scenario.simple_env Sample.empty_db
         (Some (lit "demo")) Sample.alice.
Proof.
  split; [reflexivity|]. split; [reflexivity|]. split; [reflexivity|].
  exact (connect_simple_ignores_at Scenario.simple_env Sample.empty_db
           (lit "demo") Sample.alice eq_refl eq_refl eq_refl).
Defined.

(* ===================================================================== *)
(** ** Further properties: deleting an account *)
(* ===================================================================== *)

Lemma remove_first_spec (f : SocialAccount -> bool) (l : list SocialAccount)
    (x : SocialAccount) :
  find f l = Some x ->
  S (List.length (Accounts.remove_first f l)) = List.length l
  /\ (forall a, In a (Accounts.remove_first f l) -> In a l)
  /\ (forall a, In a l -> f a = false -> In a (Accounts.remove_first f l)).
Proof.
  induction l as [|y l IH]; simpl; [discriminate|].
  destruct (f y) eqn:E.
  - intros _. repeat split; auto.
    intros a [<- | Ha] Hf; [congruence | exact Ha].
  - intros H. destruct (IH H) as [Hlen [Hin Hout]]. simpl.
    repeat split; auto.
    + intros a [<- | Ha]; auto.
    + intros a [<- | Ha] Hf; auto.
Qed.

(** X7: [delete_social_account] removes one account of the requesting
    user and the posts that refer to it, and nothing else.  On success
    the account with the requested id belonged to the user, one account
    row is gone, no remaining post refers to that id, the posts of other
    accounts and the videos stay.  On any other outcome the database is
    as it was.  In no case does an account of another user go. *)
Theorem delete_removes_own_account (env : Accounts.DeleteEnv) (db : Router.DB)
    (account_id : str) (user : Router.User) :
  let r := Accounts.delete_social_account env db account_id user in
  (forall a, In a (Router.accounts db) ->
             user_id a <> Router.u_id user ->
             In a (Router.accounts (snd r)))
  /\ match fst r with
     | Ret (Router.Ok _) =>
         exists i account,
           Accounts.read_id env account_id = Ret i
           /\ In account (Router.accounts db)
           /\ id account = i
           /\ user_id account = Router.u_id user
           /\ S (List.length (Router.accounts (snd r)))
              = List.length (Router.accounts db)
           /\ (forall a, In a (Router.accounts (snd r)) ->
                         In a (Router.accounts db))
           /\ (forall a, In a (Router.accounts db) -> id a <> i ->
                         In a (Router.accounts (snd r)))
           /\ (forall p, In p (Router.posts (snd r)) <->
                         In p (Router.posts db)
                         /\ Router.sp_account_id p <> i)
           /\ Router.videos (snd r) = Router.videos db
     | _ => snd r = db
     end.
Proof.
  cbv zeta. unfold Accounts.delete_social_account.
  destruct (Accounts.read_id env account_id) as [i|];
    [|split; [intros a Ha _; exact Ha | reflexivity]].
  destruct (find _ (Router.accounts db)) as [account|] eqn:E;
    [|split; [intros a Ha _; exact Ha | reflexivity]].
  destruct (Accounts.delete_commit env) as [done|];
    [|split; [intros a Ha _; exact Ha | reflexivity]].
  cbn [fst snd Router.accounts Router.posts Router.videos].
  pose proof (find_some _ _ E) as [Hin Hown].
  unfold Accounts.own_account in Hown. apply andb_prop in Hown.
  destruct Hown as [Hid Hu]. apply N.eqb_eq in Hid, Hu.
  destruct (remove_first_spec _ _ _ E) as [Hlen [Hsub Hkeep]].
  split.
  - intros a Ha Hne. apply Hkeep; [exact Ha|].
    unfold Accounts.own_account. apply andb_false_iff. right.
    now apply N.eqb_neq.
  - exists i, account.
    split; [reflexivity|]. split; [exact Hin|]. split; [exact Hid|].
    split; [exact Hu|]. split; [exact Hlen|]. split; [exact Hsub|].
    split.
    { intros a Ha Hne. apply Hkeep; [exact Ha|].
      unfold Accounts.own_account. apply andb_false_iff. left.
      now apply N.eqb_neq. }
    split; [|reflexivity].
    intros p. rewrite filter_In, negb_true_iff, N.eqb_neq, Hid. tauto.
Qed.

Lemma delete_leaves_referents (env : Accounts.DeleteEnv) (db : Router.DB)
    (account_id : str) (user : Router.User) :
  let db' := snd (Accounts.delete_social_account env db account_id user) in
  db' = db
  \/ exists i,
       (forall a, In a (Router.accounts db) -> id a <> i ->
                  In a (Router.accounts db'))
       /\ (forall p, In p (Router.posts db') ->
                     In p (Router.posts db) /\ Router.sp_account_id p <> i).
Proof.
  cbv zeta. unfold Accounts.delete_social_account.
  destruct (Accounts.read_id env account_id) as [i|e]; [|now left].
  destruct (find _ (Router.accounts db)) as [account|] eqn:E; [|now left].
  destruct (Accounts.delete_commit env) as [done|]; [|now left].
  right. exists i.
  cbn [fst snd Router.accounts Router.posts Router.videos].
  pose proof (find_some _ _ E) as [Hin Hown].
  unfold Accounts.own_account in Hown. apply andb_prop in Hown.
  destruct Hown as [Hid Hu]. apply N.eqb_eq in Hid.
  destruct (remove_first_spec _ _ _ E) as [Hlen [Hsub Hkeep]].
  split.
  - intros a Ha Hne. apply Hkeep; [exact Ha|].
    unfold Accounts.own_account. apply andb_false_iff. left.
    now apply N.eqb_neq.
  - intros p. rewrite filter_In, negb_true_iff, N.eqb_neq, Hid. tauto.
Qed.

(** X8: deleting an account leaves no post without its account.  If
    every post referred to an existing account before
    [delete_social_account], every post does so afterwards, whatever the
    outcome. *)
Theorem delete_keeps_posts_owned (env : Accounts.DeleteEnv) (db : Router.DB)
    (account_id : str) (user : Router.User) :
  posts_have_accounts db ->
  posts_have_accounts
    (snd (Accounts.delete_social_account env db account_id user)).
Proof.
  intros Hinv.
  destruct (delete_leaves_referents env db account_id user)
    as [-> | [i [Hkeep Hposts]]]; [exact Hinv|].
  intros p Hp. apply Hposts in Hp. destruct Hp as [Hp Hne].
  destruct (Hinv p Hp) as [a [Ha Hid]].
  exists a. split; [|exact Hid]. apply Hkeep; [exact Ha | congruence].
Qed.

Lemma delete_keeps_posts_owned_witness :
  posts_have_accounts Scenario.shared_db
  /\ posts_have_accounts
       (snd (Accounts.delete_social_account Scenario.delete_env
               Scenario.shared_db (Uuid.to_str 9%N) Sample.alice)).
Proof.
  assert (H : posts_have_accounts Scenario.shared_db).
  { intros p [<- | [<- | []]].
    - exists Sample.alice_account. split; [left|]; reflexivity.
    - exists Scenario.bob_account. split; [right; left|]; reflexivity. }
  split; [exact H|].
  exact (delete_keeps_posts_owned Scenario.delete_env Scenario.shared_db
           (Uuid.to_str 9%N) Sample.alice H).
Defined.

(* ===================================================================== *)
(** ** Further properties: adding an account twice *)
(* ===================================================================== *)

(** X9: what [add_social_account_manual] has added it refuses to add
    again.  After a successful call the new row is the last of the
    accounts, and the same entry sent again by the same user is answered
    with "Account already exists" and changes nothing, whatever the
    database then does. *)
Theorem add_twice_rejected (env env' : Router.AddEnv) (db db1 : Router.DB)
    (data : Router.SocialAccountCreate) (user : Router.User)
    (r : Router.SocialAccountResponse) :
  Router.add_social_account_manual env db data user = (Router.Ok r, db1) ->
  (exists row,
      Router.accounts db1 = Router.accounts db ++ [row]
      /\ user_id row = Router.u_id user
      /\ platform row = Router.ac_platform data
      /\ platform_username row = Some (Router.ac_platform_username data)
      /\ access_token row = Router.ac_access_token data
      /\ is_active row = true)
  /\ Router.add_social_account_manual env' db1 data user
     = (Router.HTTPException 400
          (lit "Account already exists for " ++ Router.ac_platform data), db1).
Proof.
  unfold Router.add_social_account_manual.
  destruct (negb (mem _ _)) eqn:Em; [discriminate|].
  destruct (find _ (Router.accounts db)) as [a|] eqn:Ef; [discriminate|].
  destruct (Router.add_commit env); [|discriminate].
  destruct (Router.add_respond env); [|discriminate].
  intros H. injection H as _ <-.
  cbn [Router.accounts Router.set_accounts].
  split; [eexists; repeat split; reflexivity|].
  rewrite (find_app_new _ _ _ Ef).
  - reflexivity.
  - unfold Router.same_username, opt_str_eqb.
    cbn [user_id platform platform_username].
    now rewrite N.eqb_refl, !str_eqb_refl.
Qed.

Lemma add_twice_rejected_witness :
  let first := Router.add_social_account_manual Sample.add_env Sample.empty_db
                 Sample.manual_entry Sample.alice in
  List.length (Router.accounts (snd first)) = 1
  /\ Router.add_social_account_manual Sample.add_env (snd first)
       Sample.manual_entry Sample.alice
     = (Router.HTTPException 400 (lit "Account already exists for youtube"),
        snd first).
Proof.
  intros first. split; [reflexivity|].
  exact (proj2 (add_twice_rejected Sample.add_env Sample.add_env
                  Sample.empty_db (snd first) Sample.manual_entry Sample.alice
                  _ eq_refl)).
Defined.

(* ===================================================================== *)
(** ** Further properties: the post routes *)
(* ===================================================================== *)

(** X10: the answers of [youtube_upload_redirect].  Every failure is a
    500 whose detail starts with "Failed to create YouTube redirect: ",
    also a missing video (detail "... 404: Video not found") and a
    missing account ("... 400: No YouTube account connected").  A failure
    has written nothing, with one exception: when it is
    [db.refresh(post)] that raised, after the commit, the new post is
    stored although the answer is the 500.  A success has recorded
    exactly one new post, in the state "redirect_ready", for the user's
    first active YouTube account, and answers with that post's id and
    the Studio URL of that account's channel. *)
Theorem upload_redirect_answers (env : Posts.RedirectEnv) (db : Router.DB)
    (request : Router.PostRequest) (user : Router.User) :
  match Posts.youtube_upload_redirect env db request user with
  | (Router.Ok r, db') =>
      exists video account post,
        video_of db request user = Some video
        /\ youtube_account_of db user = Some account
        /\ Router.posts db' = Router.posts db ++ [post]
        /\ Router.accounts db' = Router.accounts db
        /\ Router.videos db' = Router.videos db
        /\ Router.sp_status post = lit "redirect_ready"
        /\ Router.sp_account_id post = id account
        /\ Router.sp_video_id post = Router.v_id video
        /\ Posts.rr_post_id r = Uuid.to_str (Router.sp_id post)
        /\ Posts.rr_upload_url r
           = lit "https://studio.youtube.com/channel/"
             ++ Posts.opt_text (platform_user_id account)
             ++ lit "/videos/upload"
  | (Router.HTTPException status detail, db') =>
      status = 500%Z
      /\ (exists text,
             detail = lit "Failed to create YouTube redirect: " ++ text)
      /\ (video_of db request user = None ->
          detail = lit "Failed to create YouTube redirect: 404: Video not found"
          /\ db' = db)
      /\ (video_of db request user <> None ->
          youtube_account_of db user = None ->
          detail = lit "Failed to create YouTube redirect: 400: No YouTube account connected"
          /\ db' = db)
      /\ (forall u, Posts.redirect_refresh env = Ret u -> db' = db)
      /\ (db' = db
          \/ exists e video account post,
               Posts.redirect_refresh env = Raise e
               /\ detail = lit "Failed to create YouTube redirect: " ++ exn_str e
               /\ video_of db request user = Some video
               /\ youtube_account_of db user = Some account
               /\ Router.posts db' = Router.posts db ++ [post]
               /\ Router.accounts db' = Router.accounts db
               /\ Router.videos db' = Router.videos db
               /\ Router.sp_id post = Posts.redirect_post_id env
               /\ Router.sp_status post = lit "redirect_ready"
               /\ Router.sp_account_id post = id account
               /\ Router.sp_video_id post = Router.v_id video)
  end.
Proof.
  unfold Posts.youtube_upload_redirect, video_of, youtube_account_of.
  destruct (find _ (Router.videos db)) as [video|].
  2:{ split; [reflexivity|]. split; [eauto|].
      split; [intros _; split; reflexivity|].
      split; [intros Hv; now contradiction Hv|].
      split; [reflexivity | now left]. }
  destruct (find _ (Router.accounts db)) as [account|].
  2:{ split; [reflexivity|]. split; [eauto|].
      split; [discriminate|].
      split; [intros _ _; split; reflexivity|].
      split; [reflexivity | now left]. }
  destruct (Posts.redirect_commit env).
  2:{ split; [reflexivity|]. split; [eauto|].
      split; [discriminate|].
      split; [intros _; discriminate|].
      split; [reflexivity | now left]. }
  destruct (Posts.redirect_refresh env) as [u|e] eqn:Er.
  - exists video, account, (Posts.redirect_post env request account video).
    repeat split.
  - split; [reflexivity|]. split; [eauto|].
    split; [discriminate|]. split; [intros _; discriminate|].
    split; [discriminate|]. right.
    exists e, video, account, (Posts.redirect_post env request account video).
    repeat split.
Qed.

Lemma get_set_same {V} (k : str) (v : V) (d : dict V) :
  get k (PyDict.set k v d) = Some v.
Proof.
  induction d as [|[k' v'] d IH]; simpl.
  - now rewrite str_eqb_refl.
  - destruct (str_eqb k k') eqn:E; simpl; [now rewrite str_eqb_refl|].
    now rewrite E.
Qed.

Lemma get_set_other {V} (k k' : str) (v : V) (d : dict V) :
  str_eqb k' k = false -> get k' (PyDict.set k v d) = get k' d.
Proof.
  intros Hne.
  induction d as [|[k0 v0] d IH]; simpl.
  - now rewrite Hne.
  - destruct (str_eqb k k0) eqn:E; simpl.
    + apply str_eqb_eq in E. subst k0. now rewrite Hne.
    + destruct (str_eqb k' k0); auto.
Qed.

Lemma metric_rows_spec (db : Router.DB) (i user : Uuid.UUID)
    (sp : Router.SocialPost) (sa : SocialAccount) :
  In (sp, sa) (Posts.metric_rows db i user) <->
  In sp (Router.posts db) /\ In sa (Router.accounts db)
  /\ Router.sp_id sp = i /\ Router.sp_account_id sp = id sa
  /\ user_id sa = user.
Proof.
  unfold Posts.metric_rows. rewrite in_flat_map. split.
  - intros [p [Hp Hin]]. apply filter_In in Hp. destruct Hp as [Hp Hi].
    apply in_map_iff in Hin. destruct Hin as [a [Heq Ha]].
    injection Heq as -> ->. apply filter_In in Ha. destruct Ha as [Ha Hc].
    apply andb_prop in Hc. destruct Hc as [H1 H2].
    apply N.eqb_eq in Hi, H1, H2. auto.
  - intros [Hp [Ha [Hi [Hacc Hu]]]]. exists sp. split.
    + apply filter_In. split; [exact Hp | now apply N.eqb_eq].
    + apply in_map. apply filter_In. split; [exact Ha|].
      apply andb_true_intro. split; now apply N.eqb_eq.
Qed.

(** X11: [get_post_metrics] answers for the user's own posts only, and
    always from the row.  An answer comes from a post with the requested
    id whose account belongs to the user, and its [status] and [platform]
    entries are those of that post and account, whatever the stored
    metrics hold under these names and also when the stored metrics
    cannot be read.  Without such a post the answer is the 404. *)
Theorem post_metrics_answers (env : Posts.MetricsEnv) (db : Router.DB)
    (post_id : str) (user : Router.User) :
  match Posts.get_post_metrics env db post_id user with
  | Ret (Router.Ok d) =>
      exists sp sa,
        In sp (Router.posts db) /\ In sa (Router.accounts db)
        /\ Posts.metrics_read_id env post_id = Ret (Router.sp_id sp)
        /\ Router.sp_account_id sp = id sa
        /\ user_id sa = Router.u_id user
        /\ get (lit "status") d = Some (VStr (Router.sp_status sp))
        /\ get (lit "platform") d = Some (VStr (platform sa))
  | Ret (Router.HTTPException status detail) =>
      status = 404%Z /\ detail = lit "Post not found"
      /\ forall i sp sa,
           Posts.metrics_read_id env post_id = Ret i ->
           In sp (Router.posts db) -> In sa (Router.accounts db) ->
           Router.sp_id sp = i -> Router.sp_account_id sp = id sa ->
           user_id sa <> Router.u_id user
  | Raise e => Posts.metrics_read_id env post_id = Raise e
  end.
Proof.
  unfold Posts.get_post_metrics.
  destruct (Posts.metrics_read_id env post_id) as [i|]; [|reflexivity].
  destruct (Posts.metric_rows db i (Router.u_id user)) as [|[sp sa] rest] eqn:E.
  - repeat split. intros i' sp sa Hi Hp Ha Hid Hacc Hu.
    injection Hi as <-.
    assert (H : In (sp, sa) (Posts.metric_rows db i (Router.u_id user)))
      by (apply metric_rows_spec; auto).
    rewrite E in H. exact H.
  - assert (H : In (sp, sa) (Posts.metric_rows db i (Router.u_id user)))
      by (rewrite E; now left).
    apply metric_rows_spec in H.
    destruct H as [Hp [Ha [Hi [Hacc Hu]]]].
    assert (Hd : forall metrics,
      get (lit "status")
        (PyDict.set (lit "platform") (VStr (platform sa))
           (PyDict.set (lit "status") (VStr (Router.sp_status sp)) metrics))
      = Some (VStr (Router.sp_status sp))
      /\ get (lit "platform")
           (PyDict.set (lit "platform") (VStr (platform sa))
              (PyDict.set (lit "status") (VStr (Router.sp_status sp)) metrics))
         = Some (VStr (platform sa))).
    { intros metrics. split; [|apply get_set_same].
      rewrite get_set_other by reflexivity. apply get_set_same. }
    destruct (Router.sp_metrics sp) as [|kv stored].
    + exists sp, sa. subst i. repeat split; auto; apply Hd.
    + destruct (Posts.metrics_loads env (kv :: stored)) as [metrics|e];
        exists sp, sa; subst i; repeat split; auto; apply Hd.
Qed.

(* ===================================================================== *)
(** ** Further properties: the publish loop *)
(* ===================================================================== *)

(** The cases of one pass for ["youtube"], in the order of the code. *)
Ltac pass_cases env request st :=
  unfold Router.youtube_pass;
  destruct (find _ (Router.videos (Router.st_db st))) as [video|] eqn:Ev;
  [destruct (find _ (Router.accounts (Router.st_db st))) as [account|] eqn:Ea;
   [destruct (Router.commit_post env) as [?|?];
    [unfold YouTubeUploader.authenticate_with_token;
     destruct (Router.build env) as [?|?]; simpl negb; cbv iota;
     [destruct (Router.upload_step env _ request video _)
        as [[result|?|] sent] eqn:Eu;
      [destruct (success result) eqn:Es;
       [destruct (item "video_id" (post_id result)) as [video_id|?];
        [destruct (item "video_url" (post_url result)) as [video_url|?];
         [destruct (Router.commit_final env) as [?|?] eqn:Ec | ] | ]
       | destruct (Router.commit_final env) as [?|?] eqn:Ec]
      | | ]
     | destruct (Router.commit_auth_failed env) as [?|?]]
    | ]
   | ]
  | ].

Lemma save_post_length (db : Router.DB) (post : Router.SocialPost) :
  List.length (Router.posts (Router.save_post db post))
  = List.length (Router.posts db).
Proof. unfold Router.save_post. cbn. apply length_map. Qed.

Lemma save_post_keeps (db : Router.DB) (post p : Router.SocialPost) :
  In p (Router.posts db) -> Router.sp_id p <> Router.sp_id post ->
  In p (Router.posts (Router.save_post db post)).
Proof.
  intros Hp Hne. unfold Router.save_post. cbn.
  apply in_map_iff. exists p. split; [|exact Hp].
  destruct (N.eqb (Router.sp_id p) (Router.sp_id post)) eqn:E; [|reflexivity].
  apply N.eqb_eq in E. contradiction.
Qed.

(** What one pass does to the database. *)
Lemma youtube_pass_db (env : Router.PostEnv) (request : Router.PostRequest)
    (user : Router.User) (st st' : Router.PostState) :
  Router.youtube_pass env request user st = Returned st' ->
  Router.accounts (Router.st_db st') = Router.accounts (Router.st_db st)
  /\ Router.videos (Router.st_db st') = Router.videos (Router.st_db st)
  /\ List.length (Router.posts (Router.st_db st))
     <= List.length (Router.posts (Router.st_db st'))
     <= S (List.length (Router.posts (Router.st_db st)))
  /\ (forall p, In p (Router.posts (Router.st_db st)) ->
                Router.sp_id p <> Router.new_post_id env ->
                In p (Router.posts (Router.st_db st'))).
Proof.
  pass_cases env request st.
  all: try discriminate.
  all: intros H; injection H as <-.
  all: cbn [Router.st_db Router.append Router.with_db].
  all: split; [reflexivity|].
  all: split; [reflexivity|].
  all: split;
    [rewrite ?save_post_length; cbn [Router.posts Router.set_posts];
     rewrite ?length_app; cbn [List.length]; lia|].
  all: intros p Hp Hne.
  all: try (apply save_post_keeps; [|exact Hne]).
  all: cbn [Router.posts Router.set_posts].
  all: try (apply in_or_app; left); exact Hp.
Qed.

Lemma create_posts_loop_db (envs : nat -> Router.PostEnv)
    (request : Router.PostRequest) (user : Router.User)
    (platforms : list str) :
  forall i st st',
    Router.create_posts_loop envs request user i platforms st = Returned st' ->
    Router.accounts (Router.st_db st') = Router.accounts (Router.st_db st)
    /\ Router.videos (Router.st_db st') = Router.videos (Router.st_db st)
    /\ List.length (Router.posts (Router.st_db st))
       <= List.length (Router.posts (Router.st_db st'))
       <= List.length (Router.posts (Router.st_db st))
          + youtube_items platforms
    /\ (forall p, (forall j, Router.sp_id p <> Router.new_post_id (envs j)) ->
                  In p (Router.posts (Router.st_db st)) ->
                  In p (Router.posts (Router.st_db st'))).
Proof.
  unfold youtube_items.
  induction platforms as [|p rest IH]; intros i st st' H; simpl in H.
  - injection H as <-. simpl. repeat split; auto; lia.
  - simpl. destruct (str_eqb p Router.youtube) eqn:Ep.
    + destruct (Router.youtube_pass (envs i) request user st) as [st1| |] eqn:E1;
        try discriminate.
      apply youtube_pass_db in E1. destruct E1 as [Ha [Hv [Hlen Hkeep]]].
      apply IH in H. destruct H as [Ha' [Hv' [Hlen' Hkeep']]].
      simpl. split; [congruence|]. split; [congruence|]. split; [lia|].
      intros q Hfresh Hq. apply Hkeep'; [exact Hfresh|].
      apply Hkeep; [exact Hq | apply Hfresh].
    + apply IH in H. exact H.
Qed.

(** X12: [create_posts] and the database.  It never touches accounts
    or videos; it adds at most one post per ["youtube"] item of the
    request and removes none; and a post that was there stays exactly as
    it was as long as the identifiers drawn for the new posts differ from
    its own. *)
Theorem create_posts_frame (envs : nat -> Router.PostEnv) (db : Router.DB)
    (uploader : YouTubeUploader.Uploader) (request : Router.PostRequest)
    (user : Router.User) (st : Router.PostState) :
  Router.create_posts envs db uploader request user = Returned st ->
  Router.accounts (Router.st_db st) = Router.accounts db
  /\ Router.videos (Router.st_db st) = Router.videos db
  /\ List.length (Router.posts db)
     <= List.length (Router.posts (Router.st_db st))
     <= List.length (Router.posts db)
        + youtube_items (Router.rq_platforms request)
  /\ (forall p, (forall j, Router.sp_id p <> Router.new_post_id (envs j)) ->
                In p (Router.posts db) ->
                In p (Router.posts (Router.st_db st))).
Proof.
  unfold Router.create_posts. intros H.
  apply create_posts_loop_db in H. exact H.
Qed.

Lemma create_posts_frame_witness :
  match Router.create_posts Sample.post_env Scenario.shared_db
          YouTubeUploader.new
          (Sample.request [lit "youtube"; lit "linkedin"]) Sample.alice with
  | Returned st =>
      Router.accounts (Router.st_db st) = Router.accounts Scenario.shared_db
      /\ List.length (Router.posts (Router.st_db st)) <= 3
  | _ => False
  end.
Proof.
  destruct (Router.create_posts Sample.post_env Scenario.shared_db
              YouTubeUploader.new
              (Sample.request [lit "youtube"; lit "linkedin"]) Sample.alice)
    as [st| |] eqn:E; [|discriminate E|discriminate E].
  destruct (create_posts_frame _ _ _ _ _ _ E) as [Ha [_ [Hlen _]]].
  split; [exact Ha | exact (proj2 Hlen)].
Defined.

(** The reason the handler gives when the lookups fail. *)
Lemma youtube_pass_lookup_fails (env : Router.PostEnv)
    (request : Router.PostRequest) (user : Router.User)
    (st : Router.PostState) :
  video_of (Router.st_db st) request user = None
  \/ youtube_account_of (Router.st_db st) user = None ->
  exists r,
    Router.youtube_pass env request user st = Returned (Router.append st r)
    /\ Router.pr_platform r = Router.youtube
    /\ failed_with
         (match video_of (Router.st_db st) request user with
          | None => lit "Video not found"
          | Some _ => lit "No YouTube account connected"
          end) r.
Proof.
  unfold video_of, youtube_account_of, Router.youtube_pass.
  intros H.
  destruct (find _ (Router.videos (Router.st_db st))) as [video|].
  - destruct H as [H|H]; [discriminate|]. rewrite H.
    eexists. split; [reflexivity|]. repeat split.
  - eexists. split; [reflexivity|]. repeat split.
Qed.

(** X13: publishing without a video or without an account.  When the
    user has no video with the requested id, or no active YouTube
    account, [create_posts] answers every ["youtube"] item with a failed
    entry that says which of the two is missing (the video first), makes
    no call, writes nothing and leaves the shared uploader alone. *)
Theorem create_posts_lookup_fails (envs : nat -> Router.PostEnv)
    (db : Router.DB) (uploader : YouTubeUploader.Uploader)
    (request : Router.PostRequest) (user : Router.User) :
  video_of db request user = None \/ youtube_account_of db user = None ->
  exists entries,
    Router.create_posts envs db uploader request user
    = Returned {| Router.st_db := db; Router.st_uploader := uploader;
                  Router.response_posts := entries; Router.st_trace := [] |}
    /\ List.length entries = youtube_items (Router.rq_platforms request)
    /\ Forall (fun r =>
                 Router.pr_platform r = Router.youtube
                 /\ failed_with
                      (match video_of db request user with
                       | None => lit "Video not found"
                       | Some _ => lit "No YouTube account connected"
                       end) r) entries.
Proof.
  intros H. unfold Router.create_posts, youtube_items.
  assert (Hloop : forall platforms before i,
    exists entries,
      Router.create_posts_loop envs request user i platforms
        {| Router.st_db := db; Router.st_uploader := uploader;
           Router.response_posts := before; Router.st_trace := [] |}
      = Returned {| Router.st_db := db; Router.st_uploader := uploader;
                    Router.response_posts := before ++ entries;
                    Router.st_trace := [] |}
      /\ List.length entries
         = List.length (filter (fun p => str_eqb p Router.youtube) platforms)
      /\ Forall (fun r =>
                   Router.pr_platform r = Router.youtube
                   /\ failed_with
                        (match video_of db request user with
                         | None => lit "Video not found"
                         | Some _ => lit "No YouTube account connected"
                         end) r) entries).
  { induction platforms as [|p rest IH]; intros before i; simpl.
    - exists []. rewrite app_nil_r. repeat split. constructor.
    - destruct (str_eqb p Router.youtube).
      + destruct (youtube_pass_lookup_fails (envs i) request user
                    {| Router.st_db := db; Router.st_uploader := uploader;
                       Router.response_posts := before;
                       Router.st_trace := [] |} H) as [r [-> [Hp Hf]]].
        unfold Router.append. cbn [Router.st_db Router.st_uploader
                                   Router.response_posts Router.st_trace].
        destruct (IH (before ++ [r]) (S i)) as [entries [-> [Hlen Hall]]].
        exists (r :: entries). rewrite <- app_assoc. simpl.
        split; [reflexivity|]. split; [now rewrite Hlen|].
        constructor; [split; assumption | exact Hall].
      + apply IH. }
  destruct (Hloop (Router.rq_platforms request) [] 0)
    as [entries [-> Hrest]].
  exists entries. split; [reflexivity | exact Hrest].
Qed.

Lemma create_posts_lookup_fails_witness :
  video_of Sample.empty_db (Sample.request [lit "youtube"]) Sample.alice = None
  /\ exists entries,
       Router.create_posts Sample.post_env Sample.empty_db YouTubeUploader.new
         (Sample.request [lit "youtube"]) Sample.alice
       = Returned {| Router.st_db := Sample.empty_db;
                     Router.st_uploader := YouTubeUploader.new;
                     Router.response_posts := entries;
                     Router.st_trace := [] |}
       /\ List.length entries = 1.
Proof.
  split; [reflexivity|].
  destruct (create_posts_lookup_fails Sample.post_env Sample.empty_db
              YouTubeUploader.new (Sample.request [lit "youtube"]) Sample.alice
              (or_introl eq_refl)) as [entries [H [Hlen _]]].
  exists entries. split; [exact H | exact Hlen].
Defined.

(** The entries one pass appends. *)
Lemma youtube_pass_entries (env : Router.PostEnv)
    (request : Router.PostRequest) (user : Router.User)
    (st st' : Router.PostState) :
  Router.youtube_pass env request user st = Returned st' ->
  exists added,
    Router.response_posts st' = Router.response_posts st ++ added
    /\ Forall entry_shape added.
Proof.
  assert (Herr : forall e, entry_shape (Router.error_response env request e)).
  { intros e. split; [reflexivity|]. right. repeat split. discriminate. }
  pass_cases env request st.
  all: try discriminate.
  all: intros H; injection H as <-.
  all: cbn [Router.response_posts Router.append Router.with_db].
  all: rewrite <- ?app_assoc.
  all: eexists; split; [reflexivity|].
  all: cbn [app].
  all: repeat match goal with
              | |- Forall _ (_ :: _) => constructor
              | |- Forall _ [] => constructor
              end.
  all: try apply Herr.
  all: split; [reflexivity|].
  all: first [ left; repeat split; discriminate
             | right; repeat split; discriminate ].
Qed.

(** X14: the entries of the publish result.  Every entry
    [create_posts] returns is for ["youtube"] and is either "posted",
    with the platform's post id and URL and no error message, or
    "failed", with an error message and neither id nor URL. *)
Theorem create_posts_entry_shapes (envs : nat -> Router.PostEnv)
    (db : Router.DB) (uploader : YouTubeUploader.Uploader)
    (request : Router.PostRequest) (user : Router.User)
    (st : Router.PostState) :
  Router.create_posts envs db uploader request user = Returned st ->
  Forall entry_shape (Router.response_posts st).
Proof.
  unfold Router.create_posts.
  assert (Hloop : forall platforms i st0 st1,
    Router.create_posts_loop envs request user i platforms st0 = Returned st1 ->
    Forall entry_shape (Router.response_posts st0) ->
    Forall entry_shape (Router.response_posts st1)).
  { induction platforms as [|p rest IH]; intros i st0 st1 H H0; simpl in H.
    - now injection H as <-.
    - destruct (str_eqb p Router.youtube); [|eauto].
      destruct (Router.youtube_pass (envs i) request user st0)
        as [st2| |] eqn:E; try discriminate.
      apply youtube_pass_entries in E. destruct E as [added [Hr Ha]].
      apply (IH _ _ _ H). rewrite Hr. now apply Forall_app. }
  intros H. apply (Hloop _ _ _ _ H). constructor.
Qed.

Lemma create_posts_entry_shapes_witness :
  match Router.create_posts Sample.post_env Sample.alice_db YouTubeUploader.new
          (Sample.request [lit "youtube"; lit "linkedin"]) Sample.alice with
  | Returned st => Forall entry_shape (Router.response_posts st)
  | _ => False
  end.
Proof.
  destruct (Router.create_posts Sample.post_env Sample.alice_db
              YouTubeUploader.new
              (Sample.request [lit "youtube"; lit "linkedin"]) Sample.alice)
    as [st| |] eqn:E; [|discriminate E|discriminate E].
  exact (create_posts_entry_shapes _ _ _ _ _ _ E).
Defined.

(** The calls of [YouTubeUploader.upload_video] are made with the token
    its service was built from. *)
Lemma uploader_calls_use_service (self : YouTubeUploader.Uploader)
    (env : YouTubeUploader.Env) (path t : str) (d : option str)
    (tg : option (list str)) (c p m : val) :
  Forall (fun ev =>
            match ev with
            | EvInsert token _ =>
                exists svc, YouTubeUploader.youtube_service self = Some svc
                            /\ svc_token svc = token
            | EvNextChunk => True
            | _ => False
            end)
         (snd (YouTubeUploader.upload_video self env path t d tg c p m)).
Proof.
  unfold YouTubeUploader.upload_video.
  destruct (YouTubeUploader.youtube_service self) as [svc|]; [|constructor].
  destruct (negb _); [constructor|].
  destruct (YouTubeUploader.media env); [|constructor].
  assert (Hi : exists s, Some svc = Some s /\ svc_token s = svc_token svc)
    by eauto.
  destruct (YouTubeUploader.insert env); [|repeat constructor; exact Hi].
  cbv zeta.
  assert (Hall : Forall (fun ev =>
            match ev with
            | EvInsert token _ =>
                exists s, Some svc = Some s /\ svc_token s = token
            | EvNextChunk => True
            | _ => False
            end)
         (EvInsert (svc_token svc)
            (YouTubeUploader.request_body t d tg c p m)
          :: repeat EvNextChunk
               (loop_calls (YouTubeUploader.upload_loop
                              (YouTubeUploader.chunks env) 0 0)))).
  { constructor; [exact Hi|]. apply Forall_forall. intros ev Hev.
    apply repeat_spec in Hev. now subst. }
  destruct (loop_result _) as [[|kv response]|e|]; try exact Hall.
  destruct (get (lit "id") (kv :: response)); exact Hall.
Qed.

Lemma token_of_account (db : Router.DB) (user : Router.User)
    (account : SocialAccount) :
  youtube_account_of db user = Some account ->
  token_of db user (access_token account).
Proof.
  unfold youtube_account_of. intros H. apply find_some in H.
  destruct H as [Hin H]. apply andb_prop in H. destruct H as [H Hact].
  apply andb_prop in H. destruct H as [Hu Hp].
  apply N.eqb_eq in Hu. apply str_eqb_eq in Hp.
  exists account. auto.
Qed.

(** The calls one pass makes. *)
Lemma youtube_pass_calls (env : Router.PostEnv) (request : Router.PostRequest)
    (user : Router.User) (st st' : Router.PostState) :
  Router.youtube_pass env request user st = Returned st' ->
  exists made,
    Router.st_trace st' = Router.st_trace st ++ made
    /\ Forall (on_behalf_of (Router.st_db st) user) made.
Proof.
  assert (Hstep : forall account video sent r,
    youtube_account_of (Router.st_db st) user = Some account ->
    Router.upload_step env
      {| YouTubeUploader.youtube_service :=
           Some {| svc_token := access_token account;
                   svc_refresh_token := refresh_token account |} |}
      request video (Router.youtube_settings_of request) = (r, sent) ->
    Forall (on_behalf_of (Router.st_db st) user) sent).
  { intros account video sent r Ha. unfold Router.upload_step.
    destruct (Router.v_file_path video) as [file_path|].
    2:{ intros H. injection H as _ <-. constructor. }
    destruct (negb _).
    { intros H. injection H as _ <-. constructor. }
    match goal with
    | |- context [YouTubeUploader.upload_video ?u ?e ?pa ?t ?d ?tg ?c ?p ?m] =>
        pose proof (uploader_calls_use_service u e pa t d tg c p m) as Hc;
        destruct (YouTubeUploader.upload_video u e pa t d tg c p m)
          as [[x|x|] tr]
    end.
    all: intros H; injection H as _ <-.
    all: simpl in Hc; apply Forall_forall; intros ev Hev.
    all: rewrite Forall_forall in Hc; specialize (Hc ev Hev).
    all: destruct ev; try contradiction; try exact I.
    all: destruct Hc as [svc [Hs <-]]; injection Hs as <-.
    all: now apply token_of_account. }
  pass_cases env request st.
  all: try discriminate.
  all: intros H; injection H as <-.
  all: cbn [Router.st_trace Router.append Router.with_db].
  all: rewrite <- ?app_assoc.
  all: try (exists []; rewrite app_nil_r; split; [reflexivity | constructor]).
  all: eexists; split; [reflexivity|].
  all: pose proof (token_of_account _ _ _ Ea) as Ht.
  all: cbn [app].
  all: repeat match goal with
              | |- Forall _ (_ :: _) => constructor; [exact Ht|]
              | |- Forall _ [] => constructor
              end.
  all: eapply Hstep; [exact Ea | exact Eu].
Qed.

(** The calls of the whole loop, for accounts that stay as they are. *)
Lemma create_posts_loop_calls (envs : nat -> Router.PostEnv)
    (db : Router.DB) (request : Router.PostRequest) (user : Router.User)
    (platforms : list str) :
  forall i st0 st1,
    Router.create_posts_loop envs request user i platforms st0 = Returned st1 ->
    Router.accounts (Router.st_db st0) = Router.accounts db ->
    Forall (on_behalf_of db user) (Router.st_trace st0) ->
    Forall (on_behalf_of db user) (Router.st_trace st1).
Proof.
  induction platforms as [|p rest IH]; intros i st0 st1 H Hacc H0;
    simpl in H.
  - now injection H as <-.
  - destruct (str_eqb p Router.youtube); [|eauto].
    destruct (Router.youtube_pass (envs i) request user st0)
      as [st2| |] eqn:E; try discriminate.
    pose proof (youtube_pass_db _ _ _ _ _ E) as [Ha _].
    apply youtube_pass_calls in E. destruct E as [made [Hr Hm]].
    apply (IH _ _ _ H); [congruence|].
    rewrite Hr. apply Forall_app. split; [exact H0|].
    revert Hm. apply Forall_impl. intros ev.
    assert (Ht : forall t, token_of (Router.st_db st0) user t ->
                           token_of db user t).
    { intros t [a Ha']. exists a. now rewrite <- Hacc. }
    destruct ev; simpl; auto.
Qed.

(** X15: whose token the publish loop uses.  The uploader is one
    object shared by all requests, yet every service [create_posts]
    builds and every upload request it creates carries the access token
    of an active YouTube account of the requesting user, and it makes no
    other kind of call. *)
Theorem create_posts_uses_own_token (envs : nat -> Router.PostEnv)
    (db : Router.DB) (uploader : YouTubeUploader.Uploader)
    (request : Router.PostRequest) (user : Router.User)
    (st : Router.PostState) :
  Router.create_posts envs db uploader request user = Returned st ->
  Forall (on_behalf_of db user) (Router.st_trace st).
Proof.
  unfold Router.create_posts. intros H.
  apply (create_posts_loop_calls _ _ _ _ _ _ _ _ H);
    [reflexivity | constructor].
Qed.

Lemma create_posts_uses_own_token_witness :
  match Router.create_posts Sample.post_env Scenario.shared_db
          YouTubeUploader.new
          (Sample.request [lit "youtube"]) Sample.alice with
  | Returned st =>
      Forall (on_behalf_of Scenario.shared_db Sample.alice) (Router.st_trace st)
      /\ List.length (Router.st_trace st) = 3
  | _ => False
  end.
Proof.
  destruct (Router.create_posts Sample.post_env Scenario.shared_db
              YouTubeUploader.new
              (Sample.request [lit "youtube"]) Sample.alice)
    as [st| |] eqn:E; [|discriminate E|discriminate E].
  split; [exact (create_posts_uses_own_token _ _ _ _ _ _ E)|].
  injection E as <-. reflexivity.
Defined.


(* ===================================================================== *)
(** ** What a reported success stands for *)
(* ===================================================================== *)

Lemma api_loop_returned (script : list Chunk) :
  forall calls retry err response,
    loop_result (YouTubeAPI.upload_loop script calls retry err)
      = Returned response ->
    In (ChunkDone response) script.
Proof.
  induction script as [|c rest IH]; intros calls retry err response H;
    simpl in H; [discriminate|].
  destruct c as [|r|[st content text|text]]; simpl in H.
  - right. eauto.
  - injection H as <-. now left.
  - destruct (Config.retriable st); simpl in H; [|discriminate].
    destruct (Config.MAX_RETRIES <? S retry); simpl in H; [discriminate|].
    right. eauto.
  - discriminate.
Qed.

Lemma uploader_loop_returned (script : list Chunk) :
  forall calls retries response,
    loop_result (YouTubeUploader.upload_loop script calls retries)
      = Returned response ->
    In (ChunkDone response) script.
Proof.
  induction script as [|c rest IH]; intros calls retries response H;
    simpl in H; [discriminate|].
  destruct c as [|r|e]; simpl in H.
  - right. eauto.
  - injection H as <-. now left.
  - right. eauto.
Qed.

Lemma uploader_loop_never_raises (script : list Chunk) :
  forall calls retries e,
    loop_result (YouTubeUploader.upload_loop script calls retries)
      <> Propagated e.
Proof.
  induction script as [|c rest IH]; intros calls retries e; simpl;
    [discriminate|].
  destruct c as [|r|e']; simpl; auto. discriminate.
Qed.

(** X16: a success of [YouTubeAPI.upload_video] is a real one.  When the
    function answers with [success] set, the file was there and within
    the size limit, one of the [next_chunk] calls returned the provider's
    final response, that response holds a non-empty ["id"], and the
    result carries this id and the watch URL made from it. *)
Theorem api_success_is_genuine (env : YouTubeAPI.Env) (account : SocialAccount)
    (path t d : str) (tg : option (list str)) (c p : str) (kw : dict val)
    (r : PublishResult) :
  fst (fst (YouTubeAPI.upload_video env account path t d tg c p kw))
    = Returned r ->
  success r = true ->
  exists size response video_id,
    YouTubeAPI.fs env path = Some size
    /\ (size <= Config.MAX_FILE_SIZE)%Z
    /\ In (ChunkDone response) (YouTubeAPI.chunks env)
    /\ get (lit "id") response = Some video_id
    /\ truthy_val video_id = true
    /\ r = ok_result (val_text video_id) (watch_url (val_text video_id)).
Proof.
  rewrite api_upload_video_cases.
  destruct (YouTubeAPI.fs env path) as [size|] eqn:Efs; simpl;
    [|intros [= <-]; discriminate].
  destruct (Config.MAX_FILE_SIZE <? size)%Z eqn:Esz; simpl;
    [intros [= <-]; discriminate|].
  apply Z.ltb_ge in Esz.
  destruct (YouTubeAPI.get_youtube_service env account)
    as [[[youtube|e] acc] tr]; simpl; [|intros [= <-]; discriminate].
  destruct (YouTubeAPI.media env); simpl; [|intros [= <-]; discriminate].
  destruct (YouTubeAPI.insert env); simpl; [|intros [= <-]; discriminate].
  unfold api_answer.
  destruct (loop_result (YouTubeAPI.upload_loop (YouTubeAPI.chunks env) 0 0 None))
    as [response|e|] eqn:El; try discriminate; [|intros [= <-]; discriminate].
  apply api_loop_returned in El.
  destruct response as [|kv response]; [intros [= <-]; discriminate|].
  unfold get_or.
  destruct (get (lit "id") (kv :: response)) as [video_id|] eqn:Eid;
    [|simpl; intros [= <-]; discriminate].
  destruct (truthy_val video_id) eqn:Et; [|intros [= <-]; discriminate].
  intros [= <-] _.
  exists size, (kv :: response), video_id. auto 10.
Qed.

Lemma api_success_is_genuine_witness :
  let env := Sample.api_env 1024 false (Raise (Error []))
               [ChunkProgress; Sample.done] in
  exists r,
    fst (fst (YouTubeAPI.upload_video env (Sample.account None)
                Sample.demo_path (lit "Demo") [] None (lit "22")
                (lit "private") [])) = Returned r
    /\ success r = true
    /\ exists size response video_id,
         YouTubeAPI.fs env Sample.demo_path = Some size
         /\ (size <= Config.MAX_FILE_SIZE)%Z
         /\ In (ChunkDone response) (YouTubeAPI.chunks env)
         /\ get (lit "id") response = Some video_id
         /\ truthy_val video_id = true
         /\ r = ok_result (val_text video_id) (watch_url (val_text video_id)).
Proof.
  intros env. eexists.
  split; [reflexivity|]. split; [reflexivity|].
  exact (api_success_is_genuine env (Sample.account None) Sample.demo_path
           (lit "Demo") [] None (lit "22") (lit "private") [] _
           eq_refl eq_refl).
Defined.

(* ===================================================================== *)
(** ** How many chunk calls an upload makes *)
(* ===================================================================== *)

Lemma api_loop_calls_le (script : list Chunk) :
  forall calls retry err,
    retry <= Config.MAX_RETRIES ->
    loop_calls (YouTubeAPI.upload_loop script calls retry err) + retry
      <= calls + count_progress script + Config.MAX_RETRIES + 1.
Proof.
  unfold count_progress.
  induction script as [|c rest IH]; intros calls retry err Hr; simpl;
    [lia|].
  destruct c as [|response|[st content text|text]]; simpl; try lia.
  - specialize (IH (S calls) retry err Hr). lia.
  - destruct (Config.retriable st); simpl; [|lia].
    destruct (Config.MAX_RETRIES <? S retry) eqn:E; simpl; [lia|].
    apply Nat.ltb_ge in E.
    specialize (IH (S calls) (S retry)
                  (Some (YouTubeAPI.http_error_text st content)) E).
    lia.
Qed.

Lemma next_chunks_app (a b : list Event) :
  next_chunks (a ++ b) = next_chunks a + next_chunks b.
Proof. unfold next_chunks. now rewrite filter_app, length_app. Qed.

Lemma next_chunks_repeat (n : nat) : next_chunks (repeat EvNextChunk n) = n.
Proof.
  unfold next_chunks. induction n as [|n IH]; simpl; [reflexivity|].
  now rewrite IH.
Qed.

Lemma service_makes_no_chunk_call (env : YouTubeAPI.Env)
    (account : SocialAccount) :
  next_chunks (snd (YouTubeAPI.get_youtube_service env account)) = 0.
Proof.
  destruct (service_uses_stored_token env account) as [_ [-> _]].
  reflexivity.
Qed.

(** X17: [YouTubeAPI.upload_video] calls [next_chunk] at most once per
    progress report, once per retried error (at most [MAX_RETRIES] = 3)
    and once more for the call that ends the loop, whatever the outcomes
    of the calls are. *)
Theorem api_next_chunk_bound (env : YouTubeAPI.Env) (account : SocialAccount)
    (path t d : str) (tg : option (list str)) (c p : str) (kw : dict val) :
  next_chunks (snd (YouTubeAPI.upload_video env account path t d tg c p kw))
    <= count_progress (YouTubeAPI.chunks env) + Config.MAX_RETRIES + 1.
Proof.
  assert (H0 : forall n, next_chunks [] <= n) by (intros n; apply Nat.le_0_l).
  rewrite api_upload_video_cases.
  destruct (YouTubeAPI.fs env path) as [size|]; simpl; [|apply H0].
  destruct (Config.MAX_FILE_SIZE <? size)%Z; simpl; [apply H0|].
  pose proof (service_makes_no_chunk_call env account) as Hs.
  destruct (YouTubeAPI.get_youtube_service env account)
    as [[[youtube|e] acc] tr]; simpl in *; [|lia].
  destruct (YouTubeAPI.media env); simpl; [|lia].
  assert (Hi : next_chunks [EvInsert (svc_token youtube)
                              (YouTubeAPI.body_of t d tg c p kw)] = 0)
    by reflexivity.
  destruct (YouTubeAPI.insert env); simpl.
  - rewrite !next_chunks_app, next_chunks_repeat, Hs, Hi.
    pose proof (api_loop_calls_le (YouTubeAPI.chunks env) 0 0 None
                  (Nat.le_0_l _)) as H.
    lia.
  - rewrite next_chunks_app, Hs, Hi. lia.
Qed.

(* ===================================================================== *)
(** ** [YouTubeUploader.upload_video] *)
(* ===================================================================== *)

(** X18: a success of [YouTubeUploader.upload_video] is a real one.  When
    the function answers with [success] set, the uploader was
    authenticated, the file was there, one of the [next_chunk] calls
    returned the provider's final response with an ["id"], the result
    carries this id and its watch URL, and the one upload request was
    created with the token of the uploader's service. *)
Theorem uploader_success_is_genuine (self : YouTubeUploader.Uploader)
    (env : YouTubeUploader.Env) (path t : str) (d : option str)
    (tg : option (list str)) (c p m : val) (r : PublishResult) :
  fst (YouTubeUploader.upload_video self env path t d tg c p m) = Returned r ->
  success r = true ->
  exists svc response video_id calls,
    YouTubeUploader.youtube_service self = Some svc
    /\ exists_ (YouTubeUploader.fs env) path = true
    /\ In (ChunkDone response) (YouTubeUploader.chunks env)
    /\ get (lit "id") response = Some video_id
    /\ r = ok_result (val_text video_id) (watch_url (val_text video_id))
    /\ snd (YouTubeUploader.upload_video self env path t d tg c p m)
       = EvInsert (svc_token svc)
           (YouTubeUploader.request_body t d tg c p m)
         :: repeat EvNextChunk (S calls).
Proof.
  unfold YouTubeUploader.upload_video.
  destruct (YouTubeUploader.youtube_service self) as [svc|]; cbn [fst snd negb];
    [|intros [= <-]; discriminate].
  destruct (exists_ (YouTubeUploader.fs env) path) eqn:Efs; cbn [fst snd negb];
    [|intros [= <-]; discriminate].
  assert (Hh : forall e, YouTubeUploader.handle env e = Returned r ->
                         success r = true -> False).
  { intros e. unfold YouTubeUploader.handle.
    destruct e as [st content text|text].
    - destruct (YouTubeUploader.error_message_of env content);
        [intros [= <-]|]; discriminate.
    - intros [= <-]; discriminate. }
  destruct (YouTubeUploader.media env); cbn [fst snd negb];
    [|intros H1 H2; destruct (Hh _ H1 H2)].
  destruct (YouTubeUploader.insert env); cbn [fst snd negb];
    [|intros H1 H2; destruct (Hh _ H1 H2)].
  remember (YouTubeUploader.upload_loop (YouTubeUploader.chunks env) 0 0)
    as fin eqn:Efin.
  destruct (loop_result fin) as [response|e|] eqn:El; cbn [fst snd negb];
    [|intros H1 H2; destruct (Hh _ H1 H2)|discriminate].
  assert (Hc : exists calls, loop_calls fin = S calls).
  { subst fin. clear - El. revert El. generalize 0 at 1 3. generalize 0.
    induction (YouTubeUploader.chunks env) as [|ch rest IH];
      intros retries calls El; simpl in *; [discriminate|].
    destruct ch; simpl in *; eauto. }
  subst fin. apply uploader_loop_returned in El.
  destruct Hc as [calls ->].
  destruct response as [|kv response]; cbn [fst snd];
    [intros [= <-]; discriminate|].
  destruct (get (lit "id") (kv :: response)) as [video_id|] eqn:Eid;
    cbn [fst snd]; [|intros [= <-]; discriminate].
  intros [= <-] _.
  exists svc, (kv :: response), video_id, calls. auto 10.
Qed.

Lemma uploader_success_is_genuine_witness :
  let env := Sample.uploader_env 1024 [Sample.timed_out; Sample.done] in
  exists r,
    fst (YouTubeUploader.upload_video Sample.authenticated env
           Sample.demo_path (lit "Demo") None None (VStr (lit "22"))
           (VStr (lit "private")) (VBool false)) = Returned r
    /\ success r = true
    /\ exists svc response video_id calls,
         YouTubeUploader.youtube_service Sample.authenticated = Some svc
         /\ exists_ (YouTubeUploader.fs env) Sample.demo_path = true
         /\ In (ChunkDone response) (YouTubeUploader.chunks env)
         /\ get (lit "id") response = Some video_id
         /\ r = ok_result (val_text video_id) (watch_url (val_text video_id))
         /\ snd (YouTubeUploader.upload_video Sample.authenticated env
                   Sample.demo_path (lit "Demo") None None (VStr (lit "22"))
                   (VStr (lit "private")) (VBool false))
            = EvInsert (svc_token svc)
                (YouTubeUploader.request_body (lit "Demo") None None
                   (VStr (lit "22")) (VStr (lit "private")) (VBool false))
              :: repeat EvNextChunk (S calls).
Proof.
  intros env. eexists.
  split; [reflexivity|]. split; [reflexivity|].
  exact (uploader_success_is_genuine Sample.authenticated env
           Sample.demo_path (lit "Demo") None None (VStr (lit "22"))
           (VStr (lit "private")) (VBool false) _ eq_refl eq_refl).
Defined.

(** X19: an exception leaves [YouTubeUploader.upload_video] in one way
    only: creating the media object or the upload request raised an
    [HttpError], and decoding its content in the handler raised in turn.
    It is this second exception that leaves, and no [next_chunk] call
    was made.  What [next_chunk] raises never leaves the function. *)
Theorem uploader_raises_only_from_handler (self : YouTubeUploader.Uploader)
    (env : YouTubeUploader.Env) (path t : str) (d : option str)
    (tg : option (list str)) (c p m : val) (e : Exn) :
  fst (YouTubeUploader.upload_video self env path t d tg c p m)
    = Propagated e ->
  (exists st content text,
      (YouTubeUploader.media env = Raise (HttpError st content text)
       \/ YouTubeUploader.insert env = Raise (HttpError st content text))
      /\ YouTubeUploader.error_message_of env content = Raise e)
  /\ next_chunks (snd (YouTubeUploader.upload_video self env path t d tg c p m))
     = 0.
Proof.
  unfold YouTubeUploader.upload_video.
  destruct (YouTubeUploader.youtube_service self) as [svc|]; cbn [fst snd negb];
    [|discriminate].
  destruct (exists_ (YouTubeUploader.fs env) path); cbn [fst snd negb]; [|discriminate].
  assert (Hh : forall e0, YouTubeUploader.handle env e0 = Propagated e ->
            exists st content text,
              e0 = HttpError st content text
              /\ YouTubeUploader.error_message_of env content = Raise e).
  { intros e0. unfold YouTubeUploader.handle.
    destruct e0 as [st content text|text]; [|discriminate].
    destruct (YouTubeUploader.error_message_of env content) eqn:Em;
      [discriminate|].
    intros [= <-]. eauto. }
  destruct (YouTubeUploader.media env) as [u|e0] eqn:Em; cbn [fst snd].
  - destruct (YouTubeUploader.insert env) as [u'|e0] eqn:Ei; cbn [fst snd].
    + pose proof (uploader_loop_never_raises (YouTubeUploader.chunks env) 0 0)
        as Hn.
      destruct (loop_result
                  (YouTubeUploader.upload_loop (YouTubeUploader.chunks env) 0 0))
        as [response|e0|]; cbn [fst snd].
      * destruct response as [|kv response]; [discriminate|].
        destruct (get (lit "id") (kv :: response)); discriminate.
      * destruct (Hn e0 eq_refl).
      * discriminate.
    + intros H. destruct (Hh _ H) as [st [content [text [-> He]]]].
      split; [|reflexivity]. exists st, content, text. auto.
  - intros H. destruct (Hh _ H) as [st [content [text [-> He]]]].
    split; [|reflexivity]. exists st, content, text. auto.
Qed.

Lemma uploader_raises_only_from_handler_witness :
  let env :=
    {| YouTubeUploader.fs := Sample.one_file 1024;
       YouTubeUploader.media := Ret tt;
       YouTubeUploader.insert :=
         Raise (HttpError 403 (lit "<html>") (lit "<HttpError 403>"));
       YouTubeUploader.chunks := [Sample.done];
       YouTubeUploader.error_message_of :=
         fun _ => Raise (Error (lit "Expecting value: line 1 column 1 (char 0)"))
    |} in
  let e := Error (lit "Expecting value: line 1 column 1 (char 0)") in
  fst (YouTubeUploader.upload_video Sample.authenticated env
         Sample.demo_path (lit "Demo") None None (VStr (lit "22"))
         (VStr (lit "private")) (VBool false)) = Propagated e
  /\ (exists st content text,
        (YouTubeUploader.media env = Raise (HttpError st content text)
         \/ YouTubeUploader.insert env = Raise (HttpError st content text))
        /\ YouTubeUploader.error_message_of env content = Raise e)
  /\ next_chunks (snd (YouTubeUploader.upload_video Sample.authenticated env
                         Sample.demo_path (lit "Demo") None None
                         (VStr (lit "22")) (VStr (lit "private"))
                         (VBool false))) = 0.
Proof.
  intros env e.
  assert (H : fst (YouTubeUploader.upload_video Sample.authenticated env
                     Sample.demo_path (lit "Demo") None None (VStr (lit "22"))
                     (VStr (lit "private")) (VBool false)) = Propagated e)
    by reflexivity.
  split; [exact H|].
  exact (uploader_raises_only_from_handler Sample.authenticated env
           Sample.demo_path (lit "Demo") None None (VStr (lit "22"))
           (VStr (lit "private")) (VBool false) e H).
Defined.

(** X20: [YouTubeUploader.upload_video] sets no limit on failing chunk
    calls.  With the uploader authenticated, the file there and the
    request created, after any number [n] of [next_chunk] calls that
    raise, whatever they raise, it calls again; when the provider's
    response with an ["id"] follows, the upload has made [n + 1] calls
    and is reported as a success. *)
Theorem uploader_never_gives_up (self : YouTubeUploader.Uploader)
    (env : YouTubeUploader.Env) (path t : str) (d : option str)
    (tg : option (list str)) (c p m : val) (svc : Service) (n : nat)
    (e : Exn) (response : dict val) (video_id : val) :
  YouTubeUploader.youtube_service self = Some svc ->
  exists_ (YouTubeUploader.fs env) path = true ->
  YouTubeUploader.media env = Ret tt ->
  YouTubeUploader.insert env = Ret tt ->
  YouTubeUploader.chunks env = repeat (ChunkRaise e) n ++ [ChunkDone response] ->
  get (lit "id") response = Some video_id ->
  YouTubeUploader.upload_video self env path t d tg c p m
  = (Returned (ok_result (val_text video_id) (watch_url (val_text video_id))),
     EvInsert (svc_token svc) (YouTubeUploader.request_body t d tg c p m)
       :: repeat EvNextChunk (n + 1)).
Proof.
  intros Hs Hf Hm Hi Hc Hid.
  unfold YouTubeUploader.upload_video.
  rewrite Hs, Hf, Hm, Hi, Hc, uploader_loop_unbounded.
  cbn [negb loop_result loop_calls Nat.add].
  destruct response as [|kv response]; [discriminate|].
  rewrite Hid. now rewrite Nat.add_1_r.
Qed.

Lemma uploader_never_gives_up_witness :
  let env := Sample.uploader_env 1024
               (repeat Sample.timed_out 40 ++ [Sample.done]) in
  YouTubeUploader.upload_video Sample.authenticated env Sample.demo_path
    (lit "Demo") None None (VStr (lit "22")) (VStr (lit "private"))
    (VBool false)
  = (Returned (ok_result (lit "abc123") (watch_url (lit "abc123"))),
     EvInsert (lit "stored-token")
       (YouTubeUploader.request_body (lit "Demo") None None
          (VStr (lit "22")) (VStr (lit "private")) (VBool false))
       :: repeat EvNextChunk (40 + 1)).
Proof.
  intros env.
  exact (uploader_never_gives_up Sample.authenticated env Sample.demo_path
           (lit "Demo") None None (VStr (lit "22")) (VStr (lit "private"))
           (VBool false) _ 40 (Error (lit "timed out")) _
           (VStr (lit "abc123")) eq_refl eq_refl eq_refl eq_refl eq_refl
           eq_refl).
Defined.

(* ===================================================================== *)
(** ** [YouTubeIntegration.post_video] *)
(* ===================================================================== *)

(** X21: a [post_data] without ["title"], ["description"] or ["tags"].
    [YouTubeIntegration.post_video] answers with a failure whose error is
    the name of the first absent key in quotes, and sends nothing. *)
Theorem integration_missing_key (env : YouTubeIntegration.Env) (token : str)
    (pd : YouTubeIntegration.PostData) (k : string) :
  first_missing pd = Some k ->
  YouTubeIntegration.post_video env token pd
  = (Ret (fail_result (lit "'" ++ lit k ++ lit "'")), []).
Proof.
  unfold first_missing, YouTubeIntegration.post_video,
    YouTubeIntegration.post_video_try, YouTubeIntegration.snippet_of.
  destruct (YouTubeIntegration.pd_title pd) as [title|];
    [|intros [= <-]; reflexivity].
  destruct (YouTubeIntegration.pd_description pd) as [description|];
    [|intros [= <-]; reflexivity].
  destruct (YouTubeIntegration.pd_tags pd) as [tags|];
    [discriminate|intros [= <-]; reflexivity].
Qed.

Lemma integration_missing_key_witness :
  let pd :=
    {| YouTubeIntegration.pd_title := Some (lit "Demo");
       YouTubeIntegration.pd_description := Some None;
       YouTubeIntegration.pd_tags := None;
       YouTubeIntegration.pd_platform_settings := None;
       YouTubeIntegration.pd_video_path := Some Sample.demo_path |} in
  first_missing pd = Some "tags"%string
  /\ YouTubeIntegration.post_video Sample.integration_env (lit "token") pd
     = (Ret (fail_result (lit "'tags'")), []).
Proof.
  intros pd.
  assert (H : first_missing pd = Some "tags"%string) by reflexivity.
  split; [exact H|].
  exact (integration_missing_key Sample.integration_env (lit "token") pd
           "tags"%string H).
Defined.

Lemma integration_upload_file_trace (env : YouTubeIntegration.Env)
    (location path : str) :
  match YouTubeIntegration.fs env path with
  | Some _ =>
      snd (YouTubeIntegration._upload_video_file env location path)
      = [EvHttpPut]
  | None =>
      snd (YouTubeIntegration._upload_video_file env location path) = []
      /\ exists e,
           fst (YouTubeIntegration._upload_video_file env location path)
           = Raise e
  end.
Proof.
  unfold YouTubeIntegration._upload_video_file.
  destruct (YouTubeIntegration.fs env path);
    [|split; [reflexivity | eexists; reflexivity]].
  destruct (YouTubeIntegration.session_put env) as [resp|e]; [|reflexivity].
  destruct (YouTubeIntegration.is_ok (YouTubeIntegration.put_status resp));
    reflexivity.
Qed.

(** X22: when [YouTubeIntegration.post_video] sends the file.  The [PUT]
    of the file is made only after the session request was answered with
    status 200 or 201 and a non-empty [Location], for a [post_data] that
    has all its keys and names a file that is there; the calls made are
    then the session request, with the caller's token, followed by the
    one [PUT]. *)
Theorem integration_put_guarded (env : YouTubeIntegration.Env) (token : str)
    (pd : YouTubeIntegration.PostData) :
  In EvHttpPut (snd (YouTubeIntegration.post_video env token pd)) ->
  exists resp location path size body,
    YouTubeIntegration.session_post env = Ret resp
    /\ YouTubeIntegration.is_ok (YouTubeIntegration.resp_status resp) = true
    /\ YouTubeIntegration.resp_location resp = Some location
    /\ location <> []
    /\ first_missing pd = None
    /\ YouTubeIntegration.pd_video_path pd = Some path
    /\ YouTubeIntegration.fs env path = Some size
    /\ snd (YouTubeIntegration.post_video env token pd)
       = [EvHttpPost token body; EvHttpPut].
Proof.
  assert (Hno : forall body, In EvHttpPut [EvHttpPost token body] -> False).
  { intros body [H|[]]. discriminate. }
  unfold YouTubeIntegration.post_video, YouTubeIntegration.post_video_try.
  destruct (YouTubeIntegration.snippet_of pd _) as [snippet|e] eqn:Es;
    [|intros []].
  assert (Hm : first_missing pd = None).
  { revert Es. unfold first_missing, YouTubeIntegration.snippet_of.
    destruct (YouTubeIntegration.pd_title pd); [|discriminate].
    destruct (YouTubeIntegration.pd_description pd); [|discriminate].
    destruct (YouTubeIntegration.pd_tags pd); [reflexivity|discriminate]. }
  destruct (YouTubeIntegration.session_post env) as [resp|e];
    [|intros H; destruct (Hno _ H)].
  assert (Hfailed : forall failed : Res PublishResult,
    In EvHttpPut
      (snd match (failed, [EvHttpPost token
                             {| snippet := snippet;
                                status := YouTubeIntegration.status_settings_of
                                  match YouTubeIntegration.pd_platform_settings pd with
                                  | Some s => s
                                  | None => []
                                  end |}]) with
           | (Raise e, trace) => (Ret (fail_result (exn_str e)), trace)
           | r => r
           end) -> False).
  { intros [r|e] H; exact (Hno _ H). }
  destruct (YouTubeIntegration.is_ok (YouTubeIntegration.resp_status resp))
    eqn:Eok; [|intros H; destruct (Hfailed _ H)].
  destruct (YouTubeIntegration.resp_location resp) as [[|x location]|] eqn:El;
    try (intros H; destruct (Hfailed _ H)).
  destruct (YouTubeIntegration.pd_video_path pd) as [path|] eqn:Ep;
    [|intros H; destruct (Hno _ H)].
  cbn [item].
  pose proof (integration_upload_file_trace env (x :: location) path) as Hf.
  destruct (YouTubeIntegration.fs env path) as [size|] eqn:Efs.
  - destruct (YouTubeIntegration._upload_video_file env (x :: location) path)
      as [video_result sent]. cbn [snd] in Hf. subst sent.
    intros _.
    exists resp, (x :: location), path, size. eexists.
    repeat (split; [first [eassumption | reflexivity | discriminate]|]).
    destruct video_result as [json|e]; [|reflexivity].
    cbn [bind]. destruct (get (lit "id") json); reflexivity.
  - destruct Hf as [Hs [e He]].
    destruct (YouTubeIntegration._upload_video_file env (x :: location) path)
      as [video_result sent]. cbn [fst snd] in Hs, He. subst.
    intros H. destruct (Hno _ H).
Qed.

Lemma integration_put_guarded_witness :
  In EvHttpPut
     (snd (YouTubeIntegration.post_video Sample.integration_env (lit "token")
             Sample.post_data51))
  /\ exists resp location path size body,
       YouTubeIntegration.session_post Sample.integration_env = Ret resp
       /\ YouTubeIntegration.is_ok (YouTubeIntegration.resp_status resp) = true
       /\ YouTubeIntegration.resp_location resp = Some location
       /\ location <> []
       /\ first_missing Sample.post_data51 = None
       /\ YouTubeIntegration.pd_video_path Sample.post_data51 = Some path
       /\ YouTubeIntegration.fs Sample.integration_env path = Some size
       /\ snd (YouTubeIntegration.post_video Sample.integration_env
                 (lit "token") Sample.post_data51)
          = [EvHttpPost (lit "token") body; EvHttpPut].
Proof.
  assert (H : In EvHttpPut
     (snd (YouTubeIntegration.post_video Sample.integration_env (lit "token")
             Sample.post_data51))) by (right; left; reflexivity).
  split; [exact H|].
  exact (integration_put_guarded Sample.integration_env (lit "token")
           Sample.post_data51 H).
Defined.

(** X23: a success of [YouTubeIntegration.post_video] is a real one.  When
    the function answers with [success] set, the [PUT] of the file was
    answered with status 200 or 201 and a document that holds an ["id"];
    the result carries this id and its watch URL. *)
Theorem integration_success_is_genuine (env : YouTubeIntegration.Env)
    (token : str) (pd : YouTubeIntegration.PostData) (r : PublishResult) :
  fst (YouTubeIntegration.post_video env token pd) = Ret r ->
  success r = true ->
  exists put json video_id,
    YouTubeIntegration.session_put env = Ret put
    /\ YouTubeIntegration.is_ok (YouTubeIntegration.put_status put) = true
    /\ YouTubeIntegration.put_json put = Ret json
    /\ get (lit "id") json = Some video_id
    /\ r = ok_result (val_text video_id) (watch_url (val_text video_id))
    /\ In EvHttpPut (snd (YouTubeIntegration.post_video env token pd)).
Proof.
  assert (Hbad : forall (e : Exn) (tr : list Event),
            fst (Ret (fail_result (exn_str e)), tr) = Ret r ->
            success r = true -> False).
  { intros e tr [= <-]. discriminate. }
  unfold YouTubeIntegration.post_video, YouTubeIntegration.post_video_try.
  destruct (YouTubeIntegration.snippet_of pd _) as [snippet|e];
    [|intros H1 H2; destruct (Hbad _ _ H1 H2)].
  destruct (YouTubeIntegration.session_post env) as [resp|e];
    [|intros H1 H2; destruct (Hbad _ _ H1 H2)].
  assert (Hfailed : forall tr : list Event,
    fst match
          (match YouTubeIntegration.resp_text resp with
           | Raise e => Raise e
           | Ret error =>
               Ret (fail_result (lit "YouTube upload failed: " ++ error))
           end, tr)
        with
        | (Raise e, trace) => (Ret (fail_result (exn_str e)), trace)
        | r => r
        end = Ret r -> success r = true -> False).
  { intros tr. destruct (YouTubeIntegration.resp_text resp);
      intros [= <-]; discriminate. }
  destruct (YouTubeIntegration.is_ok (YouTubeIntegration.resp_status resp));
    [|intros H1 H2; destruct (Hfailed _ H1 H2)].
  destruct (YouTubeIntegration.resp_location resp) as [[|x location]|];
    try (intros H1 H2; destruct (Hfailed _ H1 H2)).
  destruct (YouTubeIntegration.pd_video_path pd) as [path|];
    [|intros H1 H2; destruct (Hbad _ _ H1 H2)].
  cbn [item]. unfold YouTubeIntegration._upload_video_file.
  destruct (YouTubeIntegration.fs env path) as [size|];
    [|intros H1 H2; destruct (Hbad _ _ H1 H2)].
  destruct (YouTubeIntegration.session_put env) as [put|e];
    [|intros H1 H2; destruct (Hbad _ _ H1 H2)].
  destruct (YouTubeIntegration.is_ok (YouTubeIntegration.put_status put))
    eqn:Eok; [|intros H1 H2; destruct (Hbad _ _ H1 H2)].
  destruct (YouTubeIntegration.put_json put) as [json|e] eqn:Ej;
    [|intros H1 H2; destruct (Hbad _ _ H1 H2)].
  cbn [bind].
  destruct (get (lit "id") json) as [video_id|] eqn:Eid;
    [|intros H1 H2; destruct (Hbad _ _ H1 H2)].
  cbn [item bind fst snd]. intros [= <-] _.
  exists put, json, video_id.
  repeat (split; [first [reflexivity | eassumption]|]).
  apply in_or_app. right. now left.
Qed.

Lemma integration_success_is_genuine_witness :
  exists r,
    fst (YouTubeIntegration.post_video Sample.integration_env (lit "token")
           Sample.post_data51) = Ret r
    /\ success r = true
    /\ exists put json video_id,
         YouTubeIntegration.session_put Sample.integration_env = Ret put
         /\ YouTubeIntegration.is_ok (YouTubeIntegration.put_status put) = true
         /\ YouTubeIntegration.put_json put = Ret json
         /\ get (lit "id") json = Some video_id
         /\ r = ok_result (val_text video_id) (watch_url (val_text video_id))
         /\ In EvHttpPut
              (snd (YouTubeIntegration.post_video Sample.integration_env
                      (lit "token") Sample.post_data51)).
Proof.
  eexists. split; [reflexivity|]. split; [reflexivity|].
  exact (integration_success_is_genuine Sample.integration_env (lit "token")
           Sample.post_data51 _ eq_refl eq_refl).
Defined.

(* ===================================================================== *)
(** ** [post_to_platform] *)
(* ===================================================================== *)

Lemma same_but_token_and_use_refl (a : SocialAccount) :
  same_but_token_and_use a a.
Proof. unfold same_but_token_and_use. auto 20. Qed.

Lemma service_account_same (env : YouTubeAPI.Env) (account : SocialAccount) :
  same_but_token_and_use account
    (snd (fst (YouTubeAPI.get_youtube_service env account))).
Proof.
  destruct (service_uses_stored_token env account) as [-> _].
  apply same_but_token_and_use_refl.
Qed.

Lemma api_upload_account_same (env : YouTubeAPI.Env) (account : SocialAccount)
    (path t d : str) (tg : option (list str)) (c p : str) (kw : dict val) :
  same_but_token_and_use account
    (snd (fst (YouTubeAPI.upload_video env account path t d tg c p kw))).
Proof.
  rewrite api_upload_video_cases.
  destruct (YouTubeAPI.fs env path) as [size|];
    [|apply same_but_token_and_use_refl].
  destruct (Config.MAX_FILE_SIZE <? size)%Z;
    [apply same_but_token_and_use_refl|].
  pose proof (service_account_same env account) as H.
  destruct (YouTubeAPI.get_youtube_service env account)
    as [[[youtube|e] acc] tr]; simpl in H; [|exact H].
  destruct (YouTubeAPI.media env); [|exact H].
  destruct (YouTubeAPI.insert env); exact H.
Qed.

Lemma api_upload_running (env : YouTubeAPI.Env) (account : SocialAccount)
    (path t d : str) (tg : option (list str)) (c p : str) (kw : dict val) :
  fst (fst (YouTubeAPI.upload_video env account path t d tg c p kw)) = Running ->
  forallb passable (YouTubeAPI.chunks env) = true.
Proof.
  rewrite api_upload_video_cases.
  destruct (YouTubeAPI.fs env path) as [size|]; simpl; [|discriminate].
  destruct (Config.MAX_FILE_SIZE <? size)%Z; simpl; [discriminate|].
  destruct (YouTubeAPI.get_youtube_service env account)
    as [[[youtube|e] acc] tr]; simpl; [|discriminate].
  destruct (YouTubeAPI.media env); simpl; [|discriminate].
  destruct (YouTubeAPI.insert env); simpl; [|discriminate].
  destruct (api_answer_well_formed
              (YouTubeAPI.upload_loop (YouTubeAPI.chunks env) 0 0 None))
    as [[r [-> _]]|[_ H]]; [discriminate|].
  intros _. now apply api_loop_running in H.
Qed.

Lemma api_upload_never_raises (env : YouTubeAPI.Env) (account : SocialAccount)
    (path t d : str) (tg : option (list str)) (c p : str) (kw : dict val)
    (e : Exn) :
  fst (fst (YouTubeAPI.upload_video env account path t d tg c p kw))
    <> Propagated e.
Proof.
  rewrite api_upload_video_cases.
  destruct (YouTubeAPI.fs env path) as [size|]; simpl; [|discriminate].
  destruct (Config.MAX_FILE_SIZE <? size)%Z; simpl; [discriminate|].
  destruct (YouTubeAPI.get_youtube_service env account)
    as [[[youtube|e'] acc] tr]; simpl; [|discriminate].
  destruct (YouTubeAPI.media env); simpl; [|discriminate].
  destruct (YouTubeAPI.insert env); simpl; [|discriminate].
  destruct (api_answer_well_formed
              (YouTubeAPI.upload_loop (YouTubeAPI.chunks env) 0 0 None))
    as [[r [-> _]]|[-> _]]; discriminate.
Qed.

(** X24: no exception leaves [post_to_platform].  It returns a
    dictionary or [None]; it is still waiting only while a YouTube upload
    is, that is when every [next_chunk] outcome supplied was a progress
    report or a retriable error, and then the store is as it was. *)
Theorem post_to_platform_never_raises (env : Platform.PostEnv)
    (db : Router.DB) (account : SocialAccount) (video_path : str)
    (post_data : Platform.PostData) :
  let '(out, db', _) :=
    Platform.post_to_platform env db account video_path post_data in
  (exists result, out = Returned result)
  \/ (out = Running
      /\ platform account = lit "youtube"
      /\ forallb passable (YouTubeAPI.chunks (Platform.upload_env env)) = true
      /\ db' = db).
Proof.
  unfold Platform.post_to_platform.
  destruct (Platform.get_platform_api (platform account)) as [api|e];
    [|left; eauto].
  destruct (str_eqb (platform account) (lit "youtube")) eqn:Ey.
  - apply str_eqb_eq in Ey.
    destruct (Platform.keyword_clash _) as [k|]; [left; eauto|].
    match goal with
    | |- context [YouTubeAPI.upload_video ?e ?a ?v ?t ?d ?tg ?c ?p ?kw] =>
        pose proof (api_upload_running e a v t d tg c p kw) as Hrun;
        pose proof (api_upload_never_raises e a v t d tg c p kw) as Hnr;
        destruct (YouTubeAPI.upload_video e a v t d tg c p kw)
          as [[[result|e'|] account'] trace]
    end; simpl in Hrun, Hnr.
    + destruct (Platform.post_commit env); left; eauto.
    + destruct (Hnr e' eq_refl).
    + right. auto.
  - destruct (Platform.post_commit env); left; eauto.
Qed.

Lemma save_account_frame (db : Router.DB) (account a' : SocialAccount) :
  In a' (Router.accounts (Platform.save_account db account)) ->
  In a' (Router.accounts db) \/ a' = account.
Proof.
  unfold Platform.save_account. simpl.
  intros H. apply in_map_iff in H. destruct H as [a [Ha Hin]].
  destruct (N.eqb (id a) (id account)); subst; auto.
Qed.

(** X25: what [post_to_platform] changes in the store.  Posts and videos
    are as before and no account row is added or removed; a row that
    differs from the rows before stands for the account that was passed,
    with the time of the call as its last use and with nothing but the
    access token and its expiry changed besides. *)
Theorem post_to_platform_frame (env : Platform.PostEnv)
    (db : Router.DB) (account : SocialAccount) (video_path : str)
    (post_data : Platform.PostData) :
  let db' :=
    snd (fst (Platform.post_to_platform env db account video_path post_data)) in
  Router.posts db' = Router.posts db
  /\ Router.videos db' = Router.videos db
  /\ List.length (Router.accounts db') = List.length (Router.accounts db)
  /\ forall a', In a' (Router.accounts db') ->
       In a' (Router.accounts db)
       \/ (same_but_token_and_use account a'
           /\ last_used_at a' = Some (Platform.post_now env)).
Proof.
  assert (Hsame : forall d : Router.DB,
    Router.posts d = Router.posts d /\ Router.videos d = Router.videos d
    /\ List.length (Router.accounts d) = List.length (Router.accounts d)
    /\ forall a', In a' (Router.accounts d) ->
         In a' (Router.accounts d)
         \/ (same_but_token_and_use account a'
             /\ last_used_at a' = Some (Platform.post_now env))).
  { intros d. auto. }
  assert (Hsave : forall acc, same_but_token_and_use account acc ->
    let d := Platform.save_account db
               (Platform.touched acc (Platform.post_now env)) in
    Router.posts d = Router.posts db /\ Router.videos d = Router.videos db
    /\ List.length (Router.accounts d) = List.length (Router.accounts db)
    /\ forall a', In a' (Router.accounts d) ->
         In a' (Router.accounts db)
         \/ (same_but_token_and_use account a'
             /\ last_used_at a' = Some (Platform.post_now env))).
  { intros acc Hacc. cbv zeta.
    split; [reflexivity|]. split; [reflexivity|].
    split; [unfold Platform.save_account; simpl; apply length_map|].
    intros a' Ha. apply save_account_frame in Ha.
    destruct Ha as [Ha | ->]; [now left|].
    right. split; [|reflexivity].
    unfold same_but_token_and_use in *. simpl. exact Hacc. }
  cbv zeta. unfold Platform.post_to_platform.
  destruct (Platform.get_platform_api (platform account)) as [api|e];
    [|apply Hsame].
  destruct (str_eqb (platform account) (lit "youtube")).
  - destruct (Platform.keyword_clash _) as [k|]; [apply Hsame|].
    match goal with
    | |- context [YouTubeAPI.upload_video ?e ?a ?v ?t ?d ?tg ?c ?p ?kw] =>
        pose proof (api_upload_account_same e a v t d tg c p kw) as Hacc;
        destruct (YouTubeAPI.upload_video e a v t d tg c p kw)
          as [[[result|e'|] account'] trace]
    end; simpl in Hacc; try apply Hsame.
    destruct (Platform.post_commit env); [|apply Hsame].
    apply (Hsave _ Hacc).
  - destruct (Platform.post_commit env); [|apply Hsame].
    apply (Hsave _ (same_but_token_and_use_refl account)).
Qed.

(** X26: [post_to_platform] for an account that is not a YouTube one.  No
    call leaves the process.  For a platform other than ["instagram"] and
    ["facebook"] the answer is the failure "Unsupported platform: " with
    the platform's name, and the store is as it was.  For these two the
    answer is [None], not a dictionary, once the commit went through, and
    the account is stamped as used; a commit that raises gives a failure
    with its text. *)
Theorem post_to_platform_other_platforms (env : Platform.PostEnv)
    (db : Router.DB) (account : SocialAccount) (video_path : str)
    (post_data : Platform.PostData) :
  platform account <> lit "youtube" ->
  Platform.post_to_platform env db account video_path post_data
  = if str_eqb (platform account) (lit "instagram")
       || str_eqb (platform account) (lit "facebook")
    then match Platform.post_commit env with
         | Ret _ =>
             (Returned None,
              Platform.save_account db
                (Platform.touched account (Platform.post_now env)),
              [])
         | Raise e => (Returned (Some (fail_result (exn_str e))), db, [])
         end
    else (Returned (Some (fail_result
                      (lit "Unsupported platform: " ++ platform account))),
          db, []).
Proof.
  intros Hy.
  unfold Platform.post_to_platform, Platform.get_platform_api.
  destruct (str_eqb (platform account) (lit "youtube")) eqn:Ey.
  - apply str_eqb_eq in Ey. contradiction.
  - destruct (str_eqb (platform account) (lit "instagram")); [reflexivity|].
    destruct (str_eqb (platform account) (lit "facebook")); reflexivity.
Qed.

Lemma post_to_platform_other_platforms_witness :
  let env :=
    {| Platform.post_now := 70;
       Platform.upload_env :=
         Sample.api_env 1024 false (Raise (Error [])) [Sample.done];
       Platform.multiple_values_text := fun k => k;
       Platform.post_commit := Ret tt |} in
  let account := Platform.touched Scenario.bob_account 0 in
  let tiktok :=
    {| id := 31%N; user_id := 77%N; platform := lit "tiktok";
       platform_user_id := None; platform_username := None;
       platform_email := None; display_name := None;
       access_token := lit "t"; refresh_token := None;
       token_expires_at := None; primary_id := None;
       platform_metadata := None; is_active := true; is_verified := false;
       connected_at := None; last_used_at := None;
       last_token_refresh := None |} in
  platform tiktok <> lit "youtube"
  /\ Platform.post_to_platform env Scenario.shared_db tiktok Sample.demo_path
       {| Platform.pd_title := None; Platform.pd_description := None;
          Platform.pd_tags := None; Platform.pd_category_id := None;
          Platform.pd_privacy_status := None;
          Platform.pd_youtube_settings := None |}
     = (Returned (Some (fail_result (lit "Unsupported platform: tiktok"))),
        Scenario.shared_db, []).
Proof.
  intros env account tiktok.
  assert (H : platform tiktok <> lit "youtube") by discriminate.
  split; [exact H|].
  exact (post_to_platform_other_platforms env Scenario.shared_db tiktok
           Sample.demo_path _ H).
Defined.

(* ===================================================================== *)
(** ** The OAuth helpers of social/utils.py *)
(* ===================================================================== *)

(** X27: [get_oauth_url] serves ["youtube"] only.  For any other platform
    it raises "Platform not supported: " with the name.  When it returns,
    the credentials file was there, the URL is the one the Google flow
    gave and the state is the random token drawn; the user id passed has
    no part in what is returned or raised. *)
Theorem oauth_url_only_for_youtube (env : Platform.OAuthEnv)
    (name user_id : str) :
  (name <> lit "youtube" ->
   Platform.get_oauth_url env name user_id
   = Raise (Error (lit "Platform not supported: " ++ name)))
  /\ (forall r, Platform.get_oauth_url env name user_id = Ret r ->
        name = lit "youtube"
        /\ exists_ (Platform.fs env) (Platform.youtube_credentials_file env)
           = true
        /\ Platform.authorization_url env = Ret (Platform.auth_url r)
        /\ Platform.state r = Platform.token_urlsafe env)
  /\ (forall other, Platform.get_oauth_url env name other
                    = Platform.get_oauth_url env name user_id).
Proof.
  unfold Platform.get_oauth_url, Platform.get_platform_config,
    Platform.get_oauth_flow.
  destruct (str_eqb name (lit "youtube")) eqn:Ey.
  - apply str_eqb_eq in Ey. split; [intros H; contradiction|].
    split; [|reflexivity].
    intros r.
    destruct (exists_ (Platform.fs env) (Platform.youtube_credentials_file env));
      simpl; [|discriminate].
    destruct (Platform.from_client_secrets_file env); simpl; [|discriminate].
    destruct (Platform.authorization_url env); simpl; [|discriminate].
    intros [= <-]. auto.
  - split; [reflexivity|]. split; [discriminate|reflexivity].
Qed.

(** X28: [handle_oauth_callback] links nothing.  Whatever the provider
    answers, the function never returns an account and leaves the store
    as it was: for ["youtube"] it always raises, since the query of
    [handle_youtube_callback] names a column the account table does not
    have, and for every other platform it returns [None]. *)
Theorem oauth_callback_links_nothing (env : Platform.OAuthEnv)
    (db : Router.DB) (name code state_ user_id : str) :
  snd (Platform.handle_oauth_callback env db name code state_ user_id) = db
  /\ (forall a,
        fst (Platform.handle_oauth_callback env db name code state_ user_id)
        <> Ret (Some a))
  /\ (if str_eqb name (lit "youtube")
      then exists e,
        fst (Platform.handle_oauth_callback env db name code state_ user_id)
        = Raise e
      else
        fst (Platform.handle_oauth_callback env db name code state_ user_id)
        = Ret None).
Proof.
  unfold Platform.handle_oauth_callback, Platform.handle_youtube_callback,
    Platform.handle_generic_oauth_callback.
  destruct (str_eqb name (lit "youtube")); simpl;
    [|split; [reflexivity|split; [discriminate|reflexivity]]].
  split; [reflexivity|].
  destruct (Platform.get_oauth_flow env); simpl;
    [|split; [intros acc; discriminate | eexists; reflexivity]].
  destruct (Platform.fetch_token env); simpl;
    [|split; [intros acc; discriminate | eexists; reflexivity]].
  destruct (Platform.build env); simpl;
    [|split; [intros acc; discriminate | eexists; reflexivity]].
  destruct (Platform.channels env) as [[[|[u|e] rest]|]|e]; simpl;
    (split; [intros acc; discriminate | eexists; reflexivity]).
Qed.

(* ===================================================================== *)
(** ** Stored tokens and their expiry *)
(* ===================================================================== *)

(** C6: an expired token is uploaded as it is.  [get_youtube_service]
    makes its credentials from the stored tokens without their expiry,
    so the credentials never report expired and the branch under
    "Refresh token if expired" is never taken.  For an account whose
    stored access token has expired and that has a refresh token, and a
    file that passes the checks, [YouTubeAPI.upload_video] makes no
    refresh: the first call is the build of the service with the stored
    token, every upload request is created with that token, and the
    account is left as it was.  [create_posts], which hands the stored
    tokens to its uploader, makes no refresh either. *)
Theorem stale_token_is_uploaded (env : YouTubeAPI.Env)
    (account : SocialAccount) (path t d : str) (tg : option (list str))
    (c p : str) (kw : dict val) (size exp : Z)
    (envs : nat -> Router.PostEnv) (db : Router.DB)
    (uploader : YouTubeUploader.Uploader) (request : Router.PostRequest)
    (user : Router.User) (st : Router.PostState) :
  token_expires_at account = Some exp ->
  YouTubeAPI.past env exp = true ->
  truthy_opt (refresh_token account) = true ->
  YouTubeAPI.fs env path = Some size ->
  (Config.MAX_FILE_SIZE <? size)%Z = false ->
  Router.create_posts envs db uploader request user = Returned st ->
  let r := YouTubeAPI.upload_video env account path t d tg c p kw in
  snd (fst r) = account
  /\ (exists rest,
        snd r = EvBuild (access_token account) :: rest
        /\ uploads_with (access_token account) rest)
  /\ (forall rt, ~ In (EvRefresh rt) (snd r))
  /\ (forall rt, ~ In (EvRefresh rt) (Router.st_trace st)).
Proof.
  intros _ _ _ Hfs Hsize Hposts r. subst r.
  assert (Hapi :
    snd (fst (YouTubeAPI.upload_video env account path t d tg c p kw)) = account
    /\ exists rest,
         snd (YouTubeAPI.upload_video env account path t d tg c p kw)
         = EvBuild (access_token account) :: rest
         /\ uploads_with (access_token account) rest).
  { rewrite api_upload_video_cases, Hfs, Hsize.
    destruct (service_uses_stored_token env account) as [Ha [Htr Hsvc]].
    destruct (YouTubeAPI.get_youtube_service env account)
      as [[[youtube|e] acc] tr]; cbn [fst snd] in Ha, Htr, Hsvc; subst acc tr.
    - specialize (Hsvc youtube eq_refl).
      destruct (YouTubeAPI.media env); cbn [fst snd].
      + destruct (YouTubeAPI.insert env); cbn [fst snd app].
        * split; [reflexivity|]. eexists. split; [reflexivity|].
          constructor; [exact Hsvc|]. apply uploads_with_chunks.
        * split; [reflexivity|]. eexists. split; [reflexivity|].
          constructor; [exact Hsvc | constructor].
      + split; [reflexivity|]. exists []. split; [reflexivity | constructor].
    - cbn [fst snd]. split; [reflexivity|].
      exists []. split; [reflexivity | constructor]. }
  destruct Hapi as [Hacc [rest [Htr Hrest]]].
  split; [exact Hacc|]. split; [exists rest; auto|].
  split.
  - intros rt Hin. rewrite Htr in Hin. destruct Hin as [Hin | Hin];
      [discriminate|].
    unfold uploads_with in Hrest. rewrite Forall_forall in Hrest.
    exact (Hrest _ Hin).
  - intros rt Hin.
    pose proof (create_posts_loop_calls _ _ _ _ _ _ _ _ Hposts eq_refl
                  (Forall_nil _)) as Hall.
    rewrite Forall_forall in Hall. exact (Hall _ Hin).
Qed.

Lemma stale_token_is_uploaded_witness :
  let env := Sample.api_env 1024 true (Ret (lit "fresh-token", None))
               [Sample.done] in
  let account := Sample.account (Some (lit "refresh-token")) in
  let r := YouTubeAPI.upload_video env account Sample.demo_path (lit "Demo") []
             None (lit "22") (lit "private") [] in
  token_expires_at account = Some 1000%Z
  /\ YouTubeAPI.past env 1000 = true
  /\ truthy_opt (refresh_token account) = true
  /\ fst (fst r)
     = Returned (ok_result (lit "abc123") (watch_url (lit "abc123")))
  /\ snd r = [EvBuild (lit "stored-token");
              EvInsert (lit "stored-token")
                (YouTubeAPI.body_of (lit "Demo") [] None (lit "22")
                   (lit "private") []);
              EvNextChunk]
  /\ snd (fst r) = account
  /\ (forall rt, ~ In (EvRefresh rt) (snd r)).
Proof.
  intros env account r.
  split; [reflexivity|]. split; [reflexivity|]. split; [reflexivity|].
  split; [reflexivity|]. split; [reflexivity|].
  destruct (Router.create_posts Sample.post_env Scenario.shared_db
              YouTubeUploader.new (Sample.request [lit "youtube"])
              Sample.alice) as [st| |] eqn:E; [|discriminate E|discriminate E].
  destruct (stale_token_is_uploaded env account Sample.demo_path (lit "Demo")
              [] None (lit "22") (lit "private") [] 1024 1000
              Sample.post_env Scenario.shared_db YouTubeUploader.new
              (Sample.request [lit "youtube"]) Sample.alice st
              eq_refl eq_refl eq_refl eq_refl eq_refl E)
    as [Ha [_ [Hno _]]].
  split; [exact Ha | exact Hno].
Defined.
